(** * zip_data.py: the census vector-tile downloader

    A shallow embedding of [src/zip_data.py] and the properties of its
    per-tile fetch loop [download_tile].

    Python [bytes] and [str] values are modelled as [string] (a sequence of
    8-bit characters; header values are Latin-1 code points), Python [int]
    as [Z].  The file system is a finite map from paths to file contents.
    Everything outside the process (what [session.get] answers, whether a
    disk operation fails) is an explicit environment argument. *)

From Stdlib Require Import ZArith NArith Ascii String List Bool Lia.
From Stdlib Require Import DecimalString DecimalZ DecimalPos.
From stdpp Require Import base gmap strings list sorting.

Local Open Scope Z_scope.

(** ** Strings *)

Module Str.

Fixpoint all (P : ascii -> bool) (s : string) : bool :=
  match s with
  | EmptyString => true
  | String c r => P c && all P r
  end.

Fixpoint map (f : ascii -> ascii) (s : string) : string :=
  match s with
  | EmptyString => EmptyString
  | String c r => String (f c) (map f r)
  end.

(** [s[:n]] *)
Fixpoint take (n : nat) (s : string) : string :=
  match n, s with
  | S k, String c r => String c (take k r)
  | _, _ => EmptyString
  end.

Fixpoint drop_while (P : ascii -> bool) (s : string) : string :=
  match s with
  | EmptyString => EmptyString
  | String c r => if P c then drop_while P r else s
  end.

Fixpoint take_while (P : ascii -> bool) (s : string) : string :=
  match s with
  | EmptyString => EmptyString
  | String c r => if P c then String c (take_while P r) else EmptyString
  end.

(** [s.startswith(p)] *)
Fixpoint startswith (s p : string) {struct p} : bool :=
  match p, s with
  | EmptyString, _ => true
  | String a p', String b s' => Ascii.eqb a b && startswith s' p'
  | String _ _, EmptyString => false
  end.

(** [s.endswith(c)] for a one-character [c] *)
Fixpoint endswith_char (s : string) (c : ascii) : bool :=
  match s with
  | EmptyString => false
  | String a EmptyString => Ascii.eqb a c
  | String _ r => endswith_char r c
  end.

Definition is_empty (s : string) : bool :=
  match s with EmptyString => true | _ => false end.

Definition code (c : ascii) : N := N_of_ascii c.

(** ASCII whitespace, the set [bytes.lstrip()] removes. *)
Definition bytes_space (c : ascii) : bool :=
  let n := code c in
  ((9 <=? n) && (n <=? 13) || (n =? 32))%N.

(** [bytes.lower()]: only [A-Z] change. *)
Definition bytes_lower_char (c : ascii) : ascii :=
  let n := code c in
  if ((65 <=? n) && (n <=? 90))%N then ascii_of_N (n + 32) else c.

(** Whitespace of [str.strip()] among the code points below 256. *)
Definition str_space (c : ascii) : bool :=
  let n := code c in
  ((9 <=? n) && (n <=? 13) || (28 <=? n) && (n <=? 32)
   || (n =? 133) || (n =? 160))%N.

(** [str.lower()] on the code points below 256: [A-Z] and the Latin-1
    capitals U+00C0..U+00DE without the multiplication sign U+00D7. *)
Definition str_lower_char (c : ascii) : ascii :=
  let n := code c in
  if ((65 <=? n) && (n <=? 90)
      || (192 <=? n) && (n <=? 222) && negb (n =? 215))%N
  then ascii_of_N (n + 32) else c.

Definition bytes_lstrip : string -> string := drop_while bytes_space.
Definition bytes_lower : string -> string := map bytes_lower_char.
Definition str_lower : string -> string := map str_lower_char.
Definition str_lstrip : string -> string := drop_while str_space.
Definition str_rstrip (s : string) : string :=
  String.rev (drop_while str_space (String.rev s)).
Definition str_strip (s : string) : string := str_rstrip (str_lstrip s).

(** [s.split(sep)[0]]: everything before the first [sep]. *)
Definition before_first (sep : ascii) : string -> string :=
  take_while (fun c => negb (Ascii.eqb c sep)).

(** [str(n)] for a Python [int] *)
Definition of_Z (n : Z) : string := NilZero.string_of_int (Z.to_int n).

End Str.

(** ** Constants *)

Definition BASE_URL : string :=
  "https://gis.data.census.gov/arcgis/rest/services/Hosted/VT_2022_860_Z2_PY_D1/VectorTileServer/tile".
Definition SAVE_DIR : string := "zip-tiles".
Definition FAILED_FILE : string := "failed_tiles.txt".
Definition ACCEPTABLE_CT : list string :=
  ["application/x-protobuf"; "application/octet-stream"].

(** ** Paths *)

(** One step of [posixpath.join]: a component that starts with the
    separator replaces the path built so far. *)
Definition join_step (path b : string) : string :=
  if Str.startswith b "/" then b
  else if Str.is_empty path || Str.endswith_char path "/" then path +:+ b
  else path +:+ "/" +:+ b.

Definition os_path_join (a : string) (p : list string) : string :=
  fold_left join_step p a.

Definition tile_path (z x y : Z) : string :=
  os_path_join SAVE_DIR [Str.of_Z z; Str.of_Z x; Str.of_Z y +:+ ".pbf"].

(** ** Payload checks *)

Definition is_bad_mime (ct : string) : bool :=
  if Str.is_empty ct then true
  else
    let ct := Str.str_lower (Str.str_strip (Str.before_first ";" ct)) in
    negb (bool_decide (ct ∈ ACCEPTABLE_CT)).

Definition looks_like_html_or_json (b : string) : bool :=
  let s := Str.bytes_lower (Str.take 64 (Str.bytes_lstrip b)) in
  Str.startswith s "<!doctype" || Str.startswith s "<html" || Str.startswith s "{".

(** ** The world outside the interpreter *)

(** Observable actions other than file operations, oldest first.  The
    sleeps draw a random duration; only their kind is recorded. *)
Inductive Event :=
| Get (url : string)          (* session.get(url, timeout=..., stream=True) *)
| SleepJitter                 (* time.sleep(0.01 + random.random() * 0.02) *)
| SleepBackoff (attempt : Z). (* time.sleep(0.5 * 2**attempt + random.uniform(0, 0.25)) *)

(** Regular files by path, directories made by [os.makedirs], and the
    actions performed so far.  Tile paths, their [.part] siblings and the
    failure log are taken never to name a directory. *)
Record World := mkWorld {
  files : gmap string string;
  dirs : gset string;
  trace : list Event
}.

(** What [r.iter_content] yields: chunks, or an exception raised while
    reading the stream. *)
Inductive StreamItem :=
| Chunk (b : string)
| StreamRaises (e : string).

Record Response := mkResponse {
  status_code : Z;
  content_type : option string;   (* r.headers.get("Content-Type") *)
  body : list StreamItem
}.

Inductive GetResult :=
| GetRaises (e : string)
| GetReturns (r : Response).

(** A failure of the local disk during one attempt; [WriteFails n] is the
    [n]-th call of [f.write], counted from 0. *)
Inductive DiskFault :=
| NoFault
| OpenFails (e : string)
| WriteFails (n : nat) (e : string)
| ReplaceFails (e : string).

(** The shared session answers a request by URL and attempt number; the
    disk faults are given by temporary path and attempt number. *)
Definition Session : Type := string -> Z -> GetResult.
Definition Disk : Type := string -> Z -> DiskFault.

Inductive Status := saved | skipped | empty | failed.

(** ** Computations that may raise *)

(** State passing over [World]; [inl e] is a raised exception whose
    [str(e)] is [e].  Effects performed before the exception stay. *)
Definition M (A : Type) : Type := World -> (string + A) * World.

Definition ret {A} (a : A) : M A := fun w => (inr a, w).
Definition raise {A} (e : string) : M A := fun w => (inl e, w).
Definition bind {A B} (m : M A) (k : A -> M B) : M B :=
  fun w => match m w with
           | (inl e, w') => (inl e, w')
           | (inr a, w') => k a w'
           end.

Notation "'do' x <- m ; k" := (bind m (fun x => k))
  (at level 10, x name, m at level 100, k at level 200).
Notation "'do_' m ; k" := (bind m (fun _ => k))
  (at level 10, m at level 100, k at level 200).

Definition modify (f : World -> World) : M unit := fun w => (inr tt, f w).

Definition set_files (f : gmap string string -> gmap string string) (w : World) : World :=
  mkWorld (f (files w)) (dirs w) (trace w).

Definition emit (e : Event) (w : World) : World :=
  mkWorld (files w) (dirs w) (trace w ++ [e]).

(** ** File operations *)

(** The operations inside the [try] blocks can raise: the request, the
    stream, [open], [f.write], [os.path.getsize] and [os.replace].  The
    clean-up [os.remove] of an existing file, [os.makedirs] and the append
    to the failure log are taken to succeed. *)

Definition isfile (p : string) (w : World) : bool :=
  bool_decide (is_Some (files w !! p)).

Definition os_path_exists (p : string) : M bool :=
  fun w => (inr (isfile p w), w).

Definition os_remove (p : string) : M unit :=
  modify (set_files (delete p)).

(** The directories on the way to [p]: every prefix of [p] that ends
    before a separator, and [p] itself ([seen] is the part already read). *)
Fixpoint dir_chain (seen p : string) : list string :=
  match p with
  | EmptyString =>
      if Str.is_empty seen || Str.endswith_char seen "/" then [] else [seen]
  | String c r =>
      if Ascii.eqb c "/" then
        (if Str.is_empty seen || Str.endswith_char seen "/" then [] else [seen])
        ++ dir_chain (seen +:+ "/") r
      else dir_chain (seen +:+ String c EmptyString) r
  end.

(** [os.makedirs(p, exist_ok=True)] makes [p] and its missing parents.  The
    current directory exists already: naming it makes nothing. *)
Definition ensure_dir (p : string) (w : World) : World :=
  mkWorld (files w)
    (if bool_decide (p = ".") then dirs w
     else list_to_set (dir_chain EmptyString p) ∪ dirs w)
    (trace w).

(** [open(p, "wb")]: creates or truncates. *)
Definition open_wb (fault : DiskFault) (p : string) : M unit :=
  match fault with
  | OpenFails e => raise e
  | _ => modify (set_files (<[p := EmptyString]>))
  end.

Definition content (p : string) (w : World) : string :=
  default EmptyString (files w !! p).

(** The [n]-th [f.write(data)] on the file open at [p]. *)
Definition f_write (fault : DiskFault) (p : string) (n : nat) (data : string) : M unit :=
  match fault with
  | WriteFails k e =>
      if Nat.eqb k n then raise e
      else modify (fun w => set_files (<[p := content p w +:+ data]>) w)
  | _ => modify (fun w => set_files (<[p := content p w +:+ data]>) w)
  end.

Definition os_path_getsize (p : string) : M nat :=
  fun w => match files w !! p with
           | Some c => (inr (String.length c), w)
           | None => (inl "No such file or directory", w)
           end.

Definition os_replace (fault : DiskFault) (src dst : string) : M unit :=
  match fault with
  | ReplaceFails e => raise e
  | _ => fun w => match files w !! src with
                  | Some c => (inr tt, set_files (fun m => <[dst := c]> (delete src m)) w)
                  | None => (inl "No such file or directory", w)
                  end
  end.

Definition time_sleep (e : Event) : M unit := modify (emit e).

Definition tile_exists_ok (p : string) (w : World) : bool :=
  match files w !! p with
  | Some c => (0 <? String.length c)%nat
  | None => false
  end.

(** ** Failure log *)

Definition os_path_dirname (p : string) : string :=
  let head :=
    String.rev (Str.drop_while (fun c => negb (Ascii.eqb c "/")) (String.rev p)) in
  if Str.is_empty head || Str.all (fun c => Ascii.eqb c "/") head then head
  else String.rev (Str.drop_while (fun c => Ascii.eqb c "/") (String.rev head)).

Definition newline : string := String (ascii_of_N 10) EmptyString.

Definition failure_line (z x y : Z) (reason : string) : string :=
  Str.of_Z z +:+ "/" +:+ Str.of_Z x +:+ "/" +:+ Str.of_Z y +:+ "  " +:+ reason +:+ newline.

(** Opening in append mode creates the file when it is missing. *)
Definition log_failure (z x y : Z) (reason : string) (w : World) : World :=
  let d := os_path_dirname FAILED_FILE in
  let w := ensure_dir (if Str.is_empty d then "." else d) w in
  set_files (<[FAILED_FILE := content FAILED_FILE w +:+ failure_line z x y reason]>) w.

(** ** One request *)

(** Python truthiness of an optional string, and [a or b]. *)
Definition truthy (s : option string) : bool :=
  match s with
  | Some (String _ _) => true
  | _ => false
  end.

Definition py_or (a b : option string) : option string :=
  if truthy a then a else b.

(** The triple [(r, err, ct)] of [_fetch_once]. *)
Definition Fetched : Type := option Response * option string * option string.

Definition session_get (session : Session) (url : string) (attempt : Z) : M Response :=
  fun w => match session url attempt with
           | GetRaises e => (inl e, emit (Get url) w)
           | GetReturns r => (inr r, emit (Get url) w)
           end.

Definition _fetch_once (session : Session) (url : string) (attempt : Z) : M Fetched :=
  do r <- session_get session url attempt;
  if negb (status_code r =? 200) then
    ret (None, Some ("status:" +:+ Str.of_Z (status_code r)), None)
  else
    let ct := Str.str_lower (default EmptyString (py_or (content_type r) (Some EmptyString))) in
    ret (Some r, None, Some ct).

(** ** One pass over the body *)

(** [next(it, default)] with the empty bytes as default *)
Definition next_or_empty (it : list StreamItem) : M (string * list StreamItem) :=
  match it with
  | [] => ret (EmptyString, [])
  | Chunk b :: rest => ret (b, rest)
  | StreamRaises e :: rest => raise e
  end.

(** [for chunk in it: if chunk: f.write(chunk)], after [n] earlier writes. *)
Fixpoint write_rest (fault : DiskFault) (p : string) (n : nat) (it : list StreamItem) : M unit :=
  match it with
  | [] => ret tt
  | StreamRaises e :: _ => raise e
  | Chunk c :: rest =>
      if Str.is_empty c then write_rest fault p n rest
      else do_ f_write fault p n c; write_rest fault p (S n) rest
  end.

Definition remove_if_exists (p : string) : M unit :=
  do b <- os_path_exists p;
  if b then os_remove p else ret tt.

(** How the [try] block of one attempt ends when it does not raise:
    the function returns, or control reaches the retry decision. *)
Inductive Flow :=
| Return (s : Status)
| Decide (last_reason : option string).

(** Lines 106-134: the body of the [try] for a response [r].  The branch
    that writes the file always returns, so lines 133-134 only follow the
    poisoned branch.  [last_reason] is the variable on entry; the block
    replaces it (line 116) or leaves it. *)
Definition stream_to_file (fault : DiskFault) (r : Response) (ct : option string)
    (out_file tmp_file : string) (last_reason : option string) : M Flow :=
  do fc <- next_or_empty (body r);
  let first_chunk := fst fc in
  let it := snd fc in
  if Str.is_empty first_chunk then
    do_ remove_if_exists tmp_file;
    ret (Return empty)
  else if looks_like_html_or_json first_chunk then
    let last_reason :=
      Some ("html_or_json:" +:+ default EmptyString (py_or ct (Some "unknown"))) in
    do_ remove_if_exists tmp_file;
    ret (Decide last_reason)
  else
    do_ open_wb fault tmp_file;
    do_ f_write fault tmp_file 0 first_chunk;
    do_ write_rest fault tmp_file 1 it;
    do size <- os_path_getsize tmp_file;
    if (size <? 100)%nat then
      do_ os_replace fault tmp_file out_file;
      do_ time_sleep SleepJitter;
      ret (Return saved)
    else
      do_ os_replace fault tmp_file out_file;
      do_ time_sleep SleepJitter;
      ret (Return saved).

(** The same block without the size test, as the specification words it:
    every non-empty body that is not poisoned is published and [saved]. *)
Definition stream_to_file_uniform (fault : DiskFault) (r : Response) (ct : option string)
    (out_file tmp_file : string) (last_reason : option string) : M Flow :=
  do fc <- next_or_empty (body r);
  let first_chunk := fst fc in
  let it := snd fc in
  if Str.is_empty first_chunk then
    do_ remove_if_exists tmp_file;
    ret (Return empty)
  else if looks_like_html_or_json first_chunk then
    let last_reason :=
      Some ("html_or_json:" +:+ default EmptyString (py_or ct (Some "unknown"))) in
    do_ remove_if_exists tmp_file;
    ret (Decide last_reason)
  else
    do_ open_wb fault tmp_file;
    do_ f_write fault tmp_file 0 first_chunk;
    do_ write_rest fault tmp_file 1 it;
    do_ os_replace fault tmp_file out_file;
    do_ time_sleep SleepJitter;
    ret (Return saved).

(** ** The fetch loop *)

(** The end of one iteration of the [for] loop before the retry decision:
    the function has returned, or the loop variables [last_reason] and
    [err] hold the given values. *)
Inductive Step :=
| Returned (s : Status)
| Fell (last_reason err : option string).

Section DownloadTile.

Variable session : Session.
Variable disk : Disk.
Variables z x y : Z.
Variable html_retries : Z.

Definition tile_url : string :=
  BASE_URL +:+ "/" +:+ Str.of_Z z +:+ "/" +:+ Str.of_Z x +:+ "/" +:+ Str.of_Z y +:+ ".pbf".

(** Lines 97-139.  When [_fetch_once] raises, [err] keeps its earlier
    value; it is then not read, as [last_reason] is not empty. *)
Definition attempt_once (attempt : Z) (last_reason err : option string)
    (w : World) : Step * World :=
  let out_file := tile_path z x y in
  match _fetch_once session tile_url attempt w with
  | (inl e, w1) =>
      let last_reason := Some ("request_error:" +:+ e) in
      (Fell (py_or last_reason (py_or err (Some "request_failed"))) err, w1)
  | (inr (None, err, _), w1) =>
      (Fell (py_or last_reason (py_or err (Some "request_failed"))) err, w1)
  | (inr (Some r, err, ct), w1) =>
      let tmp_file := out_file +:+ ".part" in
      match stream_to_file (disk tmp_file attempt) r ct out_file tmp_file last_reason w1 with
      | (inr (Return s), w2) => (Returned s, w2)
      | (inr (Decide last_reason), w2) => (Fell last_reason err, w2)
      | (inl e, w2) =>
          (Fell (Some ("io_or_stream:" +:+ e)) err, snd (remove_if_exists tmp_file w2))
      end
  end.

(** Lines 141-145. *)
Definition retry_wanted (last_reason : option string) (attempt : Z) : bool :=
  truthy last_reason
  && Str.startswith (default EmptyString last_reason) "html_or_json"
  && (attempt <? html_retries).

(** Lines 151-152. *)
Definition finish_failed (last_reason : option string) (w : World) : Status * World :=
  (failed, log_failure z x y (default EmptyString (py_or last_reason (Some "unknown"))) w).

(** The [for attempt in range(html_retries + 1)] loop with [n] values of
    the range left, the next one being [attempt]. *)
Fixpoint attempts (n : nat) (attempt : Z) (last_reason err : option string)
    (w : World) : Status * World :=
  match n with
  | O => finish_failed last_reason w
  | S n' =>
      match attempt_once attempt last_reason err w with
      | (Returned s, w') => (s, w')
      | (Fell last_reason err, w') =>
          if retry_wanted last_reason attempt then
            attempts n' (attempt + 1) last_reason err (emit (SleepBackoff attempt) w')
          else finish_failed last_reason w'
      end
  end.

Definition download_tile (w : World) : Status * World :=
  let out_dir := os_path_join SAVE_DIR [Str.of_Z z; Str.of_Z x] in
  let out_file := tile_path z x y in
  if tile_exists_ok out_file w then (skipped, w)
  else
    let w := ensure_dir out_dir w in
    attempts (Z.to_nat (html_retries + 1)) 0 None None w.

(** [download_tile] with the uniform success path in place of the two
    size branches. *)
Definition attempt_once_uniform (attempt : Z) (last_reason err : option string)
    (w : World) : Step * World :=
  let out_file := tile_path z x y in
  match _fetch_once session tile_url attempt w with
  | (inl e, w1) =>
      let last_reason := Some ("request_error:" +:+ e) in
      (Fell (py_or last_reason (py_or err (Some "request_failed"))) err, w1)
  | (inr (None, err, _), w1) =>
      (Fell (py_or last_reason (py_or err (Some "request_failed"))) err, w1)
  | (inr (Some r, err, ct), w1) =>
      let tmp_file := out_file +:+ ".part" in
      match stream_to_file_uniform (disk tmp_file attempt) r ct out_file tmp_file
              last_reason w1 with
      | (inr (Return s), w2) => (Returned s, w2)
      | (inr (Decide last_reason), w2) => (Fell last_reason err, w2)
      | (inl e, w2) =>
          (Fell (Some ("io_or_stream:" +:+ e)) err, snd (remove_if_exists tmp_file w2))
      end
  end.

Fixpoint attempts_uniform (n : nat) (attempt : Z) (last_reason err : option string)
    (w : World) : Status * World :=
  match n with
  | O => finish_failed last_reason w
  | S n' =>
      match attempt_once_uniform attempt last_reason err w with
      | (Returned s, w') => (s, w')
      | (Fell last_reason err, w') =>
          if retry_wanted last_reason attempt then
            attempts_uniform n' (attempt + 1) last_reason err
              (emit (SleepBackoff attempt) w')
          else finish_failed last_reason w'
      end
  end.

Definition download_tile_uniform (w : World) : Status * World :=
  let out_dir := os_path_join SAVE_DIR [Str.of_Z z; Str.of_Z x] in
  let out_file := tile_path z x y in
  if tile_exists_ok out_file w then (skipped, w)
  else
    let w := ensure_dir out_dir w in
    attempts_uniform (Z.to_nat (html_retries + 1)) 0 None None w.

End DownloadTile.

(** ** The pipeline *)

(** [range(a, b)] *)
Definition py_range (a b : Z) : list Z :=
  List.map (fun i => a + Z.of_nat i) (seq 0 (Z.to_nat (b - a))).

Definition generate_tiles (z_range x_range y_range : list Z) : list (Z * Z * Z) :=
  flat_map (fun z => flat_map (fun x => List.map (fun y => (z, x, y)) y_range) x_range)
    z_range.

Record Counters := mkCounters {
  total : Z; n_saved : Z; n_skipped : Z; n_empty : Z; n_failed : Z
}.

Definition count (c : Counters) (status : Status) : Counters :=
  let total := total c + 1 in
  match status with
  | saved => mkCounters total (n_saved c + 1) (n_skipped c) (n_empty c) (n_failed c)
  | skipped => mkCounters total (n_saved c) (n_skipped c + 1) (n_empty c) (n_failed c)
  | empty => mkCounters total (n_saved c) (n_skipped c) (n_empty c + 1) (n_failed c)
  | failed => mkCounters total (n_saved c) (n_skipped c) (n_empty c) (n_failed c + 1)
  end.

(** The submitted tasks run one after the other in submission order, the
    schedule of a pool with one worker; every task takes the default
    [html_retries = 3]. *)
Fixpoint run_tasks (session : Session) (disk : Disk) (tiles : list (Z * Z * Z))
    (w : World) : list Status * World :=
  match tiles with
  | [] => ([], w)
  | (z, x, y) :: rest =>
      let (status, w1) := download_tile session disk z x y 3 w in
      let (statuses, w2) := run_tasks session disk rest w1 in
      (status :: statuses, w2)
  end.

Record Args := mkArgs {
  z_start : Z; z_end : Z; x_start : Z; x_end : Z; y_start : Z; y_end : Z
}.

Definition main (session : Session) (disk : Disk) (args : Args) (w : World)
    : Counters * World :=
  let z_range := py_range (z_start args) (z_end args + 1) in
  let x_range := py_range (x_start args) (x_end args + 1) in
  let y_range := py_range (y_start args) (y_end args + 1) in
  let (statuses, w') :=
    run_tasks session disk (generate_tiles z_range x_range y_range) w in
  (fold_left count statuses (mkCounters 0 0 0 0 0), w').

(** ** Vocabulary of the properties *)

(** The characters of a decimal numeral. *)
Definition digit_or_minus (c : ascii) : bool :=
  let n := Str.code c in ((48 <=? n) && (n <=? 57) || (n =? 45))%N.

(** The three openers of an HTML or JSON document. *)
Definition POISON_MARKS : list string := ["<!doctype"; "<html"; "{"].

(** The six ASCII whitespace bytes: space, tab, line feed, vertical tab,
    form feed and carriage return. *)
Definition SPACES : list ascii := [" "; "009"; "010"; "011"; "012"; "013"]%char.

Definition is_blank (c : ascii) : bool := bool_decide (c ∈ SPACES).

(** An ASCII capital, and two bytes that are the same up to the case of
    an ASCII letter (a capital and its small letter are 32 apart). *)
Definition is_upper (c : ascii) : bool :=
  ((65 <=? Str.code c) && (Str.code c <=? 90))%N.

Definition same_letter (a b : ascii) : Prop :=
  a = b
  \/ (is_upper a = true /\ Str.code b = (Str.code a + 32)%N)
  \/ (is_upper b = true /\ Str.code a = (Str.code b + 32)%N).

(** Two strings of the same length that agree byte by byte up to case. *)
Fixpoint ci_eq (s p : string) : Prop :=
  match s, p with
  | EmptyString, EmptyString => True
  | String a s', String b p' => same_letter a b /\ ci_eq s' p'
  | _, _ => False
  end.

(** [s] starts with [p] up to the case of ASCII letters. *)
Definition starts_with_ci (s p : string) : Prop :=
  exists pre tail, s = pre +:+ tail /\ ci_eq pre p.

Definition begins_with_space (s : string) : bool :=
  match s with
  | String c _ => is_blank c
  | EmptyString => false
  end.

(** The wording of the poisoning test: [b] is leading whitespace [ws]
    followed by [rest], and the first 64 bytes of [rest] start, whatever the
    case, with one of the marks. *)
Definition sniffs_as_html_or_json (b : string) : Prop :=
  exists ws rest,
    b = ws +:+ rest /\ Str.all is_blank ws = true /\
    begins_with_space rest = false /\
    exists p, p ∈ POISON_MARKS /\ starts_with_ci (Str.take 64 rest) p.

(** The reason recorded for a poisoned response with the given header. *)
Definition poison_reason (header : option string) : string :=
  let ct := Str.str_lower (default EmptyString (py_or header (Some EmptyString))) in
  "html_or_json:" +:+ (if Str.is_empty ct then "unknown" else ct).

(** The number of requests among the recorded actions. *)
Definition is_get (e : Event) : bool :=
  match e with Get _ => true | _ => false end.

Definition requests (w : World) : nat := length (filter is_get (trace w)).

(** The whole body when the stream yields all of it. *)
Fixpoint chunks (it : list StreamItem) : option string :=
  match it with
  | [] => Some EmptyString
  | Chunk c :: rest => String.append c <$> chunks rest
  | StreamRaises _ :: _ => None
  end.

(** A 200 response whose non-empty first chunk sniffs as HTML or JSON. *)
Definition poisoned (g : GetResult) : bool :=
  match g with
  | GetReturns r =>
      (status_code r =? 200)
      && match body r with
         | Chunk b :: _ => negb (Str.is_empty b) && looks_like_html_or_json b
         | _ => false
         end
  | GetRaises _ => false
  end.

(** A 200 response whose first chunk is empty. *)
Definition empty_reply (g : GetResult) : bool :=
  match g with
  | GetReturns r =>
      (status_code r =? 200)
      && match body r with
         | [] => true
         | Chunk b :: _ => Str.is_empty b
         | StreamRaises _ :: _ => false
         end
  | GetRaises _ => false
  end.

Definition header_of (g : GetResult) : option string :=
  match g with
  | GetReturns r => content_type r
  | GetRaises _ => None
  end.

(** The files after one more line in the failure log. *)
Definition append_line (line : string) (m : gmap string string) : gmap string string :=
  <[FAILED_FILE := default EmptyString (m !! FAILED_FILE) +:+ line]> m.

(** The status of a tile that has to be fetched. *)
Definition fetched_status (session : Session) (disk : Disk) (z x y html_retries : Z) : Status :=
  (attempts session disk z x y html_retries (Z.to_nat (html_retries + 1)) 0 None None
     (mkWorld ∅ ∅ [])).1.

(** The [ct] that [_fetch_once] returns with a 200 response. *)
Definition declared_type (r : Response) : option string :=
  Some (Str.str_lower (default EmptyString (py_or (content_type r) (Some EmptyString)))).

(** ** Vocabulary of the re-run *)

(** The tile of a coordinate is stored, and what fetching it yields with
    the default [html_retries]. *)
Definition present (c : Z * Z * Z) (w : World) : bool :=
  let '(z, x, y) := c in tile_exists_ok (tile_path z x y) w.

Definition fetched (session : Session) (disk : Disk) (c : Z * Z * Z) : Status :=
  let '(z, x, y) := c in fetched_status session disk z x y 3.

(** The poisoning test read as a test of the response body: whenever the
    body that the stream of [r] yields sniffs as HTML or JSON, an attempt
    answered with [r] records the poisoning reason. *)
Definition body_sniff_rule (r : Response) : Prop :=
  forall full, chunks (body r) = Some full -> sniffs_as_html_or_json full ->
  forall (session : Session) (disk : Disk) (z x y a : Z)
         (lr err : option string) (w : World),
    session (tile_url z x y) a = GetReturns r -> status_code r = 200 ->
    (attempt_once session disk z x y a lr err w).1
    = Fell (Some (poison_reason (content_type r))) None.

(** The pipeline run twice over the same ranges against the same
    upstream: no tile is saved and every tile is skipped the second time. *)
Definition rerun_all_skipped (session : Session) (disk : Disk) (args : Args)
    (w : World) : Prop :=
  let first := main session disk args w in
  let second := main session disk args first.2 in
  n_saved second.1 = 0 /\ n_skipped second.1 = total second.1.

(** ** Vocabulary of the further properties *)

(** The actions of [k] retried attempts from attempt [a] on: a request,
    then the backoff sleep of that attempt. *)
Fixpoint schedule (url : string) (a : Z) (k : nat) : list Event :=
  match k with
  | O => []
  | S k' => Get url :: SleepBackoff a :: schedule url (a + 1) k'
  end.

(** The four kinds of reason the loop records. *)
Definition known_reason (s : string) : bool :=
  Str.startswith s "request_error:" || Str.startswith s "status:"
  || Str.startswith s "io_or_stream:" || Str.startswith s "html_or_json:".

(** [last_reason] is unset or holds a reason of a known kind. *)
Definition reason_ok (lr : option string) : Prop :=
  lr = None \/ exists s, lr = Some s /\ known_reason s = true.

(** The jitter sleep that follows a save. *)
Definition jitter_of (s : Status) : list Event :=
  match s with saved => [SleepJitter] | _ => [] end.

(** The directories of a tile: the root, the zoom and the column. *)
Definition tile_dirs (z x : Z) : gset string :=
  {[SAVE_DIR; SAVE_DIR +:+ "/" +:+ Str.of_Z z;
    SAVE_DIR +:+ "/" +:+ Str.of_Z z +:+ "/" +:+ Str.of_Z x]}.

(** ** Vocabulary of the pipeline properties *)

(** The order of the nested loops: by zoom, then x, then y. *)
Definition lex_lt (c1 c2 : Z * Z * Z) : Prop :=
  let '(z1, x1, y1) := c1 in
  let '(z2, x2, y2) := c2 in
  z1 < z2 \/ (z1 = z2 /\ (x1 < x2 \/ (x1 = x2 /\ y1 < y2))).

Definition is_failed (s : Status) : bool :=
  match s with failed => true | _ => false end.

(** Lines written one after the other. *)
Definition join_lines (lines : list string) : string :=
  fold_right String.append EmptyString lines.

(** The coordinates that [main] submits. *)
Definition tiles_of (args : Args) : list (Z * Z * Z) :=
  generate_tiles (py_range (z_start args) (z_end args + 1))
    (py_range (x_start args) (x_end args + 1))
    (py_range (y_start args) (y_end args + 1)).

(** The coordinates whose task failed, in task order. *)
Fixpoint failed_tiles (tiles : list (Z * Z * Z)) (statuses : list Status)
    : list (Z * Z * Z) :=
  match tiles, statuses with
  | c :: tiles', s :: statuses' =>
      if is_failed s then c :: failed_tiles tiles' statuses'
      else failed_tiles tiles' statuses'
  | _, _ => []
  end.

(** A line of the failure log for coordinate [c] with a reason of a known
    kind. *)
Definition line_of (c : Z * Z * Z) (line : string) : Prop :=
  let '(z, x, y) := c in
  exists reason, line = failure_line z x y reason /\ known_reason reason = true.

(** A server error first, a tile for every other coordinate. *)
Definition one_bad_tile : Session :=
  fun url _ =>
    if bool_decide (url = tile_url 5 10 20) then GetReturns (mkResponse 500 None [])
    else GetReturns (mkResponse 200 None [Chunk "ab"; Chunk "cd"]).

(** ** Worlds and sessions of the examples *)

Definition w0 : World := mkWorld ∅ ∅ [].

Definition no_fault : Disk := fun _ _ => NoFault.

(** A JSON error page served as a tile. *)
Definition disguised : Session :=
  fun _ _ => GetReturns (mkResponse 200 (Some "application/x-protobuf") [Chunk " {'error': 429}"]).

(** An HTML page in capitals under a tile's Content-Type in mixed case. *)
Definition shouting_page : Response :=
  mkResponse 200 (Some "Application/X-Protobuf")
    [Chunk "  <HTML><BODY>Rate limited</BODY></HTML>"].

(** An HTML page whose first chunk holds only its leading blanks. *)
Definition split_page : Response :=
  mkResponse 200 (Some "text/html") [Chunk "  "; Chunk "<html>busy</html>"].

(** An HTML page first, then 503 on every retry. *)
Definition poison_then_503 : Session :=
  fun _ attempt =>
    if attempt =? 0 then GetReturns (mkResponse 200 None [Chunk "<html>busy</html>"])
    else GetReturns (mkResponse 503 None []).

(** Plain text that is neither HTML nor JSON. *)
Definition text_plain : Session :=
  fun _ _ => GetReturns (mkResponse 200 (Some "text/plain") [Chunk "not a tile"]).

Definition always_404 : Session :=
  fun _ _ => GetReturns (mkResponse 404 None []).

Definition no_content_204 : Session :=
  fun _ _ => GetReturns (mkResponse 204 None []).

(** The connection drops after the first chunk. *)
Definition drops : Session :=
  fun _ _ => GetReturns (mkResponse 200 None [Chunk "abc"; StreamRaises "connection reset"]).

Definition empty_200 : Session :=
  fun _ _ => GetReturns (mkResponse 200 None []).

Definition small_tile : Session :=
  fun _ _ => GetReturns (mkResponse 200 None [Chunk "ab"; Chunk "cd"]).

(** The connection cannot be opened. *)
Definition refuses : Session :=
  fun _ _ => GetRaises "connection refused".

(** A world where tile 3/1/1 is stored. *)
Definition w_stored : World :=
  mkWorld {["zip-tiles/3/1/1.pbf" := "abcd"]} ∅ [].

(** A world where the file of tile 3/1/1 exists but is empty. *)
Definition w_hollow : World :=
  mkWorld {["zip-tiles/3/1/1.pbf" := EmptyString]} ∅ [].

(** An HTML page first, then the tile. *)
Definition page_then_tile : Session :=
  fun _ attempt =>
    if attempt =? 0 then GetReturns (mkResponse 200 None [Chunk "<html>busy</html>"])
    else GetReturns (mkResponse 200 None [Chunk "ab"; Chunk "cd"]).

(** A disk on which the first write to every temporary file fails. *)
Definition disk_full : Disk := fun _ _ => WriteFails 0 "No space left on device".

(** Two poisoned responses, then the connection is refused. *)
Definition poison_then_refuse : Session :=
  fun _ attempt =>
    if attempt <? 2 then GetReturns (mkResponse 200 None [Chunk "<html>busy</html>"])
    else GetRaises "connection refused".

(** * Properties *)

(** ** The functions on examples *)

Example tile_path_ex : tile_path 5 10 20 = "zip-tiles/5/10/20.pbf".
Proof. reflexivity. Qed.

Example tile_url_ex :
  tile_url 5 10 20 = BASE_URL +:+ "/5/10/20.pbf".
Proof. reflexivity. Qed.

Example join_absolute_ex : os_path_join "zip-tiles" ["5"; "/tmp"; "x.pbf"] = "/tmp/x.pbf".
Proof. reflexivity. Qed.

Example dirname_ex : os_path_dirname FAILED_FILE = EmptyString.
Proof. reflexivity. Qed.

Example ensure_dir_parents_ex :
  dirs (ensure_dir "zip-tiles/5/10" w0) = {["zip-tiles"; "zip-tiles/5"; "zip-tiles/5/10"]}.
Proof. vm_compute. reflexivity. Qed.

Example ensure_dir_dot_ex : dirs (ensure_dir "." w_stored) = dirs w_stored.
Proof. reflexivity. Qed.

Example sniff_doctype_ex : looks_like_html_or_json "  <!DOCTYPE html>" = true.
Proof. reflexivity. Qed.

Example sniff_binary_ex : looks_like_html_or_json "PBF{" = false.
Proof. reflexivity. Qed.

Example mime_ok_ex : is_bad_mime "Application/X-Protobuf ; q=1" = false.
Proof. reflexivity. Qed.

Example mime_bad_ex : is_bad_mime "text/html" = true.
Proof. reflexivity. Qed.

Example saved_ex :
  let res := download_tile small_tile no_fault 5 10 20 3 w0 in
  res.1 = saved /\ files res.2 !! "zip-tiles/5/10/20.pbf" = Some "abcd" /\
  trace res.2 = [Get (tile_url 5 10 20); SleepJitter].
Proof. vm_compute. done. Qed.

Example disk_full_ex :
  let res := download_tile small_tile (fun _ _ => WriteFails 1 "disk full") 5 10 20 3 w0 in
  res.1 = failed /\ files res.2 !! "zip-tiles/5/10/20.pbf" = None /\
  files res.2 !! "zip-tiles/5/10/20.pbf.part" = None /\
  files res.2 !! FAILED_FILE = Some ("5/10/20  io_or_stream:disk full" +:+ newline).
Proof. vm_compute. done. Qed.

(** ** Strings and decimal numerals *)

Section StringFacts.

Implicit Types s t p : string.
Implicit Types P : ascii -> bool.

Local Arguments String.append !_ _ : simpl nomatch.

Lemma append_empty_r s : s +:+ EmptyString = s.
Proof. induction s; simpl; congruence. Qed.

Lemma append_assoc s t p : (s +:+ t) +:+ p = s +:+ t +:+ p.
Proof. induction s; simpl; congruence. Qed.

Lemma append_is_empty s t :
  Str.is_empty (s +:+ t) = Str.is_empty s && Str.is_empty t.
Proof. by destruct s. Qed.

Lemma is_empty_true s : Str.is_empty s = true <-> s = EmptyString.
Proof. by destruct s. Qed.

Lemma is_empty_false s : Str.is_empty s = false <-> s <> EmptyString.
Proof. by destruct s. Qed.

Lemma all_append P s t : Str.all P (s +:+ t) = Str.all P s && Str.all P t.
Proof.
  induction s as [|c s IH]; simpl; [done|].
  by rewrite IH, andb_assoc.
Qed.

Lemma all_weaken P (Q : ascii -> bool) s :
  (forall c, P c = true -> Q c = true) -> Str.all P s = true -> Str.all Q s = true.
Proof.
  intros HPQ. induction s as [|c s IH]; simpl; [done|].
  intros [Hc Hs]%andb_true_iff. rewrite (HPQ _ Hc). by apply IH.
Qed.

Lemma endswith_char_append s t c :
  t <> EmptyString -> Str.endswith_char (s +:+ t) c = Str.endswith_char t c.
Proof.
  intros Ht. induction s as [|a s IH]; simpl; [done|].
  rewrite IH. destruct (s +:+ t) eqn:E; [|done].
  destruct s; simpl in E; [done|discriminate].
Qed.

Lemma endswith_char_all P s c :
  P c = false -> Str.all P s = true -> Str.endswith_char s c = false.
Proof.
  intros Hc. induction s as [|a s IH]; simpl; [done|].
  intros [Ha Hs]%andb_true_iff. destruct s.
  - destruct (Ascii.eqb_spec a c); [congruence|done].
  - by apply IH.
Qed.

(** Two strings free of [sep] that are followed by [sep] and agree as a
    whole agree part by part. *)
Lemma append_sep_inj (sep : ascii) s s' t t' :
  Str.all (fun c => negb (Ascii.eqb c sep)) s = true ->
  Str.all (fun c => negb (Ascii.eqb c sep)) s' = true ->
  s +:+ String sep t = s' +:+ String sep t' -> s = s' /\ t = t'.
Proof.
  revert s'. induction s as [|a s IH]; intros [|a' s']; simpl.
  - by intros _ _ [= ->].
  - intros _ [Ha _]%andb_true_iff [= <- _]. by rewrite Ascii.eqb_refl in Ha.
  - intros [Ha _]%andb_true_iff _ [= -> _]. by rewrite Ascii.eqb_refl in Ha.
  - intros [_ Hs]%andb_true_iff [_ Hs']%andb_true_iff [= -> E].
    destruct (IH _ Hs Hs' E) as [-> ->]. done.
Qed.

Lemma startswith_append s p : Str.startswith (p +:+ s) p = true.
Proof. induction p as [|a p IH]; simpl; [done|]. by rewrite Ascii.eqb_refl. Qed.

Lemma startswith_split s p :
  Str.startswith s p = true -> exists t, s = p +:+ t.
Proof.
  revert s. induction p as [|a p IH]; intros s; simpl.
  - by exists s.
  - destruct s as [|b s]; simpl; [done|].
    intros [->%Ascii.eqb_eq [t ->]%IH]%andb_true_iff. by exists t.
Qed.

Lemma uint_chars d : Str.all digit_or_minus (NilEmpty.string_of_uint d) = true.
Proof. induction d; simpl; auto. Qed.

Lemma of_Z_chars n : Str.all digit_or_minus (Str.of_Z n) = true.
Proof.
  unfold Str.of_Z. destruct (Z.to_int n) as [d|d]; simpl.
  - destruct d; try done; apply (uint_chars (_ d)).
  - destruct d; try done; apply (uint_chars (_ d)).
Qed.

Lemma of_Z_nonempty n : Str.of_Z n <> EmptyString.
Proof.
  unfold Str.of_Z. destruct (Z.to_int n) as [d|d]; simpl; [|done].
  by destruct d.
Qed.

Lemma of_Z_inj n m : Str.of_Z n = Str.of_Z m -> n = m.
Proof.
  assert (Hnorm : forall k, NilZero.int_of_string (Str.of_Z k) = Some (Z.to_int k)).
  { intros k. unfold Str.of_Z. apply NilZero.isi.
    - destruct k; simpl; try done. intros [= E]. by apply Unsigned.to_uint_nonnil in E.
    - destruct k; simpl; try done. intros [= E]. by apply Unsigned.to_uint_nonnil in E. }
  intros E. apply DecimalZ.to_int_inj.
  pose proof (Hnorm n) as Hn. rewrite E, Hnorm in Hn. congruence.
Qed.

Lemma of_Z_no P n :
  (forall c, digit_or_minus c = true -> P c = true) -> Str.all P (Str.of_Z n) = true.
Proof. intros H. eapply all_weaken; [exact H|apply of_Z_chars]. Qed.

End StringFacts.

(** ** Paths *)

Section PathFacts.

Local Arguments String.append !_ _ : simpl nomatch.

Lemma digit_not_sep (sep : ascii) :
  digit_or_minus sep = false ->
  forall c, digit_or_minus c = true -> negb (Ascii.eqb c sep) = true.
Proof.
  intros Hsep c Hc. destruct (Ascii.eqb_spec c sep); [congruence|done].
Qed.

Lemma of_Z_startswith_slash n t : Str.startswith (Str.of_Z n +:+ t) "/" = false.
Proof.
  pose proof (of_Z_chars n) as Hall. pose proof (of_Z_nonempty n) as Hne.
  destruct (Str.of_Z n) as [|c s]; [done|].
  cbn [Str.all] in Hall. apply andb_true_iff in Hall as [Hc _].
  change (Ascii.eqb "/" c && true = false).
  destruct (Ascii.eqb_spec "/" c) as [<-|]; [by vm_compute in Hc|done].
Qed.

Lemma join_step_plain path b :
  path <> EmptyString -> Str.endswith_char path "/" = false ->
  Str.startswith b "/" = false -> join_step path b = path +:+ "/" +:+ b.
Proof.
  intros Hne%is_empty_false Hend Hb. unfold join_step. by rewrite Hb, Hne, Hend.
Qed.

Lemma endswith_of_Z s n : Str.endswith_char (s +:+ Str.of_Z n) "/" = false.
Proof.
  rewrite endswith_char_append by apply of_Z_nonempty.
  apply (endswith_char_all digit_or_minus); [done|apply of_Z_chars].
Qed.

Lemma append_nonempty_r s t : t <> EmptyString -> s +:+ t <> EmptyString.
Proof. destruct s; simpl; [done|discriminate]. Qed.

Lemma out_dir_eq z x :
  os_path_join SAVE_DIR [Str.of_Z z; Str.of_Z x]
  = SAVE_DIR +:+ "/" +:+ Str.of_Z z +:+ "/" +:+ Str.of_Z x.
Proof.
  unfold os_path_join. cbn [fold_left].
  pose proof (of_Z_startswith_slash z EmptyString) as Hz.
  pose proof (of_Z_startswith_slash x EmptyString) as Hx.
  rewrite append_empty_r in Hz, Hx.
  rewrite (join_step_plain SAVE_DIR) by done.
  rewrite join_step_plain; [by rewrite !append_assoc| | |done].
  - apply append_nonempty_r, append_nonempty_r, of_Z_nonempty.
  - rewrite <- !append_assoc. apply endswith_of_Z.
Qed.

Lemma tile_path_eq z x y :
  tile_path z x y
  = SAVE_DIR +:+ "/" +:+ Str.of_Z z +:+ "/" +:+ Str.of_Z x +:+ "/" +:+ Str.of_Z y +:+ ".pbf".
Proof.
  unfold tile_path.
  change (os_path_join SAVE_DIR [Str.of_Z z; Str.of_Z x; Str.of_Z y +:+ ".pbf"])
    with (join_step (os_path_join SAVE_DIR [Str.of_Z z; Str.of_Z x])
            (Str.of_Z y +:+ ".pbf")).
  rewrite out_dir_eq.
  rewrite join_step_plain; [by rewrite !append_assoc| | |apply of_Z_startswith_slash].
  - apply append_nonempty_r, append_nonempty_r, append_nonempty_r,
      append_nonempty_r, of_Z_nonempty.
  - rewrite <- !append_assoc. apply endswith_of_Z.
Qed.

Lemma no_slash n : Str.all (fun c => negb (Ascii.eqb c "/")) (Str.of_Z n) = true.
Proof. apply of_Z_no, digit_not_sep. done. Qed.

Lemma no_dot n : Str.all (fun c => negb (Ascii.eqb c ".")) (Str.of_Z n) = true.
Proof. apply of_Z_no, digit_not_sep. done. Qed.

(** Two paths of the tile layout that agree up to what follows the
    extension dot have the same coordinates and the same extension. *)
Lemma layout_inj z x y z' x' y' e e' :
  SAVE_DIR +:+ "/" +:+ Str.of_Z z +:+ "/" +:+ Str.of_Z x +:+ "/" +:+ Str.of_Z y +:+ String "." e
  = SAVE_DIR +:+ "/" +:+ Str.of_Z z' +:+ "/" +:+ Str.of_Z x' +:+ "/" +:+ Str.of_Z y' +:+ String "." e' ->
  (z, x, y) = (z', x', y') /\ e = e'.
Proof.
  intros E. apply (inj (String.append SAVE_DIR)) in E.
  injection E as E.
  apply append_sep_inj in E as [Ez E]; [|apply no_slash..].
  apply append_sep_inj in E as [Ex E]; [|apply no_slash..].
  apply append_sep_inj in E as [Ey E]; [|apply no_dot..].
  apply of_Z_inj in Ez, Ex, Ey. by subst.
Qed.

Lemma tile_path_inj z x y z' x' y' :
  tile_path z x y = tile_path z' x' y' -> (z, x, y) = (z', x', y').
Proof. rewrite !tile_path_eq. by intros [? _]%layout_inj. Qed.

Lemma part_not_tile z x y z' x' y' :
  tile_path z x y +:+ ".part" <> tile_path z' x' y'.
Proof.
  rewrite !tile_path_eq, !append_assoc. by intros [_ [=]]%layout_inj.
Qed.

Lemma log_not_tile z x y : FAILED_FILE <> tile_path z x y.
Proof. rewrite tile_path_eq. discriminate. Qed.

Lemma log_not_part z x y : FAILED_FILE <> tile_path z x y +:+ ".part".
Proof. rewrite tile_path_eq. discriminate. Qed.

End PathFacts.

(** ** The poisoning test *)

Section SniffFacts.

Local Arguments String.append !_ _ : simpl nomatch.

Lemma take_drop_while P s : Str.take_while P s +:+ Str.drop_while P s = s.
Proof.
  induction s as [|c s IH]; simpl; [done|].
  destruct (P c); simpl; [by rewrite IH|done].
Qed.

Lemma take_while_all P s : Str.all P (Str.take_while P s) = true.
Proof.
  induction s as [|c s IH]; simpl; [done|].
  destruct (P c) eqn:E; simpl; [by rewrite E|done].
Qed.

Lemma bytes_space_blank c : Str.bytes_space c = is_blank c.
Proof. destruct c as [[] [] [] [] [] [] [] []]; vm_compute; reflexivity. Qed.

Lemma all_ext P Q s : (forall c, P c = Q c) -> Str.all P s = Str.all Q s.
Proof. intros H. induction s as [|c s IH]; simpl; [done|]. by rewrite H, IH. Qed.

Lemma drop_while_head s :
  begins_with_space (Str.drop_while Str.bytes_space s) = false.
Proof.
  induction s as [|c s IH]; simpl; [done|].
  destruct (Str.bytes_space c) eqn:E; simpl; [done|]. by rewrite <- bytes_space_blank.
Qed.

Lemma drop_while_append ws rest :
  Str.all is_blank ws = true -> begins_with_space rest = false ->
  Str.drop_while Str.bytes_space (ws +:+ rest) = rest.
Proof.
  intros Hws Hrest. induction ws as [|c ws IH]; simpl in *.
  - destruct rest as [|c rest]; simpl in *; [done|].
    by rewrite bytes_space_blank, Hrest.
  - apply andb_true_iff in Hws as [Hc Hws]. rewrite bytes_space_blank, Hc. by apply IH.
Qed.

Lemma map_append f s t : Str.map f (s +:+ t) = Str.map f s +:+ Str.map f t.
Proof. induction s as [|c s IH]; simpl; [done|by rewrite IH]. Qed.

Lemma map_append_inv f s p t :
  Str.map f s = p +:+ t ->
  exists pre tail, s = pre +:+ tail /\ Str.map f pre = p /\ Str.map f tail = t.
Proof.
  revert s. induction p as [|a p IH]; intros s; simpl.
  - intros <-. by exists EmptyString, s.
  - destruct s as [|c s]; simpl; [done|].
    intros [= <- (pre & tail & -> & <- & <-)%IH].
    by exists (String c pre), tail.
Qed.

Lemma code_inj u v : Str.code u = Str.code v -> u = v.
Proof.
  unfold Str.code. intros E.
  by rewrite <- (ascii_N_embedding u), <- (ascii_N_embedding v), E.
Qed.

(** Lowering a byte gives [b], a byte that is no capital, exactly when
    the byte is [b] up to case. *)
Lemma lower_same_letter a b :
  is_upper b = false -> (same_letter a b <-> Str.bytes_lower_char a = b).
Proof.
  intros Hb. unfold same_letter, Str.bytes_lower_char. cbv zeta.
  fold (is_upper a). destruct (is_upper a) eqn:Ha.
  - assert (Hcode : Str.code (ascii_of_N (Str.code a + 32)) = (Str.code a + 32)%N).
    { unfold Str.code. apply N_ascii_embedding.
      unfold is_upper, Str.code in Ha. apply andb_true_iff in Ha as [_ Ha%N.leb_le]. lia. }
    split.
    + intros [->|[[_ E]|[Hb' _]]]; [congruence| |congruence].
      apply code_inj. by rewrite Hcode.
    + intros <-. right; left. by rewrite Hcode.
  - split.
    + intros [->|[[Ha' _]|[Hb' _]]]; [done|congruence|congruence].
    + intros ->. by left.
Qed.

Lemma ci_eq_lower pre : forall p,
  Str.all (fun c => negb (is_upper c)) p = true ->
  (ci_eq pre p <-> Str.bytes_lower pre = p).
Proof.
  induction pre as [|a pre IH]; intros [|b p] Hp; try done.
  change (Str.bytes_lower (String a pre))
    with (String (Str.bytes_lower_char a) (Str.bytes_lower pre)).
  change (ci_eq (String a pre) (String b p)) with (same_letter a b /\ ci_eq pre p).
  change (negb (is_upper b) && Str.all (fun c => negb (is_upper c)) p = true) in Hp.
  apply andb_true_iff in Hp as [Hb%negb_true_iff Hp].
  rewrite (IH p Hp), (lower_same_letter a b Hb). split.
  - by intros [-> ->].
  - by intros [= -> ->].
Qed.

Lemma startswith_ci_iff s p :
  Str.all (fun c => negb (is_upper c)) p = true ->
  (Str.startswith (Str.bytes_lower s) p = true <-> starts_with_ci s p).
Proof.
  intros Hp. split.
  - intros [t (pre & tail & -> & E & _)%map_append_inv]%startswith_split.
    exists pre, tail. split; [done|]. by apply ci_eq_lower.
  - intros (pre & tail & -> & E%ci_eq_lower); [|done]. subst p.
    unfold Str.bytes_lower. rewrite map_append. apply startswith_append.
Qed.

(** The code's test is the wording's test. *)
Lemma looks_like_html_or_json_iff b :
  looks_like_html_or_json b = true <-> sniffs_as_html_or_json b.
Proof.
  unfold looks_like_html_or_json, sniffs_as_html_or_json. split.
  - intros H.
    exists (Str.take_while Str.bytes_space b), (Str.bytes_lstrip b).
    split; [by rewrite take_drop_while|].
    split; [rewrite <- (all_ext _ _ _ bytes_space_blank); apply take_while_all|].
    split; [apply drop_while_head|].
    apply orb_true_iff in H as [[H|H]%orb_true_iff|H];
      apply startswith_ci_iff in H; try reflexivity; eexists; (split; [|exact H]);
      unfold POISON_MARKS; set_solver.
  - intros (ws & rest & -> & Hws & Hrest & p & Hp & H).
    unfold Str.bytes_lstrip. rewrite drop_while_append by done.
    unfold POISON_MARKS in Hp.
    apply elem_of_cons in Hp as [->|Hp];
      [apply startswith_ci_iff in H; [by rewrite H|reflexivity]|].
    apply elem_of_cons in Hp as [->|Hp];
      [apply startswith_ci_iff in H; [by rewrite H, orb_true_r|reflexivity]|].
    apply elem_of_cons in Hp as [->|Hp];
      [apply startswith_ci_iff in H; [by rewrite H, orb_true_r|reflexivity]|].
    by apply elem_of_nil in Hp.
Qed.

Lemma take_append n : forall a b,
  exists u, Str.take n (a +:+ b) = Str.take n a +:+ u.
Proof.
  induction n as [|n IH]; intros a b; [by exists EmptyString|].
  destruct a as [|c a].
  - by exists (Str.take (S n) b).
  - destruct (IH a b) as [u Hu]. exists u.
    change (String c (Str.take n (a +:+ b)) = String c (Str.take n a +:+ u)).
    by rewrite Hu.
Qed.

(** A chunk that sniffs makes every body that it begins sniff. *)
Lemma sniffs_append b t :
  sniffs_as_html_or_json b -> sniffs_as_html_or_json (b +:+ t).
Proof.
  intros (ws & rest & -> & Hws & Hrest & p & Hp & pre & tail & E & Hci).
  exists ws, (rest +:+ t). split; [by rewrite append_assoc|]. split; [done|].
  split.
  - destruct rest as [|c rest]; [|done].
    destruct pre; [|done]. destruct p; [|done].
    unfold POISON_MARKS in Hp. rewrite !elem_of_cons, elem_of_nil in Hp.
    by destruct Hp as [?|[?|[?|[]]]].
  - exists p. split; [done|]. destruct (take_append 64 rest t) as [u Hu].
    exists pre, (tail +:+ u). split; [|done].
    by rewrite Hu, E, append_assoc.
Qed.

Lemma chunks_first b it full :
  chunks (Chunk b :: it) = Some full -> exists t, full = b +:+ t.
Proof.
  cbn [chunks]. destruct (chunks it) as [t|]; [|done].
  intros [= <-]. by exists t.
Qed.

Lemma startswith_take n s p :
  (String.length p <= n)%nat ->
  Str.startswith (Str.take n s) p = Str.startswith s p.
Proof.
  revert n s. induction p as [|a p IH]; intros n s Hn; simpl in *; [done|].
  destruct n as [|n]; [lia|]. destruct s as [|c s]; simpl; [done|].
  rewrite IH by lia. done.
Qed.

Lemma map_take f n s : Str.map f (Str.take n s) = Str.take n (Str.map f s).
Proof.
  revert s. induction n as [|n IH]; intros [|c s]; simpl; try done.
  by rewrite IH.
Qed.

(** The cut at 64 bytes does not matter: every mark is shorter. *)
Lemma looks_like_html_or_json_uncut b :
  looks_like_html_or_json b
  = let s := Str.bytes_lower (Str.bytes_lstrip b) in
    Str.startswith s "<!doctype" || Str.startswith s "<html" || Str.startswith s "{".
Proof.
  unfold looks_like_html_or_json, Str.bytes_lower. cbv zeta.
  rewrite map_take, !startswith_take; [done|simpl; lia..].
Qed.

End SniffFacts.

(** ** Worlds and file operations *)

Section WorldFacts.

Implicit Types w : World.
Implicit Types p : string.

Lemma world_eta w : mkWorld (files w) (dirs w) (trace w) = w.
Proof. by destruct w. Qed.

Lemma set_files_id w : set_files (fun m => m) w = w.
Proof. apply world_eta. Qed.

Lemma set_files_ext f g w :
  f (files w) = g (files w) -> set_files f w = set_files g w.
Proof. unfold set_files. by intros ->. Qed.

Lemma remove_if_exists_eq p w :
  remove_if_exists p w = (inr tt, set_files (delete p) w).
Proof.
  unfold remove_if_exists, bind, os_path_exists, isfile. simpl.
  case_bool_decide as H; [done|].
  unfold ret. f_equal. rewrite <- (set_files_id w) at 1.
  apply set_files_ext. symmetry. apply delete_id.
  by apply eq_None_not_Some.
Qed.

Lemma requests_emit_get url w : requests (emit (Get url) w) = S (requests w).
Proof.
  unfold requests, emit. simpl. rewrite filter_app, length_app. simpl. lia.
Qed.

Lemma requests_emit_sleep e w :
  is_get e = false -> requests (emit e w) = requests w.
Proof.
  intros He. unfold requests, emit. simpl. rewrite filter_app, length_app.
  rewrite filter_cons, He. simpl. lia.
Qed.

Lemma files_log_failure z x y reason w :
  files (log_failure z x y reason w) = append_line (failure_line z x y reason) (files w).
Proof. done. Qed.

Lemma dirs_log_failure z x y reason w :
  dirs (log_failure z x y reason w) = dirs w.
Proof. done. Qed.

Lemma requests_log_failure z x y reason w :
  requests (log_failure z x y reason w) = requests w.
Proof. done. Qed.

Lemma f_write_spec fault p n data w c :
  files w !! p = Some c ->
  match f_write fault p n data w with
  | (inr _, w') => w' = set_files (<[p := c +:+ data]>) w
  | (inl _, w') => w' = w /\ fault <> NoFault
  end.
Proof.
  intros Hc. unfold f_write, content.
  destruct fault as [| |k e|]; try (simpl; by rewrite Hc).
  destruct (Nat.eqb k n); simpl; [done|by rewrite Hc].
Qed.

Lemma bind_ext {A B} (m : M A) (k k' : A -> M B) w :
  (forall a w', m w = (inr a, w') -> k a w' = k' a w') -> bind m k w = bind m k' w.
Proof. unfold bind. intros H. destruct (m w) as [[e|a] w']; [done|by apply H]. Qed.

Lemma open_wb_spec fault p w :
  match open_wb fault p w with
  | (inr _, w') => w' = set_files (<[p := EmptyString]>) w
  | (inl _, w') => w' = w /\ fault <> NoFault
  end.
Proof. by destruct fault. Qed.

Lemma chunks_skip_empty c rest :
  Str.is_empty c = true -> chunks (Chunk c :: rest) = chunks rest.
Proof. intros ->%is_empty_true. simpl. by destruct (chunks rest). Qed.

Lemma write_rest_spec fault p it : forall n w c,
  files w !! p = Some c ->
  match write_rest fault p n it w with
  | (inr _, w') =>
      exists tail, chunks it = Some tail /\ w' = set_files (<[p := c +:+ tail]>) w
  | (inl _, w') =>
      set_files (delete p) w' = set_files (delete p) w /\
      (fault <> NoFault \/ chunks it = None)
  end.
Proof.
  induction it as [|[b|e] it IH]; intros n w c Hc.
  - simpl. exists EmptyString. split; [done|].
    rewrite append_empty_r, <- (set_files_id w) at 1.
    apply set_files_ext. symmetry. by apply insert_id.
  - cbn [write_rest]. destruct (Str.is_empty b) eqn:Hb.
    { rewrite chunks_skip_empty by done. by apply IH. }
    unfold bind. pose proof (f_write_spec fault p n b w c Hc) as Hw.
    destruct (f_write fault p n b w) as [[e|[]] w1].
    { destruct Hw as [-> Hfault]. split; [done|by left]. }
    subst w1.
    specialize (IH (S n) (set_files <[p:=c +:+ b]> w) (c +:+ b)).
    cbn - [chunks write_rest] in IH. rewrite lookup_insert_eq in IH. specialize (IH eq_refl).
    destruct (write_rest _ _ _ _ _) as [[e|[]] w2].
    + destruct IH as [IH Hwhy]. split.
      * rewrite IH. unfold set_files. simpl. by rewrite delete_insert_eq.
      * destruct Hwhy as [?| Hnone]; [by left|right]. cbn [chunks]. by rewrite Hnone.
    + destruct IH as (tail & Htail & ->). exists (b +:+ tail).
      cbn [chunks]. rewrite Htail. split; [done|].
      unfold set_files. simpl. by rewrite insert_insert_eq, append_assoc.
  - split; [done|by right].
Qed.

End WorldFacts.

(** ** One pass over the body *)

Section StreamFacts.

Variable fault : DiskFault.
Variable r : Response.
Variable ct : option string.
Variables out tmp : string.
Variable lr : option string.

Lemma stream_to_file_empty w :
  empty_reply (GetReturns r) = true ->
  stream_to_file fault r ct out tmp lr w = (inr (Return empty), set_files (delete tmp) w).
Proof.
  unfold empty_reply, stream_to_file. intros [_ H]%andb_true_iff.
  destruct (body r) as [|[b|e] it]; [| |done].
  - unfold bind. cbn [next_or_empty ret fst Str.is_empty].
    by rewrite remove_if_exists_eq.
  - unfold bind. cbn [next_or_empty ret fst]. rewrite H.
    by rewrite remove_if_exists_eq.
Qed.

Lemma stream_to_file_raises e it w :
  body r = StreamRaises e :: it ->
  stream_to_file fault r ct out tmp lr w = (inl e, w).
Proof. unfold stream_to_file. by intros ->. Qed.

Lemma stream_to_file_poisoned b it w :
  body r = Chunk b :: it -> Str.is_empty b = false ->
  looks_like_html_or_json b = true ->
  stream_to_file fault r ct out tmp lr w
  = (inr (Decide (Some ("html_or_json:" +:+ default EmptyString (py_or ct (Some "unknown"))))),
     set_files (delete tmp) w).
Proof.
  unfold stream_to_file. intros -> Hb Hsniff.
  unfold bind. cbn [next_or_empty ret fst]. rewrite Hb, Hsniff.
  by rewrite remove_if_exists_eq.
Qed.

(** A body that is neither empty nor poisoned: either some step raised
    and only the temporary file may differ, or the whole body was
    written and renamed into place. *)
Lemma stream_to_file_clean b it w :
  body r = Chunk b :: it -> Str.is_empty b = false ->
  looks_like_html_or_json b = false ->
  match stream_to_file fault r ct out tmp lr w with
  | (inl _, w') =>
      set_files (delete tmp) w' = set_files (delete tmp) w /\
      (fault <> NoFault \/ chunks it = None)
  | (inr fl, w') =>
      fl = Return saved /\
      exists tail, chunks it = Some tail /\
        w' = emit SleepJitter (set_files (fun m => <[out := b +:+ tail]> (delete tmp m)) w)
  end.
Proof.
  unfold stream_to_file. intros -> Hb Hsniff.
  unfold bind at 1. cbn [next_or_empty ret fst snd]. rewrite Hb, Hsniff.
  unfold bind at 1. pose proof (open_wb_spec fault tmp w) as Hopen.
  destruct (open_wb fault tmp w) as [[e|[]] w1].
  { destruct Hopen as [-> ?]. split; [done|by left]. }
  subst w1.
  set (w1 := set_files <[tmp:=EmptyString]> w).
  assert (H1 : files w1 !! tmp = Some EmptyString) by apply lookup_insert_eq.
  unfold bind at 1. pose proof (f_write_spec fault tmp 0 b w1 _ H1) as Hw.
  destruct (f_write fault tmp 0 b w1) as [[e|[]] w2].
  { destruct Hw as [-> ?]. split; [|by left].
    unfold w1, set_files. simpl. by rewrite delete_insert_eq. }
  change (EmptyString +:+ b) with b in Hw.
  assert (H2 : files w2 !! tmp = Some b) by (subst w2; apply lookup_insert_eq).
  unfold bind at 1. pose proof (write_rest_spec fault tmp it 1 w2 _ H2) as Hr.
  destruct (write_rest fault tmp 1 it w2) as [[e|[]] w3].
  { destruct Hr as [Hr Hwhy]. split; [|done].
    rewrite Hr. subst w2. unfold w1, set_files. simpl. by rewrite !delete_insert_eq. }
  destruct Hr as (tail & Htail & Hw3).
  assert (H3 : files w3 !! tmp = Some (b +:+ tail)) by (subst w3; apply lookup_insert_eq).
  assert (Hfiles : delete tmp (files w3) = delete tmp (files w)).
  { subst w3 w2. unfold w1, set_files. simpl. by rewrite !delete_insert_eq. }
  assert (Hrest : dirs w3 = dirs w /\ trace w3 = trace w) by by subst w3 w2.
  destruct Hrest as [Hd Ht].
  unfold bind at 1. unfold os_path_getsize. rewrite H3.
  assert (Hpub :
    match (do_ os_replace fault tmp out; do_ time_sleep SleepJitter; ret (Return saved)) w3 with
    | (inl _, w') =>
        set_files (delete tmp) w' = set_files (delete tmp) w /\
        (fault <> NoFault \/ chunks it = None)
    | (inr fl, w') =>
        fl = Return saved /\
        exists tail, chunks it = Some tail /\
          w' = emit SleepJitter (set_files (fun m => <[out := b +:+ tail]> (delete tmp m)) w)
    end).
  { unfold bind at 1. unfold os_replace.
    destruct fault as [| | |e]; rewrite ?H3;
      try (unfold bind, time_sleep, modify, ret; split; [done|]; exists tail;
           split; [done|]; unfold emit, set_files; simpl;
           by rewrite Hfiles, Hd, Ht).
    unfold raise, set_files. rewrite Hfiles, Hd, Ht. split; [done|by left]. }
  by destruct (String.length (b +:+ tail) <? 100)%nat.
Qed.

(** The size test changes nothing. *)
Lemma stream_to_file_uniform_eq w :
  stream_to_file fault r ct out tmp lr w = stream_to_file_uniform fault r ct out tmp lr w.
Proof.
  unfold stream_to_file, stream_to_file_uniform.
  apply bind_ext. intros [b it] w0 _. cbn [fst snd].
  destruct (Str.is_empty b); [done|].
  destruct (looks_like_html_or_json b); [done|].
  apply bind_ext. intros [] w1 Hopen.
  pose proof (open_wb_spec fault tmp w0) as H1. rewrite Hopen in H1.
  assert (Hf1 : files w1 !! tmp = Some EmptyString)
    by (subst w1; apply lookup_insert_eq).
  apply bind_ext. intros [] w2 Hw.
  pose proof (f_write_spec fault tmp 0 b w1 _ Hf1) as H2. rewrite Hw in H2.
  assert (Hf2 : files w2 !! tmp = Some (EmptyString +:+ b))
    by (subst w2; apply lookup_insert_eq).
  apply bind_ext. intros [] w3 Hr.
  pose proof (write_rest_spec fault tmp it 1 w2 _ Hf2) as H3. rewrite Hr in H3.
  destruct H3 as (tail & _ & H3).
  assert (Hf3 : files w3 !! tmp = Some ((EmptyString +:+ b) +:+ tail))
    by (subst w3; apply lookup_insert_eq).
  unfold bind at 1. unfold os_path_getsize. rewrite Hf3.
  by destruct (String.length _ <? 100)%nat.
Qed.

End StreamFacts.

(** ** One attempt *)

Section AttemptFacts.

Variable session : Session.
Variable disk : Disk.
Variables z x y : Z.
Variable html_retries : Z.

Local Abbreviation url := (tile_url z x y).
Local Abbreviation out := (tile_path z x y).
Local Abbreviation tmp := (tile_path z x y +:+ ".part").
Local Abbreviation once := (attempt_once session disk z x y).

Lemma fetch_once_raises a w e :
  session url a = GetRaises e ->
  _fetch_once session url a w = (inl e, emit (Get url) w).
Proof. intros H. unfold _fetch_once, bind, session_get. by rewrite H. Qed.

Lemma fetch_once_status a w r :
  session url a = GetReturns r -> status_code r <> 200 ->
  _fetch_once session url a w
  = (inr (None, Some ("status:" +:+ Str.of_Z (status_code r)), None), emit (Get url) w).
Proof.
  intros H Hs. unfold _fetch_once, bind, session_get. rewrite H.
  by apply Z.eqb_neq in Hs as ->.
Qed.

Lemma fetch_once_ok a w r :
  session url a = GetReturns r -> status_code r = 200 ->
  _fetch_once session url a w
  = (inr (Some r, None,
          Some (Str.str_lower (default EmptyString (py_or (content_type r) (Some EmptyString))))),
     emit (Get url) w).
Proof.
  intros H Hs. unfold _fetch_once, bind, session_get. rewrite H.
  by apply Z.eqb_eq in Hs as ->.
Qed.

Lemma attempt_once_raises a lr err w e :
  session url a = GetRaises e ->
  once a lr err w = (Fell (Some ("request_error:" +:+ e)) err, emit (Get url) w).
Proof. intros H. unfold attempt_once. by rewrite (fetch_once_raises _ _ e). Qed.

Lemma attempt_once_status a lr err w r :
  session url a = GetReturns r -> status_code r <> 200 ->
  once a lr err w
  = (Fell (py_or lr (Some ("status:" +:+ Str.of_Z (status_code r))))
       (Some ("status:" +:+ Str.of_Z (status_code r))),
     emit (Get url) w).
Proof. intros H Hs. unfold attempt_once. by rewrite (fetch_once_status _ _ r). Qed.

Lemma attempt_once_ok a lr err w r :
  session url a = GetReturns r -> status_code r = 200 ->
  once a lr err w
  = match stream_to_file (disk tmp a) r
            (Some (Str.str_lower (default EmptyString (py_or (content_type r) (Some EmptyString)))))
            out tmp lr (emit (Get url) w) with
    | (inr (Return s), w2) => (Returned s, w2)
    | (inr (Decide last_reason), w2) => (Fell last_reason None, w2)
    | (inl e, w2) => (Fell (Some ("io_or_stream:" +:+ e)) None, set_files (delete tmp) w2)
    end.
Proof.
  intros H Hs. unfold attempt_once. rewrite (fetch_once_ok _ _ r) by done.
  destruct (stream_to_file _ _ _ _ _ _ _) as [[e|[s|l]] w2]; try done.
  by rewrite remove_if_exists_eq.
Qed.

Lemma poison_reason_eq header :
  "html_or_json:" +:+ default EmptyString
    (py_or (Some (Str.str_lower (default EmptyString (py_or header (Some EmptyString)))))
           (Some "unknown"))
  = poison_reason header.
Proof.
  unfold poison_reason. cbv zeta.
  by destruct (Str.str_lower (default EmptyString (py_or header (Some EmptyString)))).
Qed.

Lemma attempt_once_poisoned a lr err w :
  poisoned (session url a) = true ->
  once a lr err w
  = (Fell (Some (poison_reason (header_of (session url a)))) None,
     set_files (delete tmp) (emit (Get url) w)).
Proof.
  destruct (session url a) as [e|r] eqn:H; [done|]. cbn [poisoned header_of].
  intros [Hs%Z.eqb_eq Hb]%andb_true_iff.
  destruct (body r) as [|[b|e] it] eqn:Hbody; try done.
  apply andb_true_iff in Hb as [Hb%negb_true_iff Hsniff].
  rewrite (attempt_once_ok _ _ _ _ r) by done.
  rewrite (stream_to_file_poisoned _ _ _ _ _ _ b it) by done.
  by rewrite poison_reason_eq.
Qed.

Lemma attempt_once_empty a lr err w :
  empty_reply (session url a) = true ->
  once a lr err w = (Returned empty, set_files (delete tmp) (emit (Get url) w)).
Proof.
  destruct (session url a) as [e|r] eqn:H; [done|]. intros He.
  assert (Hs : status_code r = 200).
  { cbn [empty_reply] in He. by apply andb_true_iff in He as [?%Z.eqb_eq _]. }
  rewrite (attempt_once_ok _ _ _ _ r) by done.
  by rewrite stream_to_file_empty.
Qed.

(** What one attempt can do to the world: a request, then either
    nothing more, or the temporary file is gone, or the whole body of a
    200 response is published. *)
Lemma attempt_once_world a lr err w :
  let res := once a lr err w in
  ((res.1 = Returned empty \/ exists l e, res.1 = Fell l e) /\
   (res.2 = emit (Get url) w \/ res.2 = set_files (delete tmp) (emit (Get url) w)))
  \/
  (res.1 = Returned saved /\
   exists r full,
     session url a = GetReturns r /\ status_code r = 200 /\
     chunks (body r) = Some full /\ full <> EmptyString /\
     res.2 = emit SleepJitter
               (set_files (fun m => <[out := full]> (delete tmp m)) (emit (Get url) w))).
Proof.
  cbv zeta. destruct (session url a) as [e|r] eqn:H.
  { rewrite (attempt_once_raises _ _ _ _ e) by done. left. split; [right|left]; eauto. }
  destruct (decide (status_code r = 200)) as [Hs|Hs].
  2: { rewrite (attempt_once_status _ _ _ _ r) by done. left. split; [right|left]; eauto. }
  destruct (empty_reply (GetReturns r)) eqn:Hempty.
  { rewrite attempt_once_empty by by rewrite H. left. split; [left|right]; eauto. }
  rewrite (attempt_once_ok _ _ _ _ r) by done.
  cbn [empty_reply] in Hempty. rewrite Hs in Hempty. cbn [Z.eqb andb Pos.eqb] in Hempty.
  destruct (body r) as [|[b|e] it] eqn:Hbody; [done| |].
  2: { rewrite (stream_to_file_raises _ _ _ _ _ _ e it) by done.
       left. split; [right|right]; eauto. }
  destruct (looks_like_html_or_json b) eqn:Hsniff.
  { rewrite (stream_to_file_poisoned _ _ _ _ _ _ b it) by done.
    left. split; [right|right]; eauto. }
  match goal with |- context [stream_to_file ?f ?r ?c ?o ?t ?l ?w] =>
    pose proof (stream_to_file_clean f r c o t l b it w Hbody Hempty Hsniff) as Hc;
    destruct (stream_to_file f r c o t l w) as [[e|fl] w2]
  end.
  - left. split; [right; eauto|right]. apply Hc.
  - destruct Hc as (-> & tail & Htail & ->). right. split; [done|].
    exists r, (b +:+ tail). rewrite Hbody. cbn [chunks]. rewrite Htail.
    repeat split; try done. by destruct b.
Qed.

End AttemptFacts.

(** ** The loop *)

Section LoopFacts.

Variable session : Session.
Variable disk : Disk.
Variables z x y : Z.
Variable html_retries : Z.

Local Abbreviation url := (tile_url z x y).
Local Abbreviation out := (tile_path z x y).
Local Abbreviation tmp := (tile_path z x y +:+ ".part").
Local Abbreviation once := (attempt_once session disk z x y).
Local Abbreviation loop := (attempts session disk z x y html_retries).

Lemma out_not_tmp : out <> tmp.
Proof. intros E. by apply (part_not_tile z x y z x y). Qed.

Lemma retry_wanted_poison header a :
  retry_wanted html_retries (Some (poison_reason header)) a = (a <? html_retries).
Proof. done. Qed.

Lemma poison_reason_prefix header :
  Str.startswith (poison_reason header) "html_or_json:" = true.
Proof. done. Qed.

Lemma py_or_poison header b :
  py_or (Some (poison_reason header)) b = Some (poison_reason header).
Proof. done. Qed.

(** A run of [k] poisoned responses below the limit: the loop goes on
    after [k] requests, with at most the temporary file removed. *)
Lemma attempts_poisoned_prefix k : forall n a lr err w,
  (forall j, a <= j < a + Z.of_nat k -> poisoned (session url j) = true) ->
  a + Z.of_nat k <= html_retries ->
  exists lr' err' w1,
    loop (k + n)%nat a lr err w = loop n (a + Z.of_nat k) lr' err' w1 /\
    requests w1 = (requests w + k)%nat /\
    delete tmp (files w1) = delete tmp (files w).
Proof.
  induction k as [|k IH]; intros n a lr err w Hp Hk.
  - exists lr, err, w. rewrite Z.add_0_r, Nat.add_0_r. done.
  - cbn [Nat.add attempts].
    rewrite attempt_once_poisoned by (apply Hp; lia).
    rewrite retry_wanted_poison.
    assert ((a <? html_retries) = true) as -> by lia.
    edestruct (IH n (a + 1)) as (lr' & err' & w1 & -> & Hreq & Hfiles);
      [intros j Hj; apply Hp; lia|lia|].
    exists lr', err', w1. split; [f_equal; lia|].
    rewrite Hreq, Hfiles. rewrite requests_emit_sleep by done.
    split; [|by cbn; rewrite delete_delete_eq].
    change (requests (set_files (delete tmp) (emit (Get url) w)))
      with (requests (emit (Get url) w)).
    rewrite requests_emit_get. lia.
Qed.

Lemma once_returned a lr err w s :
  (once a lr err w).1 = Returned s ->
  exists r, session url a = GetReturns r /\ status_code r = 200.
Proof.
  destruct (session url a) as [e|r] eqn:H.
  { by rewrite (attempt_once_raises _ _ _ _ _ _ _ _ _ e). }
  destruct (decide (status_code r = 200)) as [Hs|Hs]; [by exists r|].
  by rewrite (attempt_once_status _ _ _ _ _ _ _ _ _ r).
Qed.

Lemma attempts_success_needs_200 n : forall a lr err w,
  (loop n a lr err w).1 = saved \/ (loop n a lr err w).1 = empty ->
  exists k r, a <= k < a + Z.of_nat n /\
    session url k = GetReturns r /\ status_code r = 200.
Proof.
  induction n as [|n IH]; intros a lr err w; cbn [attempts].
  - by intros [|].
  - pose proof (once_returned a lr err w) as Hret.
    destruct (once a lr err w) as [[s|lr' err'] w1].
    + destruct (Hret s eq_refl) as (r & Hr & Hs). intros _. exists a, r. split; [lia|done].
    + destruct (retry_wanted html_retries lr' a); [|by intros [|]].
      intros (k & r & Hk & Hr)%IH. exists k, r. split; [lia|done].
Qed.

(** Every attempt sends exactly one request. *)
Lemma attempt_once_requests a lr err w :
  requests (once a lr err w).2 = S (requests w).
Proof.
  pose proof (attempt_once_world session disk z x y a lr err w) as Hw. cbv zeta in Hw.
  destruct (once a lr err w) as [st w1]. cbn [fst snd] in Hw |- *.
  destruct Hw as [[_ [->| ->]]|[_ (r & full & _ & _ & _ & _ & ->)]].
  - apply requests_emit_get.
  - apply (requests_emit_get url w).
  - rewrite requests_emit_sleep by done. apply (requests_emit_get url w).
Qed.

(** A loop that ends [saved] or [empty] ends in the attempt that returned
    that status: it is the last request sent, and its answer has status
    200. *)
Lemma attempts_returning n : forall a lr err w,
  (loop n a lr err w).1 = saved \/ (loop n a lr err w).1 = empty ->
  exists (k : nat) lr' err' w' r,
    (k < n)%nat /\
    once (a + Z.of_nat k) lr' err' w'
    = (Returned (loop n a lr err w).1, (loop n a lr err w).2) /\
    requests w' = (requests w + k)%nat /\
    session url (a + Z.of_nat k) = GetReturns r /\ status_code r = 200.
Proof.
  induction n as [|n IH]; intros a lr err w; cbn [attempts].
  - by intros [|].
  - pose proof (once_returned a lr err w) as Hret.
    pose proof (attempt_once_requests a lr err w) as Hreq.
    destruct (once a lr err w) as [[s|lr' err'] w1] eqn:Honce; cbn [fst snd] in *.
    + destruct (Hret s eq_refl) as (r & Hr & Hs). intros _.
      exists 0%nat, lr, err, w, r. rewrite Z.add_0_r, Honce.
      repeat split; [lia|lia|done|done].
    + destruct (retry_wanted html_retries lr' a); [|by intros [|]].
      intros (k & lr2 & err2 & w2 & r & Hk & Ho & Hq & Hr & Hs)%IH.
      exists (S k), lr2, err2, w2, r.
      replace (a + Z.of_nat (S k)) with (a + 1 + Z.of_nat k) by lia.
      rewrite requests_emit_sleep in Hq by done.
      repeat split; [lia|done|lia|done|done].
Qed.

Lemma attempt_once_gets a lr err w :
  exists t, trace (once a lr err w).2 = trace w ++ Get url :: t.
Proof.
  pose proof (attempt_once_world session disk z x y a lr err w) as Hw. cbv zeta in Hw.
  destruct (once a lr err w) as [st w1]. cbn [fst snd] in Hw |- *.
  destruct Hw as [[_ [->| ->]]|[_ (r & full & _ & _ & _ & _ & ->)]].
  - by exists [].
  - by exists [].
  - exists [SleepJitter]. cbn. by rewrite <- app_assoc.
Qed.

(** The loop only adds to the recorded actions, and a loop over a range
    that is not empty adds a request. *)
Lemma attempts_grows n : forall a lr err w,
  exists t, trace (loop n a lr err w).2 = trace w ++ t /\
            ((0 < n)%nat -> Get url ∈ t).
Proof.
  induction n as [|n IH]; intros a lr err w; cbn [attempts].
  - exists []. split; [by rewrite app_nil_r|lia].
  - destruct (attempt_once_gets a lr err w) as [t1 Ht1].
    destruct (once a lr err w) as [[s|lr' err'] w1]; cbn [fst snd] in Ht1 |- *.
    + exists (Get url :: t1). split; [done|]. intros _. apply elem_of_cons. by left.
    + destruct (retry_wanted html_retries lr' a).
      * destruct (IH (a + 1) lr' err' (emit (SleepBackoff a) w1)) as (t2 & -> & _).
        exists (Get url :: t1 ++ SleepBackoff a :: t2). split.
        -- cbn [emit trace]. rewrite Ht1. by rewrite <- !app_assoc.
        -- intros _. apply elem_of_cons. by left.
      * exists (Get url :: t1). split; [done|]. intros _. apply elem_of_cons. by left.
Qed.

Lemma attempts_not_skipped n : forall a lr err w,
  (loop n a lr err w).1 <> skipped.
Proof.
  induction n as [|n IH]; intros a lr err w; cbn [attempts]; [done|].
  pose proof (attempt_once_world session disk z x y a lr err w) as Hw. cbv zeta in Hw.
  destruct (once a lr err w) as [[s|lr' err'] w1]; cbn [fst snd] in Hw |- *.
  - by destruct Hw as [[[[= ->]|(l & e & [=])] _]|[[= ->] _]].
  - destruct (retry_wanted html_retries lr' a); [apply IH|done].
Qed.

Lemma files_finish_failed lr w q :
  q <> FAILED_FILE ->
  files (finish_failed z x y lr w).2 !! q = files w !! q.
Proof.
  intros Hq. unfold finish_failed. cbn [snd]. rewrite files_log_failure.
  unfold append_line. by rewrite lookup_insert_ne.
Qed.

(** What the loop does to the files, whatever the session answers. *)
Lemma attempts_world n : forall a lr err w,
  let res := loop n a lr err w in
  (forall q, q <> out -> q <> tmp -> q <> FAILED_FILE -> files res.2 !! q = files w !! q) /\
  (res.1 <> saved -> files res.2 !! out = files w !! out) /\
  (res.1 = saved ->
     exists k r full,
       a <= k < a + Z.of_nat n /\
       session url k = GetReturns r /\ status_code r = 200 /\
       chunks (body r) = Some full /\ full <> EmptyString /\
       files res.2 !! out = Some full /\ files res.2 !! tmp = None).
Proof.
  pose proof out_not_tmp as Hot. pose proof (log_not_tile z x y) as Hlog.
  induction n as [|n IH]; intros a lr err w; cbn [attempts].
  { cbv zeta. split; [|split]; [| |done].
    - intros q _ _ Hq. by apply files_finish_failed.
    - intros _. by apply files_finish_failed. }
  pose proof (attempt_once_world session disk z x y a lr err w) as Hw. cbv zeta in Hw.
  destruct (once a lr err w) as [[s|lr' err'] w1]; cbn [fst snd] in Hw.
  - cbv zeta. cbn [fst snd].
    destruct Hw as [[Hs [->| ->]]|[[= ->] (r & full & Hr & Hs & Hfull & Hnonempty & ->)]].
    + by destruct Hs as [[= ->]|(l & e & [=])].
    + destruct Hs as [[= ->]|(l & e & [=])]. split; [|split]; [| |done].
      * intros q _ Hq _. cbn. by rewrite lookup_delete_ne.
      * intros _. cbn. by rewrite lookup_delete_ne.
    + split; [|split]; [| done |].
      * intros q Hq Hq' _. cbn. by rewrite lookup_insert_ne, lookup_delete_ne.
      * intros _. exists a, r, full. cbn.
        rewrite lookup_insert_eq, lookup_insert_ne, lookup_delete_eq by done.
        repeat split; try done; lia.
  - assert (Hf1 : forall q, q <> tmp -> files w1 !! q = files w !! q).
    { destruct Hw as [[_ [->| ->]]|[[=] _]]; intros q Hq; cbn; [done|].
      by rewrite lookup_delete_ne. }
    destruct (retry_wanted html_retries lr' a).
    + specialize (IH (a + 1) lr' err' (emit (SleepBackoff a) w1)). cbv zeta in IH |- *.
      destruct IH as (IH1 & IH2 & IH3). split; [|split].
      * intros q Hq Hq' Hq''. rewrite IH1 by done. by apply Hf1.
      * intros Hne. rewrite IH2 by done. by apply Hf1.
      * intros (k & r & full & Hk & Hrest)%IH3. exists k, r, full. split; [lia|done].
    + cbv zeta. split; [|split]; [| |done].
      * intros q _ Hq Hq'. rewrite files_finish_failed by done. by apply Hf1.
      * intros _. rewrite files_finish_failed by done. by apply Hf1.
Qed.

End LoopFacts.

(** ** Non-poisoning failures in the loop *)

Section FailureFacts.

Variable session : Session.
Variable disk : Disk.
Variables z x y : Z.
Variable html_retries : Z.

Local Abbreviation url := (tile_url z x y).
Local Abbreviation tmp := (tile_path z x y +:+ ".part").
Local Abbreviation loop := (attempts session disk z x y html_retries).

(** A request error ends the loop with its own reason. *)
Lemma request_error_ends_loop n a lr err w e :
  session url a = GetRaises e ->
  loop (S n) a lr err w
  = finish_failed z x y (Some ("request_error:" +:+ e)) (emit (Get url) w).
Proof.
  intros H. cbn [attempts]. by rewrite (attempt_once_raises _ _ _ _ _ _ _ _ _ e).
Qed.

(** So does an exception raised while the body is streamed. *)
Lemma stream_error_ends_loop n a lr err w r e w2 :
  session url a = GetReturns r -> status_code r = 200 ->
  stream_to_file (disk tmp a) r (declared_type r) (tile_path z x y) tmp lr
    (emit (Get url) w) = (inl e, w2) ->
  loop (S n) a lr err w
  = finish_failed z x y (Some ("io_or_stream:" +:+ e)) (set_files (delete tmp) w2).
Proof.
  intros H Hs Hraise. cbn [attempts].
  rewrite (attempt_once_ok _ _ _ _ _ _ _ _ _ r) by done.
  unfold declared_type in Hraise. by rewrite Hraise.
Qed.

(** A status failure ends the loop when no reason was recorded before. *)
Lemma status_failure_ends_fresh_loop n a err w r :
  session url a = GetReturns r -> status_code r <> 200 ->
  loop (S n) a None err w
  = finish_failed z x y (Some ("status:" +:+ Str.of_Z (status_code r))) (emit (Get url) w).
Proof.
  intros H Hs. cbn [attempts]. by rewrite (attempt_once_status _ _ _ _ _ _ _ _ _ r).
Qed.

(** After a poisoned attempt it does not: the poisoning reason stays in
    [last_reason] and the loop sleeps and tries again. *)
Lemma status_failure_keeps_poison_reason n a header err w r :
  session url a = GetReturns r -> status_code r <> 200 -> a < html_retries ->
  loop (S n) a (Some (poison_reason header)) err w
  = loop n (a + 1) (Some (poison_reason header))
      (Some ("status:" +:+ Str.of_Z (status_code r)))
      (emit (SleepBackoff a) (emit (Get url) w)).
Proof.
  intros H Hs Ha. cbn [attempts]. rewrite (attempt_once_status _ _ _ _ _ _ _ _ _ r) by done.
  rewrite py_or_poison, retry_wanted_poison.
  by apply Z.ltb_lt in Ha as ->.
Qed.

End FailureFacts.

(** * The claims *)

(** ** Storage mapping *)

(** C8. For coordinates with non-negative components, [tile_path] is the
    path [<root>/<zoom>/<x>/<y>.pbf] (a function of the coordinate alone),
    and distinct coordinates have distinct paths. *)
Theorem tile_path_injective (z x y z' x' y' : Z) :
  0 <= z -> 0 <= x -> 0 <= y -> 0 <= z' -> 0 <= x' -> 0 <= y' ->
  tile_path z x y
  = SAVE_DIR +:+ "/" +:+ Str.of_Z z +:+ "/" +:+ Str.of_Z x +:+ "/" +:+ Str.of_Z y +:+ ".pbf"
  /\ ((z, x, y) <> (z', x', y') -> tile_path z x y <> tile_path z' x' y').
Proof.
  intros _ _ _ _ _ _. split; [apply tile_path_eq|].
  intros Hne E. by apply Hne, tile_path_inj.
Qed.

Lemma tile_path_injective_witness :
  tile_path 5 10 20 = "zip-tiles/5/10/20.pbf" /\ tile_path 5 10 20 <> tile_path 5 11 20.
Proof.
  destruct (tile_path_injective 5 10 20 5 11 20) as [Hpath Hinj]; try lia.
  split; [exact Hpath|]. apply Hinj. discriminate.
Defined.

(** ** Poisoning *)

(** C3, as amended. The test is applied to the first chunk of the body.
    For a 200 response with a non-empty first chunk [b], the attempt
    records the reason [html_or_json:<content-type-or-unknown>] exactly
    when [b], with its leading whitespace trimmed and cut at 64 bytes,
    starts with [<!doctype], [<html] or the opening brace whatever the
    case; the declared Content-Type only appears in the reason.  A chunk
    that does not match is saved or fails with an [io_or_stream] reason,
    and a chunk that matches begins only bodies that match as a whole. *)
Theorem poisoning_detection (session : Session) (disk : Disk) (z x y a : Z)
    (lr err : option string) (w : World) (r : Response) (b : string)
    (it : list StreamItem) :
  session (tile_url z x y) a = GetReturns r -> status_code r = 200 ->
  body r = Chunk b :: it -> b <> EmptyString ->
  let res := attempt_once session disk z x y a lr err w in
  (looks_like_html_or_json b = true <-> sniffs_as_html_or_json b) /\
  (sniffs_as_html_or_json b ->
     res.1 = Fell (Some (poison_reason (content_type r))) None) /\
  (~ sniffs_as_html_or_json b ->
     res.1 = Returned saved \/ exists e, res.1 = Fell (Some ("io_or_stream:" +:+ e)) None) /\
  (forall full, chunks (body r) = Some full ->
     sniffs_as_html_or_json b -> sniffs_as_html_or_json full).
Proof.
  intros Hr Hs Hbody Hb%is_empty_false. cbv zeta.
  split; [apply looks_like_html_or_json_iff|]. split; [|split].
  - intros Hsniff%looks_like_html_or_json_iff.
    rewrite attempt_once_poisoned; [by rewrite Hr|].
    rewrite Hr. cbn [poisoned]. rewrite Hbody, Hb, Hsniff.
    by apply Z.eqb_eq in Hs as ->.
  - intros Hno. assert (Hsniff : looks_like_html_or_json b = false).
    { apply not_true_is_false. by rewrite looks_like_html_or_json_iff. }
    rewrite (attempt_once_ok _ _ _ _ _ _ _ _ _ r) by done.
    match goal with |- context [stream_to_file ?f ?r ?c ?o ?t ?l ?w] =>
      pose proof (stream_to_file_clean f r c o t l b it w Hbody Hb Hsniff) as Hc;
      destruct (stream_to_file f r c o t l w) as [[e|fl] w2]
    end.
    + right. by exists e.
    + destruct Hc as [-> _]. by left.
  - intros full Hfull Hsniff. rewrite Hbody in Hfull.
    apply chunks_first in Hfull as [t ->]. by apply sniffs_append.
Qed.

Lemma poisoning_detection_witness :
  sniffs_as_html_or_json "  <HTML><BODY>Rate limited</BODY></HTML>" /\
  (attempt_once (fun _ _ => GetReturns shouting_page) no_fault 3 1 1 0 None None w0).1
  = Fell (Some "html_or_json:application/x-protobuf") None.
Proof.
  destruct (poisoning_detection (fun _ _ => GetReturns shouting_page) no_fault
              3 1 1 0 None None w0 shouting_page
              "  <HTML><BODY>Rate limited</BODY></HTML>" []
              eq_refl eq_refl eq_refl ltac:(discriminate))
    as (Hiff & Hyes & _).
  assert (Hs : sniffs_as_html_or_json "  <HTML><BODY>Rate limited</BODY></HTML>")
    by (apply Hiff; reflexivity).
  split; [exact Hs|]. exact (Hyes Hs).
Defined.

(** C3 as it was stated fails: the test sees the first chunk, not the
    body.  A 200 response whose stream yields two blanks and then an HTML
    page has a body that starts, once trimmed, with [<html]; the first
    chunk alone does not, so the attempt stores the page as the tile. *)
Lemma split_page_is_saved :
  ~ body_sniff_rule split_page.
Proof.
  intros H.
  specialize (H "  <html>busy</html>" eq_refl).
  assert (Hs : sniffs_as_html_or_json "  <html>busy</html>").
  { exists "  ", "<html>busy</html>". repeat split.
    exists "<html". split; [unfold POISON_MARKS; rewrite !elem_of_cons; tauto|].
    exists "<html", ">busy</html>". split; [reflexivity|].
    repeat split; by left. }
  specialize (H Hs (fun _ _ => GetReturns split_page) no_fault 3 1 1 0 None None w0
                eq_refl eq_refl).
  vm_compute in H. discriminate.
Qed.

(** C1. When every attempt on a missing tile gets a poisoned response,
    [download_tile] sends exactly [1 + html_retries] requests, returns
    [failed], and appends exactly one line to the failure log, whose reason
    starts with [html_or_json:]. *)
Theorem retry_bound (session : Session) (disk : Disk) (z x y html_retries : Z)
    (w : World) :
  0 <= html_retries ->
  tile_exists_ok (tile_path z x y) w = false ->
  (forall a, 0 <= a <= html_retries -> poisoned (session (tile_url z x y) a) = true) ->
  let res := download_tile session disk z x y html_retries w in
  let reason := poison_reason (header_of (session (tile_url z x y) html_retries)) in
  res.1 = failed /\
  Z.of_nat (requests res.2) = Z.of_nat (requests w) + (1 + html_retries) /\
  Str.startswith reason "html_or_json:" = true /\
  files res.2 !! FAILED_FILE = Some (content FAILED_FILE w +:+ failure_line z x y reason).
Proof.
  intros Hnn Hmissing Hp. cbv zeta. unfold download_tile. rewrite Hmissing.
  set (w1 := ensure_dir _ w).
  replace (Z.to_nat (html_retries + 1)) with (Z.to_nat html_retries + 1)%nat by lia.
  destruct (attempts_poisoned_prefix session disk z x y html_retries
              (Z.to_nat html_retries) 1 0 None None w1)
    as (lr' & err' & w2 & -> & Hreq & Hfiles); [intros; apply Hp; lia|lia|].
  replace (0 + Z.of_nat (Z.to_nat html_retries)) with html_retries by lia.
  cbn [attempts]. rewrite attempt_once_poisoned by (apply Hp; lia).
  rewrite retry_wanted_poison, Z.ltb_irrefl.
  unfold finish_failed. rewrite py_or_poison. cbn [fst snd default].
  split; [done|]. split; [|split; [done|]].
  - rewrite requests_log_failure.
    change (requests (set_files _ ?v)) with (requests v).
    rewrite requests_emit_get, Hreq. change (requests w1) with (requests w). lia.
  - rewrite files_log_failure. unfold append_line. rewrite lookup_insert_eq.
    cbn [files set_files emit]. rewrite Hfiles.
    rewrite lookup_delete_ne by (intros E; symmetry in E; by apply log_not_part in E).
    done.
Qed.

Lemma retry_bound_witness :
  let res := download_tile disguised no_fault 3 1 1 3 w0 in
  res.1 = failed /\ requests res.2 = 4%nat /\
  files res.2 !! FAILED_FILE
  = Some ("3/1/1  html_or_json:application/x-protobuf" +:+ newline).
Proof.
  destruct (retry_bound disguised no_fault 3 1 1 3 w0) as (Hst & Hreq & _ & Hlog);
    [lia|reflexivity|intros a _; reflexivity|].
  cbv zeta. split; [exact Hst|]. split; [|exact Hlog].
  change (requests w0) with 0%nat in Hreq. lia.
Defined.

(** ** Empty bodies *)

(** C7. When the response whose first chunk is empty arrives at attempt
    [k] (the earlier attempts, if any, were poisoned), [download_tile]
    returns [empty] with that request as its last one, leaves no temporary
    file, and does not touch the failure log; [empty] is not [failed]. *)
Theorem empty_body (session : Session) (disk : Disk) (z x y html_retries k : Z)
    (w : World) :
  0 <= k <= html_retries ->
  tile_exists_ok (tile_path z x y) w = false ->
  (forall a, 0 <= a < k -> poisoned (session (tile_url z x y) a) = true) ->
  empty_reply (session (tile_url z x y) k) = true ->
  let res := download_tile session disk z x y html_retries w in
  res.1 = empty /\ empty <> failed /\
  Z.of_nat (requests res.2) = Z.of_nat (requests w) + k + 1 /\
  files res.2 !! (tile_path z x y +:+ ".part") = None /\
  files res.2 !! FAILED_FILE = files w !! FAILED_FILE.
Proof.
  intros Hk Hmissing Hp Hempty. cbv zeta. unfold download_tile. rewrite Hmissing.
  set (w1 := ensure_dir _ w).
  replace (Z.to_nat (html_retries + 1))
    with (Z.to_nat k + S (Z.to_nat (html_retries - k)))%nat by lia.
  destruct (attempts_poisoned_prefix session disk z x y html_retries
              (Z.to_nat k) (S (Z.to_nat (html_retries - k))) 0 None None w1)
    as (lr' & err' & w2 & -> & Hreq & Hfiles); [intros; apply Hp; lia|lia|].
  replace (0 + Z.of_nat (Z.to_nat k)) with k by lia.
  cbn [attempts]. rewrite attempt_once_empty by done. cbn [fst snd].
  split; [done|]. split; [done|].
  change (requests (set_files _ ?v)) with (requests v).
  rewrite requests_emit_get, Hreq. change (requests w1) with (requests w).
  split; [lia|]. cbn [files set_files emit]. rewrite Hfiles.
  split; [apply lookup_delete_eq|].
  rewrite lookup_delete_ne by (intros E; symmetry in E; by apply log_not_part in E).
  done.
Qed.

Lemma empty_body_witness :
  let res := download_tile empty_200 no_fault 3 1 1 3 w0 in
  res.1 = empty /\ requests res.2 = 1%nat /\
  files res.2 !! "zip-tiles/3/1/1.pbf.part" = None /\
  files res.2 !! FAILED_FILE = None.
Proof.
  destruct (empty_body empty_200 no_fault 3 1 1 3 0 w0) as (Hst & _ & Hreq & Htmp & Hlog);
    [lia|reflexivity|intros a Ha; lia|reflexivity|].
  cbv zeta. split; [exact Hst|]. split; [|split; [exact Htmp|exact Hlog]].
  change (requests w0) with 0%nat in Hreq. lia.
Defined.

(** ** The status gate *)

(** C10. A response whose status is not exactly 200 makes [_fetch_once]
    return no response and the reason [status:<code>], and the attempt
    that received it falls with that reason as its error; on the first
    attempt the tile then fails with that reason.  An attempt returns a
    status only when its own request is answered with status 200, and a
    call that ends [saved] or [empty] ends in the attempt that returned
    that status: it is the last request the call sent, and the answer to
    it has status 200. *)
Theorem strict_200_gate (session : Session) (disk : Disk) (z x y html_retries : Z) :
  (forall a w r,
     session (tile_url z x y) a = GetReturns r -> status_code r <> 200 ->
     _fetch_once session (tile_url z x y) a w
     = (inr (None, Some ("status:" +:+ Str.of_Z (status_code r)), None),
        emit (Get (tile_url z x y)) w)) /\
  (forall w r,
     0 <= html_retries -> tile_exists_ok (tile_path z x y) w = false ->
     session (tile_url z x y) 0 = GetReturns r -> status_code r <> 200 ->
     let res := download_tile session disk z x y html_retries w in
     res.1 = failed /\ requests res.2 = S (requests w) /\
     files res.2 !! FAILED_FILE
     = Some (content FAILED_FILE w
             +:+ failure_line z x y ("status:" +:+ Str.of_Z (status_code r)))) /\
  (forall a lr err w r,
     session (tile_url z x y) a = GetReturns r -> status_code r <> 200 ->
     (attempt_once session disk z x y a lr err w).1
     = Fell (py_or lr (Some ("status:" +:+ Str.of_Z (status_code r))))
            (Some ("status:" +:+ Str.of_Z (status_code r)))) /\
  (forall a lr err w s,
     (attempt_once session disk z x y a lr err w).1 = Returned s ->
     exists r, session (tile_url z x y) a = GetReturns r /\ status_code r = 200) /\
  (forall w,
     let res := download_tile session disk z x y html_retries w in
     res.1 = saved \/ res.1 = empty ->
     exists (k : nat) lr err w' r,
       0 <= Z.of_nat k <= html_retries /\
       attempt_once session disk z x y (Z.of_nat k) lr err w' = (Returned res.1, res.2) /\
       requests w' = (requests w + k)%nat /\
       requests res.2 = S (requests w + k) /\
       session (tile_url z x y) (Z.of_nat k) = GetReturns r /\ status_code r = 200).
Proof.
  split; [|split; [|split; [|split]]].
  - intros a w r. apply fetch_once_status.
  - intros w r Hnn Hmissing Hr Hs. cbv zeta. unfold download_tile. rewrite Hmissing.
    replace (Z.to_nat (html_retries + 1)) with (S (Z.to_nat html_retries)) by lia.
    cbn [attempts]. rewrite (attempt_once_status _ _ _ _ _ _ _ _ _ r) by done.
    set (reason := "status:" +:+ Str.of_Z (status_code r)).
    change (py_or None (Some reason)) with (Some reason).
    change (retry_wanted html_retries (Some reason) 0) with false.
    unfold finish_failed. cbn [fst snd].
    change (py_or (Some reason) (Some "unknown")) with (Some reason).
    split; [done|]. split.
    + by rewrite requests_log_failure, requests_emit_get.
    + rewrite files_log_failure. unfold append_line. by rewrite lookup_insert_eq.
  - intros a lr err w r Hr Hs.
    by rewrite (attempt_once_status _ _ _ _ _ _ _ _ _ r).
  - intros a lr err w s. apply once_returned.
  - intros w. cbv zeta. unfold download_tile.
    destruct (tile_exists_ok _ w); [by intros [|]|].
    intros (k & lr & err & w' & r & Hk & Ho & Hq & Hr & Hs)%attempts_returning.
    rewrite Z.add_0_l in Ho, Hr.
    exists k, lr, err, w', r. split; [lia|]. split; [exact Ho|].
    split; [exact Hq|]. split; [|done].
    pose proof (attempt_once_requests session disk z x y (Z.of_nat k) lr err w') as Hn.
    rewrite Ho in Hn. cbn [snd] in Hn. rewrite Hn. change (requests (ensure_dir _ w))
      with (requests w) in Hq. lia.
Qed.

Lemma strict_200_gate_witness :
  (_fetch_once no_content_204 (tile_url 3 1 1) 0 w0).1
  = inr (None, Some "status:204", None)
  /\ (download_tile no_content_204 no_fault 3 1 1 3 w0).1 = failed
  /\ (attempt_once no_content_204 no_fault 3 1 1 2 (Some "html_or_json:unknown") None w0).1
     = Fell (Some "html_or_json:unknown") (Some "status:204")
  /\ exists (k : nat) lr err w' r,
       0 <= Z.of_nat k <= 3 /\
       attempt_once page_then_tile no_fault 3 1 1 (Z.of_nat k) lr err w'
       = (Returned saved, (download_tile page_then_tile no_fault 3 1 1 3 w0).2) /\
       requests w' = (requests w0 + k)%nat /\
       requests (download_tile page_then_tile no_fault 3 1 1 3 w0).2
       = S (requests w0 + k) /\
       page_then_tile (tile_url 3 1 1) (Z.of_nat k) = GetReturns r /\ status_code r = 200.
Proof.
  destruct (strict_200_gate no_content_204 no_fault 3 1 1 3)
    as (Hfetch & Hfail & Hfell & _ & _).
  destruct (strict_200_gate page_then_tile no_fault 3 1 1 3) as (_ & _ & _ & _ & Hgate).
  split; [|split; [|split]].
  - by rewrite (Hfetch 0 w0 (mkResponse 204 None [])).
  - apply (Hfail w0 (mkResponse 204 None [])); [lia|reflexivity|reflexivity|discriminate].
  - apply (Hfell 2 (Some "html_or_json:unknown") None w0 (mkResponse 204 None []));
      [reflexivity|discriminate].
  - apply (Hgate w0). left. reflexivity.
Defined.

(** ** Publishing *)

Section UniformFacts.

Variable session : Session.
Variable disk : Disk.
Variables z x y : Z.
Variable html_retries : Z.

Lemma attempt_once_uniform_eq a lr err w :
  attempt_once session disk z x y a lr err w
  = attempt_once_uniform session disk z x y a lr err w.
Proof.
  unfold attempt_once, attempt_once_uniform.
  destruct (_fetch_once _ _ _ _) as [[e|[[[r|] err'] ct]] w1]; try done.
  by rewrite stream_to_file_uniform_eq.
Qed.

Lemma attempts_uniform_eq n : forall a lr err w,
  attempts session disk z x y html_retries n a lr err w
  = attempts_uniform session disk z x y html_retries n a lr err w.
Proof.
  induction n as [|n IH]; intros a lr err w; cbn [attempts attempts_uniform]; [done|].
  rewrite attempt_once_uniform_eq.
  destruct (attempt_once_uniform _ _ _ _ _ _ _ _ _) as [[s|lr' err'] w1]; [done|].
  by rewrite IH.
Qed.

End UniformFacts.

(** C5. An attempt whose [try] block raises while the body is streamed to
    the [.part] file ends with the reason [io_or_stream:<detail>], without
    the temporary file and with the destination as it was.  Over a whole
    call, the destination either keeps its content or holds the complete
    body of a 200 response, put there by the rename of the fully written
    temporary file, which is then gone. *)
Theorem atomic_publish (session : Session) (disk : Disk) (z x y html_retries : Z) :
  (forall a lr err w r e w2,
     session (tile_url z x y) a = GetReturns r -> status_code r = 200 ->
     stream_to_file (disk (tile_path z x y +:+ ".part") a) r (declared_type r)
       (tile_path z x y) (tile_path z x y +:+ ".part") lr (emit (Get (tile_url z x y)) w)
     = (inl e, w2) ->
     let res := attempt_once session disk z x y a lr err w in
     res.1 = Fell (Some ("io_or_stream:" +:+ e)) None /\
     files res.2 !! (tile_path z x y +:+ ".part") = None /\
     files res.2 !! tile_path z x y = files w !! tile_path z x y) /\
  (forall w,
     let res := download_tile session disk z x y html_retries w in
     files res.2 !! tile_path z x y = files w !! tile_path z x y \/
     (res.1 = saved /\
      exists a r full,
        session (tile_url z x y) a = GetReturns r /\ status_code r = 200 /\
        chunks (body r) = Some full /\
        files res.2 !! tile_path z x y = Some full /\
        files res.2 !! (tile_path z x y +:+ ".part") = None)).
Proof.
  pose proof (out_not_tmp z x y) as Hot. split.
  - intros a lr err w r e w2 Hr Hs Hraise. cbv zeta.
    pose proof (attempt_once_world session disk z x y a lr err w) as Hw. cbv zeta in Hw.
    rewrite (attempt_once_ok _ _ _ _ _ _ _ _ _ r) in Hw |- * by done.
    unfold declared_type in Hraise. rewrite Hraise in Hw |- *. cbn [fst snd] in Hw |- *.
    split; [done|]. split; [apply lookup_delete_eq|].
    destruct Hw as [[_ [->| ->]]|[[=] _]]; cbn; [done|].
    by rewrite lookup_delete_ne.
  - intros w. cbv zeta. unfold download_tile.
    destruct (tile_exists_ok _ w); [by left|].
    match goal with |- context [attempts _ _ _ _ _ _ ?n ?a ?l ?e ?v] =>
      pose proof (attempts_world session disk z x y html_retries n a l e v) as Hw;
      destruct (attempts session disk z x y html_retries n a l e v) as [s w'] eqn:E
    end.
    cbv zeta in Hw. cbn [fst snd] in Hw |- *. destruct Hw as (_ & Hkeep & Hsaved).
    destruct s; try (left; by apply Hkeep).
    right. split; [done|].
    destruct (Hsaved eq_refl) as (k & r & full & _ & Hr & Hs & Hfull & _ & Hout & Htmp).
    by exists k, r, full.
Qed.

Lemma atomic_publish_witness :
  let res := attempt_once drops no_fault 3 1 1 0 None None w0 in
  res.1 = Fell (Some "io_or_stream:connection reset") None /\
  files res.2 !! "zip-tiles/3/1/1.pbf.part" = None /\
  files res.2 !! "zip-tiles/3/1/1.pbf" = None.
Proof.
  destruct (atomic_publish drops no_fault 3 1 1 3) as [Hraise _].
  apply (Hraise 0 None None w0
           (mkResponse 200 None [Chunk "abc"; StreamRaises "connection reset"])
           "connection reset"
           (mkWorld {["zip-tiles/3/1/1.pbf.part" := "abc"]} ∅ [Get (tile_url 3 1 1)]));
    [reflexivity|reflexivity|].
  vm_compute. reflexivity.
Defined.

(** C9. [download_tile] with its two size branches equals the version with
    one success path and no size test; and a body that is neither empty
    nor poisoned and streams without fault is renamed into place, followed
    by the jitter sleep and [saved], whatever its size. *)
Theorem small_file_branch_equivalence :
  (forall session disk z x y html_retries w,
     download_tile session disk z x y html_retries w
     = download_tile_uniform session disk z x y html_retries w) /\
  (forall r ct out tmp lr w b it tail,
     body r = Chunk b :: it -> b <> EmptyString ->
     looks_like_html_or_json b = false -> chunks it = Some tail ->
     stream_to_file NoFault r ct out tmp lr w
     = (inr (Return saved),
        emit SleepJitter (set_files (fun m => <[out := b +:+ tail]> (delete tmp m)) w))).
Proof.
  split.
  - intros. unfold download_tile, download_tile_uniform.
    destruct (tile_exists_ok _ w); [done|]. apply attempts_uniform_eq.
  - intros r ct out tmp lr w b it tail Hbody Hb%is_empty_false Hsniff Htail.
    pose proof (stream_to_file_clean NoFault r ct out tmp lr b it w Hbody Hb Hsniff) as Hc.
    destruct (stream_to_file _ _ _ _ _ _ _) as [[e|fl] w'].
    + destruct Hc as [_ [?|Hnone]]; [done|congruence].
    + destruct Hc as (-> & tail' & Htail' & ->).
      rewrite Htail in Htail'. by injection Htail' as <-.
Qed.

Lemma small_file_branch_equivalence_witness :
  stream_to_file NoFault (mkResponse 200 None [Chunk "ab"; Chunk "cd"]) None
    "tile.pbf" "tile.pbf.part" None w0
  = (inr (Return saved), mkWorld {["tile.pbf" := "abcd"]} ∅ [SleepJitter]).
Proof.
  destruct small_file_branch_equivalence as [_ H].
  rewrite (H (mkResponse 200 None [Chunk "ab"; Chunk "cd"]) None
             "tile.pbf" "tile.pbf.part" None w0 "ab" [Chunk "cd"] "cd");
    [|reflexivity|discriminate|reflexivity|reflexivity].
  vm_compute. reflexivity.
Defined.

(** ** The status does not depend on the files *)

Section StatusFacts.

Variable session : Session.
Variable disk : Disk.
Variables z x y : Z.
Variable html_retries : Z.

Local Abbreviation url := (tile_url z x y).
Local Abbreviation out := (tile_path z x y).
Local Abbreviation tmp := (tile_path z x y +:+ ".part").

Lemma bind_result {A B} (m : M A) (k : A -> M B) w w' :
  (m w).1 = (m w').1 ->
  (forall a w1 w1', m w = (inr a, w1) -> m w' = (inr a, w1') -> (k a w1).1 = (k a w1').1) ->
  (bind m k w).1 = (bind m k w').1.
Proof.
  unfold bind. intros Hm Hk.
  destruct (m w) as [[e|a] w1], (m w') as [[e'|a'] w1']; cbn in Hm; try done.
  - by injection Hm as <-.
  - injection Hm as <-. by apply Hk.
Qed.

Lemma f_write_result fault p n data w w' :
  (f_write fault p n data w).1 = (f_write fault p n data w').1.
Proof. destruct fault as [| |k e|]; try done. cbn. by destruct (Nat.eqb k n). Qed.

Lemma write_rest_result fault p it : forall n w w',
  (write_rest fault p n it w).1 = (write_rest fault p n it w').1.
Proof.
  induction it as [|[b|e] it IH]; intros n w w'; cbn [write_rest]; [done| |done].
  destruct (Str.is_empty b); [apply IH|].
  apply bind_result; [apply f_write_result|]. intros [] w1 w1' _ _. apply IH.
Qed.

Lemma stream_to_file_result fault r ct o t lr w w' :
  (stream_to_file fault r ct o t lr w).1 = (stream_to_file fault r ct o t lr w').1.
Proof.
  unfold stream_to_file. apply bind_result.
  { by destruct (body r) as [|[b|e] it]. }
  intros [b it] w0 w0' _ _. cbn [fst snd].
  destruct (Str.is_empty b).
  { unfold bind. by rewrite !remove_if_exists_eq. }
  destruct (looks_like_html_or_json b).
  { unfold bind. by rewrite !remove_if_exists_eq. }
  apply bind_result; [by destruct fault|]. intros [] w1 w1' H1 H1'.
  pose proof (open_wb_spec fault t w0) as E1. rewrite H1 in E1.
  pose proof (open_wb_spec fault t w0') as E1'. rewrite H1' in E1'.
  assert (Hf1 : files w1 !! t = Some EmptyString) by (subst w1; apply lookup_insert_eq).
  assert (Hf1' : files w1' !! t = Some EmptyString) by (subst w1'; apply lookup_insert_eq).
  apply bind_result; [apply f_write_result|]. intros [] w2 w2' H2 H2'.
  pose proof (f_write_spec fault t 0 b w1 _ Hf1) as E2. rewrite H2 in E2.
  pose proof (f_write_spec fault t 0 b w1' _ Hf1') as E2'. rewrite H2' in E2'.
  assert (Hf2 : files w2 !! t = Some (EmptyString +:+ b))
    by (subst w2; apply lookup_insert_eq).
  assert (Hf2' : files w2' !! t = Some (EmptyString +:+ b))
    by (subst w2'; apply lookup_insert_eq).
  apply bind_result; [apply write_rest_result|]. intros [] w3 w3' H3 H3'.
  pose proof (write_rest_spec fault t it 1 w2 _ Hf2) as E3. rewrite H3 in E3.
  pose proof (write_rest_spec fault t it 1 w2' _ Hf2') as E3'. rewrite H3' in E3'.
  destruct E3 as (tail & Htail & E3), E3' as (tail' & Htail' & E3').
  rewrite Htail in Htail'. injection Htail' as <-.
  assert (Hf3 : files w3 !! t = Some ((EmptyString +:+ b) +:+ tail))
    by (subst w3; apply lookup_insert_eq).
  assert (Hf3' : files w3' !! t = Some ((EmptyString +:+ b) +:+ tail))
    by (subst w3'; apply lookup_insert_eq).
  assert (Hpub : forall k : M Flow,
    k = (do_ os_replace fault t o; do_ time_sleep SleepJitter; ret (Return saved)) ->
    (k w3).1 = (k w3').1).
  { intros k ->. unfold bind, os_replace. destruct fault; by rewrite ?Hf3, ?Hf3'. }
  apply bind_result; [unfold os_path_getsize; by rewrite Hf3, Hf3'|].
  intros size w4 w4' H4 H4'. unfold os_path_getsize in H4, H4'.
  rewrite Hf3 in H4. rewrite Hf3' in H4'. injection H4 as _ <-. injection H4' as _ <-.
  destruct (size <? 100)%nat; by apply Hpub.
Qed.

Lemma attempt_once_result a lr err w w' :
  (attempt_once session disk z x y a lr err w).1
  = (attempt_once session disk z x y a lr err w').1.
Proof.
  destruct (session url a) as [e|r] eqn:H.
  { by rewrite !(attempt_once_raises _ _ _ _ _ _ _ _ _ e). }
  destruct (decide (status_code r = 200)) as [Hs|Hs].
  2: { by rewrite !(attempt_once_status _ _ _ _ _ _ _ _ _ r). }
  rewrite !(attempt_once_ok _ _ _ _ _ _ _ _ _ r) by done.
  match goal with |- context [stream_to_file ?f ?r ?c ?o ?t ?l (emit ?g w)] =>
    pose proof (stream_to_file_result f r c o t l (emit g w) (emit g w')) as E;
    destruct (stream_to_file f r c o t l (emit g w)) as [[e|[s|l1]] w1],
             (stream_to_file f r c o t l (emit g w')) as [[e'|[s'|l1']] w1']
  end; cbn in E; try done; by injection E as <-.
Qed.

Lemma attempts_result n : forall a lr err w w',
  (attempts session disk z x y html_retries n a lr err w).1
  = (attempts session disk z x y html_retries n a lr err w').1.
Proof.
  induction n as [|n IH]; intros a lr err w w'; cbn [attempts]; [done|].
  pose proof (attempt_once_result a lr err w w') as E.
  destruct (attempt_once _ _ _ _ _ a lr err w) as [[s|lr1 err1] w1],
           (attempt_once _ _ _ _ _ a lr err w') as [[s'|lr1' err1'] w1'];
    cbn in E; try done.
  - by injection E as <-.
  - injection E as <- <-. destruct (retry_wanted _ _ _); [apply IH|done].
Qed.

Lemma download_tile_status w :
  (download_tile session disk z x y html_retries w).1
  = if tile_exists_ok out w then skipped
    else fetched_status session disk z x y html_retries.
Proof.
  unfold download_tile. destruct (tile_exists_ok out w); [done|]. apply attempts_result.
Qed.

Lemma download_tile_skips w :
  tile_exists_ok out w = true ->
  download_tile session disk z x y html_retries w = (skipped, w).
Proof. unfold download_tile. by intros ->. Qed.

Lemma tile_exists_ok_files p w w' :
  files w' !! p = files w !! p -> tile_exists_ok p w' = tile_exists_ok p w.
Proof. unfold tile_exists_ok. by intros ->. Qed.

(** A tile that is present stays present, whichever tile is fetched. *)
Lemma download_tile_keeps z' x' y' w :
  tile_exists_ok (tile_path z' x' y') w = true ->
  tile_exists_ok (tile_path z' x' y') (download_tile session disk z x y html_retries w).2 = true.
Proof.
  intros Hok. destruct (decide (tile_path z' x' y' = out)) as [E|Hne].
  { rewrite E in Hok |- *. by rewrite download_tile_skips. }
  rewrite <- Hok. apply tile_exists_ok_files. unfold download_tile.
  destruct (tile_exists_ok out w); [done|].
  match goal with |- context [attempts _ _ _ _ _ _ ?n ?a ?l ?e ?v] =>
    destruct (attempts_world session disk z x y html_retries n a l e v) as (Hframe & _)
  end.
  rewrite Hframe; [done|done| |].
  - intros E. symmetry in E. by apply part_not_tile in E.
  - intros E. symmetry in E. by apply log_not_tile in E.
Qed.

(** A call leaves the other tiles as they are. *)
Lemma download_tile_other z' x' y' w :
  tile_path z' x' y' <> out ->
  tile_exists_ok (tile_path z' x' y') (download_tile session disk z x y html_retries w).2
  = tile_exists_ok (tile_path z' x' y') w.
Proof.
  intros Hne. apply tile_exists_ok_files. unfold download_tile.
  destruct (tile_exists_ok out w); [done|].
  match goal with |- context [attempts _ _ _ _ _ _ ?n ?a ?l ?e ?v] =>
    destruct (attempts_world session disk z x y html_retries n a l e v) as (Hframe & _)
  end.
  rewrite Hframe; [done|done| |].
  - intros E. symmetry in E. by apply part_not_tile in E.
  - intros E. symmetry in E. by apply log_not_tile in E.
Qed.

(** A call that does not end [saved] leaves its own tile as it is. *)
Lemma download_tile_unsaved w :
  (download_tile session disk z x y html_retries w).1 <> saved ->
  tile_exists_ok out (download_tile session disk z x y html_retries w).2
  = tile_exists_ok out w.
Proof.
  unfold download_tile. destruct (tile_exists_ok out w) eqn:E; [by intros _|].
  match goal with |- context [attempts _ _ _ _ _ _ ?n ?a ?l ?e ?v] =>
    destruct (attempts_world session disk z x y html_retries n a l e v) as (_ & Hun & _)
  end.
  intros Hns. rewrite <- E. apply tile_exists_ok_files. by rewrite Hun.
Qed.

(** A call only adds to the recorded actions; for a tile that is not
    stored it adds a request, unless [html_retries] is negative. *)
Lemma download_tile_grows w :
  exists t, trace (download_tile session disk z x y html_retries w).2 = trace w ++ t /\
    (tile_exists_ok out w = false -> 0 <= html_retries -> Get url ∈ t).
Proof.
  unfold download_tile. destruct (tile_exists_ok out w).
  { exists []. split; [by rewrite app_nil_r|done]. }
  match goal with |- context [attempts _ _ _ _ _ _ ?n ?a ?l ?e ?v] =>
    destruct (attempts_grows session disk z x y html_retries n a l e v) as (t & Ht & Hg)
  end.
  exists t. split; [exact Ht|]. intros _ Hnn. apply Hg. lia.
Qed.

Lemma download_tile_saved w :
  (download_tile session disk z x y html_retries w).1 = saved ->
  tile_exists_ok out (download_tile session disk z x y html_retries w).2 = true.
Proof.
  unfold download_tile. destruct (tile_exists_ok out w); [done|].
  match goal with |- context [attempts _ _ _ _ _ _ ?n ?a ?l ?e ?v] =>
    destruct (attempts_world session disk z x y html_retries n a l e v) as (_ & _ & Hsaved)
  end.
  intros (k & r & full & _ & _ & _ & _ & Hne & Hout & _)%Hsaved.
  unfold tile_exists_ok. rewrite Hout. by destruct full.
Qed.

End StatusFacts.

(** ** Running the pipeline twice *)

Section RerunFacts.

Variable session : Session.
Variable disk : Disk.

Local Abbreviation run := (run_tasks session disk).

Lemma run_tasks_cons z x y rest w :
  run ((z, x, y) :: rest) w
  = let r1 := download_tile session disk z x y 3 w in
    let r2 := run rest r1.2 in
    (r1.1 :: r2.1, r2.2).
Proof.
  cbn [run_tasks]. destruct (download_tile _ _ _ _ _ _ _) as [s w1]. cbn [fst snd].
  by destruct (run rest w1).
Qed.

Lemma run_tasks_keeps tiles : forall w c,
  present c w = true -> present c (run tiles w).2 = true.
Proof.
  induction tiles as [|[[z x] y] rest IH]; intros w [[z' x'] y'] Hc; [done|].
  rewrite run_tasks_cons. cbn [snd]. apply IH. by apply download_tile_keeps.
Qed.

Lemma fetched_not_skipped c : fetched session disk c <> skipped.
Proof. destruct c as [[z x] y]. apply attempts_not_skipped. Qed.

(** After a run, a tile that was saved or skipped is present, and a tile
    that is still missing is one whose fetch does not save it. *)
Lemma run_first tiles : forall w,
  Forall2 (fun c s =>
             (s = saved \/ s = skipped -> present c (run tiles w).2 = true) /\
             (present c (run tiles w).2 = true \/ fetched session disk c <> saved))
    tiles (run tiles w).1.
Proof.
  induction tiles as [|[[z x] y] rest IH]; intros w; [constructor|].
  rewrite run_tasks_cons. cbn [fst snd]. constructor; [|apply IH].
  set (r1 := download_tile session disk z x y 3 w).
  pose proof (download_tile_status session disk z x y 3 w) as Hst. fold r1 in Hst.
  pose proof (download_tile_saved session disk z x y 3 w) as Hsv. fold r1 in Hsv.
  pose proof (fetched_not_skipped (z, x, y)) as Hns. cbn [fetched] in Hns |- *.
  destruct (tile_exists_ok (tile_path z x y) w) eqn:Hok.
  { assert (Hw : present (z, x, y) (run rest r1.2).2 = true).
    { apply run_tasks_keeps. unfold r1. by rewrite download_tile_skips. }
    split; [done|by left]. }
  rewrite Hst. split.
  - intros [Hs|Hs]; [|done]. apply run_tasks_keeps, Hsv. by rewrite Hst.
  - destruct (fetched_status session disk z x y 3) eqn:Hf; try (by right).
    left. apply run_tasks_keeps, Hsv. by rewrite Hst.
Qed.

(** A run from a world where every missing tile is one whose fetch does
    not save it saves nothing and skips what is present. *)
Lemma run_second tiles : forall w,
  Forall (fun c => present c w = true \/ fetched session disk c <> saved) tiles ->
  Forall2 (fun c s => s <> saved /\ (present c w = true -> s = skipped))
    tiles (run tiles w).1.
Proof.
  induction tiles as [|[[z x] y] rest IH]; intros w Hall; [constructor|].
  rewrite run_tasks_cons. cbn [fst snd].
  apply Forall_cons in Hall as [Hc Hall]. constructor.
  - rewrite download_tile_status. cbn [present fetched] in Hc |- *.
    destruct (tile_exists_ok (tile_path z x y) w); [done|].
    split; [|done]. by destruct Hc.
  - eapply Forall2_impl; [apply IH|].
    + eapply Forall_impl; [exact Hall|]. intros [[z' x'] y'] [Hp|Hf]; [left|by right].
      by apply download_tile_keeps.
    + intros [[z' x'] y'] s [Hs Hskip]. split; [done|]. intros Hp. apply Hskip.
      by apply download_tile_keeps.
Qed.

(** A missing tile whose fetch does not save it stays missing. *)
Lemma download_tile_absent z x y c w :
  present c w = false -> fetched session disk c <> saved ->
  present c (download_tile session disk z x y 3 w).2 = false.
Proof.
  destruct c as [[z' x'] y']. cbn [present fetched]. intros Hc Hf.
  destruct (decide (tile_path z' x' y' = tile_path z x y)) as [E|Hne].
  - apply tile_path_inj in E. injection E as -> -> ->.
    rewrite download_tile_unsaved; [done|]. by rewrite download_tile_status, Hc.
  - by rewrite download_tile_other.
Qed.

Lemma run_tasks_absent tiles : forall w c,
  present c w = false -> fetched session disk c <> saved ->
  present c (run tiles w).2 = false.
Proof.
  induction tiles as [|[[z x] y] rest IH]; intros w c Hc Hf; [done|].
  rewrite run_tasks_cons. cbn [snd]. apply IH; [|done]. by apply download_tile_absent.
Qed.

(** A tile that ends [empty] or [failed] was fetched, and is missing at
    the end of the run. *)
Lemma run_first_unsaved tiles : forall w,
  Forall2 (fun c s => s = empty \/ s = failed ->
             s = fetched session disk c /\ present c (run tiles w).2 = false)
    tiles (run tiles w).1.
Proof.
  induction tiles as [|[[z x] y] rest IH]; intros w; [constructor|].
  rewrite run_tasks_cons. cbn [fst snd]. constructor.
  - pose proof (download_tile_status session disk z x y 3 w) as Hst.
    pose proof (download_tile_unsaved session disk z x y 3 w) as Hun.
    destruct (download_tile session disk z x y 3 w) as [s w1]. cbn [fst snd] in *.
    intros Hs. destruct (tile_exists_ok (tile_path z x y) w) eqn:Hok.
    { subst s. by destruct Hs. }
    split; [done|]. apply run_tasks_absent.
    + cbn [present]. rewrite Hun; [done|]. by destruct Hs as [->| ->].
    + cbn [fetched]. rewrite <- Hst. by destruct Hs as [->| ->].
  - eapply Forall2_impl; [apply IH|]. done.
Qed.

(** In a run, a tile that is missing at the start and whose fetch does not
    save it gets the status of its fetch. *)
Lemma run_second_same tiles : forall w,
  Forall2 (fun c s => present c w = false -> fetched session disk c <> saved ->
                      s = fetched session disk c)
    tiles (run tiles w).1.
Proof.
  induction tiles as [|[[z x] y] rest IH]; intros w; [constructor|].
  rewrite run_tasks_cons. cbn [fst snd]. constructor.
  - cbn [present fetched]. intros Hc _. by rewrite download_tile_status, Hc.
  - eapply Forall2_impl; [apply IH|]. intros c s H Hc Hf. apply H; [|done].
    by apply download_tile_absent.
Qed.

(** A run only adds to the recorded actions, and every task that is not
    skipped adds a request for its tile. *)
Lemma run_tasks_gets tiles : forall w,
  exists t, trace (run tiles w).2 = trace w ++ t /\
    Forall2 (fun c s => s <> skipped -> Get (tile_url c.1.1 c.1.2 c.2) ∈ t)
      tiles (run tiles w).1.
Proof.
  induction tiles as [|[[z x] y] rest IH]; intros w.
  { exists []. split; [by rewrite app_nil_r|constructor]. }
  rewrite run_tasks_cons. cbn [fst snd].
  destruct (download_tile_grows session disk z x y 3 w) as (t1 & Ht1 & Hg).
  destruct (IH (download_tile session disk z x y 3 w).2) as (t2 & Ht2 & Hall).
  exists (t1 ++ t2). split; [by rewrite Ht2, Ht1, app_assoc|]. constructor.
  - intros Hns. apply elem_of_app. left. apply Hg; [|lia].
    destruct (tile_exists_ok (tile_path z x y) w) eqn:Hok; [|done].
    by rewrite download_tile_skips in Hns.
  - eapply Forall2_impl; [exact Hall|]. intros c s H Hns.
    apply elem_of_app. right. by apply H.
Qed.

Lemma Forall2_common {A B C} (P : A -> B -> Prop) (Q : A -> C -> Prop) l a b :
  Forall2 P l a -> Forall2 Q l b -> Forall2 (fun u v => exists c, P c u /\ Q c v) a b.
Proof.
  intros HP. revert b. induction HP as [|c u l a Hcu _ IH]; intros b HQ.
  - apply Forall2_nil_inv_l in HQ as ->. constructor.
  - apply Forall2_cons_inv_l in HQ as (v & b' & Hcv & HQ & ->).
    constructor; [by exists c|by apply IH].
Qed.

Lemma run_twice tiles w :
  let first := run tiles w in
  let second := run tiles first.2 in
  Forall2 (fun s1 s2 => s2 <> saved /\ (s1 = saved \/ s1 = skipped -> s2 = skipped))
    first.1 second.1.
Proof.
  cbv zeta. pose proof (run_first tiles w) as H1.
  assert (Hall : Forall (fun c => present c (run tiles w).2 = true
                                  \/ fetched session disk c <> saved) tiles).
  { eapply Forall2_Forall_l; [exact H1|]. apply Forall_true. by intros s c [_ ?]. }
  pose proof (run_second tiles _ Hall) as H2.
  eapply Forall2_impl; [apply (Forall2_common _ _ _ _ _ H1 H2)|].
  intros s1 s2 (c & [Hp _] & [Hns Hskip]). split; [done|]. intros Hs. by apply Hskip, Hp.
Qed.

Lemma run_twice_same tiles w :
  let first := run tiles w in
  let second := run tiles first.2 in
  Forall2 (fun s1 s2 => s1 = empty \/ s1 = failed -> s2 = s1) first.1 second.1.
Proof.
  cbv zeta.
  eapply Forall2_impl;
    [apply (Forall2_common _ _ _ _ _ (run_first_unsaved tiles w)
              (run_second_same tiles (run tiles w).2))|].
  intros s1 s2 (c & H1 & H2) Hs. destruct (H1 Hs) as [E Hp].
  rewrite E. apply H2; [done|]. rewrite <- E. by destruct Hs as [->| ->].
Qed.

(** The statuses of the first run fix those of the second. *)
Lemma run_twice_full tiles w :
  let first := run tiles w in
  let second := run tiles first.2 in
  Forall2 (fun s1 s2 => s2 <> saved /\ (s1 = saved \/ s1 = skipped -> s2 = skipped)
                        /\ (s1 = empty \/ s1 = failed -> s2 = s1))
    first.1 second.1.
Proof.
  cbv zeta. pose proof (run_twice tiles w) as Ha. pose proof (run_twice_same tiles w) as Hb.
  cbv zeta in Ha, Hb. revert Ha Hb.
  generalize (run tiles (run tiles w).2).1. generalize (run tiles w).1.
  intros l1 l2 Ha. induction Ha as [|s1 s2 l1 l2 [H1 H2] _ IH]; intros Hb; [constructor|].
  apply Forall2_cons in Hb as [H3 Hb]. constructor; [done|by apply IH].
Qed.

(** The requests of the second run: one at least for every tile that the
    first run left [empty] or [failed]. *)
Lemma run_twice_gets tiles w :
  let first := run tiles w in
  let second := run tiles first.2 in
  exists t, trace second.2 = trace first.2 ++ t /\
    forall i z x y s1,
      tiles !! i = Some (z, x, y) -> first.1 !! i = Some s1 ->
      s1 = empty \/ s1 = failed -> Get (tile_url z x y) ∈ t.
Proof.
  cbv zeta. destruct (run_tasks_gets tiles (run tiles w).2) as (t & Ht & Hall).
  exists t. split; [exact Ht|]. intros i z x y s1 Hc Hs1 Hs.
  destruct (Forall2_lookup_l _ _ _ _ _ Hall Hc) as (s2 & Hs2 & Hget).
  pose proof (Forall2_lookup_lr _ _ _ _ _ _ (run_twice_same tiles w) Hs1 Hs2 Hs) as E.
  apply Hget. rewrite E. by destruct Hs as [->| ->].
Qed.

Lemma run_all_present tiles : forall w,
  Forall (fun c => present c w = true) tiles ->
  (run tiles w).2 = w /\ Forall (fun s => s = skipped) (run tiles w).1.
Proof.
  induction tiles as [|[[z x] y] rest IH]; intros w Hall; [by split|].
  apply Forall_cons in Hall as [Hc Hall]. rewrite run_tasks_cons.
  rewrite download_tile_skips by done. cbn [fst snd].
  destruct (IH w Hall) as [-> Hsk]. split; [done|by constructor].
Qed.

Lemma main_eq args w :
  main session disk args w
  = let tiles := generate_tiles (py_range (z_start args) (z_end args + 1))
                   (py_range (x_start args) (x_end args + 1))
                   (py_range (y_start args) (y_end args + 1)) in
    (fold_left count (run tiles w).1 (mkCounters 0 0 0 0 0), (run tiles w).2).
Proof. unfold main. cbv zeta. by destruct (run _ w). Qed.

Lemma fold_count_mono sts : forall c,
  n_empty c <= n_empty (fold_left count sts c) /\
  n_failed c <= n_failed (fold_left count sts c).
Proof.
  induction sts as [|s sts IH]; intros c; cbn [fold_left]; [lia|].
  destruct (IH (count c s)) as [He Hf].
  assert (n_empty c <= n_empty (count c s) /\ n_failed c <= n_failed (count c s))
    by (destruct s; cbn; lia).
  lia.
Qed.

Lemma fold_count_clean sts : forall c,
  n_empty (fold_left count sts c) = n_empty c ->
  n_failed (fold_left count sts c) = n_failed c ->
  Forall (fun s => s = saved \/ s = skipped) sts.
Proof.
  induction sts as [|s sts IH]; intros c He Hf; [constructor|]. cbn [fold_left] in He, Hf.
  destruct (fold_count_mono sts (count c s)) as [He' Hf'].
  destruct s.
  - constructor; [auto|]. by apply (IH (count c saved)).
  - constructor; [auto|]. by apply (IH (count c skipped)).
  - change (n_empty (count c empty)) with (n_empty c + 1) in He'. lia.
  - change (n_failed (count c failed)) with (n_failed c + 1) in Hf'. lia.
Qed.

Lemma fold_count_no_saved sts : forall c,
  Forall (fun s => s <> saved) sts -> n_saved (fold_left count sts c) = n_saved c.
Proof.
  induction sts as [|s sts IH]; intros c Hall; [done|].
  apply Forall_cons in Hall as [Hs Hall]. cbn [fold_left]. rewrite IH by done.
  by destruct s.
Qed.

Lemma fold_count_rerun sts1 sts2 :
  Forall2 (fun s1 s2 => s2 <> saved /\ (s1 = saved \/ s1 = skipped -> s2 = skipped)
                        /\ (s1 = empty \/ s1 = failed -> s2 = s1)) sts1 sts2 ->
  forall c1 c2,
    n_saved (fold_left count sts2 c2) = n_saved c2 /\
    n_skipped (fold_left count sts2 c2) - n_skipped c2
    = (n_saved (fold_left count sts1 c1) - n_saved c1)
      + (n_skipped (fold_left count sts1 c1) - n_skipped c1) /\
    n_empty (fold_left count sts2 c2) - n_empty c2
    = n_empty (fold_left count sts1 c1) - n_empty c1 /\
    n_failed (fold_left count sts2 c2) - n_failed c2
    = n_failed (fold_left count sts1 c1) - n_failed c1.
Proof.
  induction 1 as [|s1 s2 l1 l2 (Hns & Hsk & Hsame) _ IH]; intros c1 c2; cbn [fold_left];
    [lia|].
  specialize (IH (count c1 s1) (count c2 s2)).
  destruct s1.
  - rewrite (Hsk (or_introl eq_refl)) in *. set (f1 := fold_left count l1 _) in *.
    set (f2 := fold_left count l2 _) in *. cbn in IH. lia.
  - rewrite (Hsk (or_intror eq_refl)) in *. set (f1 := fold_left count l1 _) in *.
    set (f2 := fold_left count l2 _) in *. cbn in IH. lia.
  - rewrite (Hsame (or_introl eq_refl)) in *. set (f1 := fold_left count l1 _) in *.
    set (f2 := fold_left count l2 _) in *. cbn in IH. lia.
  - rewrite (Hsame (or_intror eq_refl)) in *. set (f1 := fold_left count l1 _) in *.
    set (f2 := fold_left count l2 _) in *. cbn in IH. lia.
Qed.

Lemma fold_count_skipped sts : forall c,
  Forall (fun s => s = skipped) sts ->
  n_skipped (fold_left count sts c) - n_skipped c = total (fold_left count sts c) - total c.
Proof.
  induction sts as [|s sts IH]; intros c Hall; cbn [fold_left]; [lia|].
  apply Forall_cons in Hall as [-> Hall]. specialize (IH (count c skipped) Hall).
  change (n_skipped (count c skipped)) with (n_skipped c + 1) in IH.
  change (total (count c skipped)) with (total c + 1) in IH. lia.
Qed.

End RerunFacts.

(** ** Idempotent skip *)

(** The disk matters as much as the upstream: after a run on a full disk
    a second run against the same upstream on a sound disk saves the
    tiles. *)
Example rerun_on_sound_disk :
  let first := main small_tile disk_full (mkArgs 5 5 10 11 20 20) w0 in
  let second := main small_tile no_fault (mkArgs 5 5 10 11 20 20) first.2 in
  n_failed first.1 = 2 /\ n_saved second.1 = 2.
Proof. vm_compute. done. Qed.

(** C4, as amended.  A tile whose file exists with a size above zero is
    [skipped] at once: no request, nothing changed; a tile that is not
    stored is never skipped, and unless [html_retries] is negative a
    request is sent for it.  Hence in a second run over the same tiles,
    against the same upstream and with the same disk faults, no tile is
    saved, every tile that the first run saved or skipped is skipped, and
    every tile that the first run left [empty] or [failed] is fetched
    again, with a request of its own, and ends as it did.  The counters of
    the second run follow: nothing saved, as many skipped as the first run
    saved or skipped, as many [empty] and [failed] as in the first run.
    When the first run had no [empty] and no [failed] outcome, the second
    run skips every tile and leaves the world as it found it. *)
Theorem idempotent_skip :
  (forall session disk z x y html_retries w,
     tile_exists_ok (tile_path z x y) w = true ->
     download_tile session disk z x y html_retries w = (skipped, w)) /\
  (forall session disk z x y html_retries w,
     tile_exists_ok (tile_path z x y) w = false ->
     let res := download_tile session disk z x y html_retries w in
     res.1 <> skipped /\
     exists t, trace res.2 = trace w ++ t /\
               (0 <= html_retries -> Get (tile_url z x y) ∈ t)) /\
  (forall session disk tiles w,
     let first := run_tasks session disk tiles w in
     let second := run_tasks session disk tiles first.2 in
     Forall2 (fun s1 s2 => s2 <> saved /\ (s1 = saved \/ s1 = skipped -> s2 = skipped)
                           /\ (s1 = empty \/ s1 = failed -> s2 = s1))
       first.1 second.1 /\
     exists t, trace second.2 = trace first.2 ++ t /\
       forall i z x y s1,
         tiles !! i = Some (z, x, y) -> first.1 !! i = Some s1 ->
         s1 = empty \/ s1 = failed -> Get (tile_url z x y) ∈ t) /\
  (forall session disk args w,
     let first := main session disk args w in
     let second := main session disk args first.2 in
     n_saved second.1 = 0 /\
     n_skipped second.1 = n_saved first.1 + n_skipped first.1 /\
     n_empty second.1 = n_empty first.1 /\
     n_failed second.1 = n_failed first.1 /\
     (n_empty first.1 = 0 -> n_failed first.1 = 0 ->
      n_skipped second.1 = total second.1 /\ second.2 = first.2)).
Proof.
  split; [|split; [|split]].
  - intros. by apply download_tile_skips.
  - intros session disk z x y html_retries w Hmissing. cbv zeta. split.
    + rewrite download_tile_status, Hmissing. apply attempts_not_skipped.
    + destruct (download_tile_grows session disk z x y html_retries w) as (t & Ht & Hg).
      exists t. split; [exact Ht|]. by apply Hg.
  - intros. cbv zeta. split; [apply run_twice_full|apply run_twice_gets].
  - intros session disk args w. cbv zeta. rewrite !main_eq. cbv zeta. cbn [fst snd].
    set (tiles := generate_tiles _ _ _).
    pose proof (run_twice_full session disk tiles w) as Htwice. cbv zeta in Htwice.
    pose proof (run_first session disk tiles w) as Hfirst.
    set (first := run_tasks session disk tiles w) in *.
    destruct (fold_count_rerun _ _ Htwice (mkCounters 0 0 0 0 0) (mkCounters 0 0 0 0 0))
      as (Hsv & Hsk & Hem & Hfa).
    cbn [n_saved n_skipped n_empty n_failed] in Hsv, Hsk, Hem, Hfa.
    split; [exact Hsv|]. split; [lia|]. split; [lia|]. split; [lia|].
    intros He Hf.
    assert (Hclean : Forall (fun s => s = saved \/ s = skipped) first.1)
      by by apply (fold_count_clean _ (mkCounters 0 0 0 0 0)).
    assert (Hall : Forall (fun c => present c first.2 = true) tiles).
    { eapply Forall2_Forall_l; [exact Hfirst|].
      eapply Forall_impl; [exact Hclean|]. intros s Hs c [Hp _]. by apply Hp. }
    destruct (run_all_present session disk tiles first.2 Hall) as [Hw Hsk'].
    split; [|done].
    pose proof (fold_count_skipped _ (mkCounters 0 0 0 0 0) Hsk') as Hc.
    cbn [n_skipped total] in Hc. lia.
Qed.

Lemma idempotent_skip_witness :
  download_tile always_404 no_fault 3 1 1 3 (mkWorld {["zip-tiles/3/1/1.pbf" := "abcd"]} ∅ [])
  = (skipped, mkWorld {["zip-tiles/3/1/1.pbf" := "abcd"]} ∅ [])
  /\ (download_tile always_404 no_fault 3 1 1 3 w_hollow).1 <> skipped
  /\ (let first := main small_tile no_fault (mkArgs 5 5 10 11 20 20) w0 in
      let second := main small_tile no_fault (mkArgs 5 5 10 11 20 20) first.2 in
      n_skipped second.1 = total second.1 /\ second.2 = first.2).
Proof.
  destruct idempotent_skip as (Hskip & Hfetch & _ & Hmain). split; [|split].
  - apply Hskip. reflexivity.
  - apply (Hfetch always_404 no_fault 3 1 1 3 w_hollow). reflexivity.
  - apply Hmain; vm_compute; reflexivity.
Defined.

(** C4 as it was stated fails: a tile that the upstream answers with 404
    fails in the first run and is fetched, and fails, again in the second;
    it is not skipped. *)
Lemma rerun_refetches_failed_tiles :
  ~ rerun_all_skipped always_404 no_fault (mkArgs 5 5 10 10 20 20) w0.
Proof.
  unfold rerun_all_skipped. intros [_ H]. vm_compute in H. discriminate.
Qed.

(** ** Where the code departs from the claims *)

(** C2. A status failure that follows a poisoned response is retried: the
    reason of the earlier attempt is still in [last_reason] and
    [last_reason or err] keeps it.  After an HTML page at attempt 0 and a
    503 at attempt 1 the loop goes on to four requests and logs the stale
    [html_or_json] reason instead of [status:503]. *)
Theorem stale_reason_retries_status_failure :
  let res := download_tile poison_then_503 no_fault 3 1 1 3 w0 in
  res.1 = failed /\ requests res.2 = 4%nat /\
  files res.2 !! FAILED_FILE = Some ("3/1/1  html_or_json:unknown" +:+ newline).
Proof. vm_compute. done. Qed.

(** C6. [is_bad_mime] rejects [text/plain], but [download_tile] never
    calls it: a 200 response declared [text/plain] whose body does not
    sniff as HTML or JSON is stored as the tile. *)
Theorem bad_mime_is_saved :
  is_bad_mime "text/plain" = true /\
  looks_like_html_or_json "not a tile" = false /\
  let res := download_tile text_plain no_fault 3 1 1 3 w0 in
  res.1 = saved /\ files res.2 !! tile_path 3 1 1 = Some "not a tile".
Proof. vm_compute. done. Qed.

(** * Further properties of the code *)

(** ** The shape of a call *)

Section ShapeFacts.

Variable session : Session.
Variable disk : Disk.
Variables z x y : Z.
Variable html_retries : Z.

Local Abbreviation url := (tile_url z x y).
Local Abbreviation out := (tile_path z x y).
Local Abbreviation tmp := (tile_path z x y +:+ ".part").
Local Abbreviation once := (attempt_once session disk z x y).
Local Abbreviation loop := (attempts session disk z x y html_retries).

Lemma retry_wanted_below lr a :
  retry_wanted html_retries lr a = true -> a < html_retries.
Proof. unfold retry_wanted. intros [_ H]%andb_true_iff. lia. Qed.

(** The four ways one attempt can end. *)
Lemma attempt_once_cases a lr err w :
  let res := once a lr err w in
  (exists l e, res = (Fell l e, emit (Get url) w)) \/
  (exists l e, res = (Fell l e, set_files (delete tmp) (emit (Get url) w))) \/
  res = (Returned empty, set_files (delete tmp) (emit (Get url) w)) \/
  (exists r full,
     session url a = GetReturns r /\ status_code r = 200 /\
     chunks (body r) = Some full /\ full <> EmptyString /\
     res = (Returned saved,
            emit SleepJitter
              (set_files (fun m => <[out := full]> (delete tmp m)) (emit (Get url) w)))).
Proof.
  cbv zeta. destruct (session url a) as [e|r] eqn:H.
  { rewrite (attempt_once_raises _ _ _ _ _ _ _ _ _ e) by done. left. eauto. }
  destruct (decide (status_code r = 200)) as [Hs|Hs].
  2: { rewrite (attempt_once_status _ _ _ _ _ _ _ _ _ r) by done. left. eauto. }
  destruct (empty_reply (GetReturns r)) eqn:Hempty.
  { rewrite attempt_once_empty by by rewrite H. by right; right; left. }
  rewrite (attempt_once_ok _ _ _ _ _ _ _ _ _ r) by done.
  cbn [empty_reply] in Hempty. rewrite Hs in Hempty. cbn [Z.eqb andb Pos.eqb] in Hempty.
  destruct (body r) as [|[b|e] it] eqn:Hbody; [done| |].
  2: { rewrite (stream_to_file_raises _ _ _ _ _ _ e it) by done. right; left. eauto. }
  destruct (looks_like_html_or_json b) eqn:Hsniff.
  { rewrite (stream_to_file_poisoned _ _ _ _ _ _ b it) by done. right; left. eauto. }
  match goal with |- context [stream_to_file ?f ?r ?c ?o ?t ?l ?w] =>
    pose proof (stream_to_file_clean f r c o t l b it w Hbody Hempty Hsniff) as Hc;
    destruct (stream_to_file f r c o t l w) as [[e|fl] w2]
  end.
  - right; left. destruct Hc as [-> _]. eauto.
  - destruct Hc as (-> & tail & Htail & ->). right; right; right.
    exists r, (b +:+ tail). rewrite Hbody. cbn [chunks]. rewrite Htail.
    repeat split; try done. by destruct b.
Qed.

(** What one attempt adds to the recorded actions and directories. *)
Lemma attempt_once_trace a lr err w :
  let res := once a lr err w in
  dirs res.2 = dirs w /\
  trace res.2
  = trace w ++ Get url :: match res.1 with Returned s => jitter_of s | Fell _ _ => [] end.
Proof.
  cbv zeta. pose proof (attempt_once_world session disk z x y a lr err w) as Hw.
  cbv zeta in Hw. destruct (once a lr err w) as [st w1]. cbn [fst snd] in Hw |- *.
  destruct Hw as [[Hst [->| ->]]|[-> (r & full & _ & _ & _ & _ & ->)]].
  - by destruct Hst as [->|(l & e & ->)].
  - by destruct Hst as [->|(l & e & ->)].
  - split; [done|]. cbn. by rewrite <- app_assoc.
Qed.

Lemma attempts_dirs n : forall a lr err w,
  dirs (loop n a lr err w).2 = dirs w.
Proof.
  induction n as [|n IH]; intros a lr err w; cbn [attempts]; [done|].
  pose proof (attempt_once_trace a lr err w) as Ht. cbv zeta in Ht.
  pose proof (attempt_once_world session disk z x y a lr err w) as Hw. cbv zeta in Hw.
  destruct (once a lr err w) as [[s|lr' err'] w1]; cbn [fst snd] in Ht, Hw |- *;
    destruct Ht as [Hd _]; [done|].
  destruct (retry_wanted html_retries lr' a).
  - by rewrite IH.
  - unfold finish_failed. cbn [snd]. by rewrite dirs_log_failure.
Qed.

(** With the range of the loop running up to [html_retries], a call is
    [k] retried attempts followed by a last request. *)
Lemma attempts_trace n : forall a lr err w,
  (0 < n)%nat -> a + Z.of_nat n = html_retries + 1 ->
  exists k, (k < n)%nat /\
    trace (loop n a lr err w).2
    = trace w ++ schedule url a k ++ Get url :: jitter_of (loop n a lr err w).1.
Proof.
  induction n as [|n IH]; intros a lr err w Hn Ha; [lia|]. cbn [attempts].
  pose proof (attempt_once_trace a lr err w) as Ht. cbv zeta in Ht.
  destruct (once a lr err w) as [[s|lr' err'] w1]; cbn [fst snd] in Ht |- *.
  - exists 0%nat. split; [lia|]. by destruct Ht as [_ ->].
  - destruct Ht as [_ Ht]. destruct (retry_wanted html_retries lr' a) eqn:Hretry.
    + apply retry_wanted_below in Hretry.
      destruct (IH (a + 1) lr' err' (emit (SleepBackoff a) w1)) as (k & Hk & ->); [lia..|].
      exists (S k). split; [lia|]. cbn [emit trace schedule]. rewrite Ht.
      by rewrite <- !app_assoc.
    + exists 0%nat. split; [lia|]. cbn. by rewrite Ht.
Qed.

Lemma requests_schedule a k : length (filter is_get (schedule url a k)) = k.
Proof.
  revert a. induction k as [|k IH]; intros a; [done|].
  cbn [schedule].
  change (filter is_get (Get url :: SleepBackoff a :: schedule url (a + 1) k))
    with (Get url :: filter is_get (schedule url (a + 1) k)).
  cbn [length]. by rewrite IH.
Qed.

Lemma requests_jitter s : filter is_get (jitter_of s) = [].
Proof. by destruct s. Qed.

(** The temporary file: none appears, and none is left after [saved] or
    [empty]. *)
Lemma attempts_part n : forall a lr err w,
  let res := loop n a lr err w in
  (files w !! tmp = None -> files res.2 !! tmp = None) /\
  (res.1 = saved \/ res.1 = empty -> files res.2 !! tmp = None).
Proof.
  pose proof (out_not_tmp z x y) as Hot. pose proof (log_not_part z x y) as Hlog.
  induction n as [|n IH]; intros a lr err w; cbn [attempts]; cbv zeta.
  { split; [|by intros [|]]. intros Hnone. by rewrite files_finish_failed. }
  pose proof (attempt_once_cases a lr err w) as Hw. cbv zeta in Hw.
  destruct (once a lr err w) as [[s|lr' err'] w1]; cbn [fst snd] in Hw |- *.
  - destruct Hw as [(l & e & [=])|[(l & e & [=])|[[= -> ->]|(r & full & _ & _ & _ & _ & [= -> ->])]]].
    + split; intros _; cbn; apply lookup_delete_eq.
    + split; intros _; cbn; by rewrite lookup_insert_ne, lookup_delete_eq.
  - assert (Hkeep : files w !! tmp = None -> files w1 !! tmp = None).
    { destruct Hw as [(l & e & [= _ _ ->])|[(l & e & [= _ _ ->])|[[=]|(r & full & _ & _ & _ & _ & [=])]]];
        [done|]. intros _. apply lookup_delete_eq. }
    destruct (retry_wanted html_retries lr' a).
    + destruct (IH (a + 1) lr' err' (emit (SleepBackoff a) w1)) as [IH1 IH2].
      split; [|done]. intros Hnone. by apply IH1, Hkeep.
    + split; [|by intros [|]]. intros Hnone. rewrite files_finish_failed by done.
      by apply Hkeep.
Qed.

Lemma known_reason_nonempty s : known_reason s = true -> s <> EmptyString.
Proof. by destruct s. Qed.

Lemma py_or_known lr s :
  reason_ok lr -> known_reason s = true ->
  exists s', py_or lr (Some s) = Some s' /\ known_reason s' = true.
Proof.
  intros [->|(s0 & -> & Hs0)] Hs; [by exists s|].
  exists s0. split; [|done]. unfold py_or.
  by destruct s0.
Qed.

(** The reason an attempt leaves in [last_reason] is of a known kind. *)
Lemma attempt_once_reason a lr err w l e :
  reason_ok lr -> (once a lr err w).1 = Fell l e ->
  exists s, l = Some s /\ known_reason s = true.
Proof.
  intros Hlr. destruct (session url a) as [e0|r] eqn:H.
  { rewrite (attempt_once_raises _ _ _ _ _ _ _ _ _ e0) by done. intros [= <- _]. eauto. }
  destruct (decide (status_code r = 200)) as [Hs|Hs].
  2: { rewrite (attempt_once_status _ _ _ _ _ _ _ _ _ r) by done. intros [= <- _].
       by apply py_or_known. }
  rewrite (attempt_once_ok _ _ _ _ _ _ _ _ _ r) by done.
  pose proof (stream_to_file_poisoned (disk tmp a) r
    (Some (Str.str_lower (default EmptyString (py_or (content_type r) (Some EmptyString)))))
    out tmp lr) as Hp.
  destruct (body r) as [|[b|e0] it] eqn:Hbody.
  - rewrite stream_to_file_empty; [done|]. cbn. rewrite Hbody.
    by apply Z.eqb_eq in Hs as ->.
  - destruct (Str.is_empty b) eqn:Hb.
    { rewrite stream_to_file_empty; [done|]. cbn. rewrite Hbody, Hb.
      by apply Z.eqb_eq in Hs as ->. }
    destruct (looks_like_html_or_json b) eqn:Hsniff.
    { rewrite (Hp b it (emit (Get url) w)) by done. intros [= <- _]. eauto. }
    pose proof (stream_to_file_clean (disk tmp a) r
      (Some (Str.str_lower (default EmptyString (py_or (content_type r) (Some EmptyString)))))
      out tmp lr b it (emit (Get url) w) Hbody Hb Hsniff) as Hc.
    destruct (stream_to_file _ _ _ _ _ _ _) as [[e0|fl] w2].
    + intros [= <- _]. eauto.
    + by destruct Hc as [-> _].
  - rewrite (stream_to_file_raises _ _ _ _ _ _ e0 it) by done. intros [= <- _]. eauto.
Qed.

(** The failure log: one line when the call fails, untouched otherwise. *)
Lemma attempts_log n : forall a lr err w,
  reason_ok lr ->
  let res := loop n a lr err w in
  (res.1 = failed ->
     exists reason,
       files res.2 !! FAILED_FILE = Some (content FAILED_FILE w +:+ failure_line z x y reason) /\
       (known_reason reason = true \/ (reason = "unknown" /\ lr = None /\ n = 0%nat))) /\
  (res.1 <> failed -> files res.2 !! FAILED_FILE = files w !! FAILED_FILE).
Proof.
  pose proof (log_not_tile z x y) as Hlt. pose proof (log_not_part z x y) as Hlp.
  assert (Hfin : forall l v, reason_ok l ->
    exists reason,
      files (finish_failed z x y l v).2 !! FAILED_FILE
      = Some (content FAILED_FILE v +:+ failure_line z x y reason) /\
      (known_reason reason = true \/ (reason = "unknown" /\ l = None))).
  { intros l v [->|(s & -> & Hs)].
    - exists "unknown". split; [|by right]. unfold finish_failed. cbn [snd].
      rewrite files_log_failure. unfold append_line. by rewrite lookup_insert_eq.
    - exists s. split; [|by left]. unfold finish_failed. cbn [snd].
      rewrite files_log_failure. unfold append_line. rewrite lookup_insert_eq.
      by destruct s. }
  induction n as [|n IH]; intros a lr err w Hlr; cbn [attempts]; cbv zeta.
  { split; [|done]. intros _. destruct (Hfin lr w Hlr) as (reason & Hlog & Hk).
    exists reason. split; [done|]. destruct Hk as [?|[? ?]]; [by left|by right]. }
  pose proof (attempt_once_world session disk z x y a lr err w) as Hw. cbv zeta in Hw.
  pose proof (attempt_once_reason a lr err w) as Hreason.
  destruct (once a lr err w) as [[s|lr' err'] w1]; cbn [fst snd] in Hw, Hreason |- *.
  - destruct Hw as [[Hs [->| ->]]|[[= ->] (r & full & _ & _ & _ & _ & ->)]].
    + by destruct Hs as [[= ->]|(l & e & [=])].
    + destruct Hs as [[= ->]|(l & e & [=])]. split; [done|]. intros _. cbn.
      by rewrite lookup_delete_ne.
    + split; [done|]. intros _. cbn. by rewrite lookup_insert_ne, lookup_delete_ne.
  - destruct (Hreason lr' err' Hlr eq_refl) as (s & -> & Hs).
    assert (Hf1 : files w1 !! FAILED_FILE = files w !! FAILED_FILE).
    { destruct Hw as [[_ [->| ->]]|[[=] _]]; cbn; [done|]. by rewrite lookup_delete_ne. }
    assert (Hc1 : forall v, files v = files w1 -> content FAILED_FILE v = content FAILED_FILE w).
    { intros v Hv. unfold content. by rewrite Hv, Hf1. }
    destruct (retry_wanted html_retries (Some s) a).
    + destruct (IH (a + 1) (Some s) err' (emit (SleepBackoff a) w1)) as [IH1 IH2].
      { right. eauto. }
      split.
      * intros Hfail. destruct (IH1 Hfail) as (reason & Hlog & Hk).
        exists reason. split.
        -- by rewrite Hlog, (Hc1 (emit (SleepBackoff a) w1) eq_refl).
        -- destruct Hk as [?|(_ & [=] & _)]. by left.
      * intros Hne. by rewrite IH2.
    + split; [|done]. intros _.
      destruct (Hfin (Some s) w1) as (reason & Hlog & [Hk|[_ [=]]]); [right; eauto|].
      exists reason. split; [|by left]. by rewrite Hlog, (Hc1 w1 eq_refl).
Qed.

End ShapeFacts.

(** ** Requests and sleeps of [download_tile] *)

(** X1. For a missing tile and [html_retries >= 0], the actions of a call
    are [k <= html_retries] rounds of a request followed by the backoff
    sleep of attempts 0, 1, ..., then one last request, then the jitter
    sleep exactly when the tile is saved; so the call sends between 1 and
    [html_retries + 1] requests, whatever the upstream answers. *)
Theorem download_tile_schedule (session : Session) (disk : Disk)
    (z x y html_retries : Z) (w : World) :
  0 <= html_retries ->
  tile_exists_ok (tile_path z x y) w = false ->
  let res := download_tile session disk z x y html_retries w in
  exists k : nat,
    Z.of_nat k <= html_retries /\
    trace res.2
    = trace w ++ schedule (tile_url z x y) 0 k ++ Get (tile_url z x y) :: jitter_of res.1 /\
    requests res.2 = (requests w + k + 1)%nat.
Proof.
  intros Hnn Hmissing. cbv zeta. unfold download_tile. rewrite Hmissing.
  set (w1 := ensure_dir _ w).
  destruct (attempts_trace session disk z x y html_retries
              (Z.to_nat (html_retries + 1)) 0 None None w1) as (k & Hk & Ht); [lia..|].
  exists k. split; [lia|]. split; [exact Ht|].
  unfold requests. rewrite Ht. change (trace w1) with (trace w).
  rewrite !filter_app, !length_app, requests_schedule.
  change (filter is_get (Get ?u :: ?l)) with (Get u :: filter is_get l).
  rewrite requests_jitter. cbn [length]. lia.
Qed.

Lemma download_tile_schedule_witness :
  let res := download_tile disguised no_fault 3 1 1 3 w0 in
  exists k : nat,
    Z.of_nat k <= 3 /\
    trace res.2
    = trace w0 ++ schedule (tile_url 3 1 1) 0 k ++ Get (tile_url 3 1 1) :: jitter_of res.1 /\
    requests res.2 = (requests w0 + k + 1)%nat.
Proof.
  apply (download_tile_schedule disguised no_fault 3 1 1 3 w0); [lia|reflexivity].
Defined.

(** X2. With a negative [html_retries] the range of the loop is empty: a
    missing tile is failed without any request, and the logged reason is
    [unknown]. *)
Theorem download_tile_negative_retries (session : Session) (disk : Disk)
    (z x y html_retries : Z) (w : World) :
  html_retries < 0 ->
  tile_exists_ok (tile_path z x y) w = false ->
  let res := download_tile session disk z x y html_retries w in
  res.1 = failed /\ trace res.2 = trace w /\
  files res.2 = <[FAILED_FILE := content FAILED_FILE w +:+ failure_line z x y "unknown"]> (files w).
Proof.
  intros Hneg Hmissing. cbv zeta. unfold download_tile. rewrite Hmissing.
  replace (Z.to_nat (html_retries + 1)) with 0%nat by lia. done.
Qed.

Lemma download_tile_negative_retries_witness :
  let res := download_tile small_tile no_fault 3 1 1 (-1) w0 in
  res.1 = failed /\ trace res.2 = [] /\
  files res.2 = {[FAILED_FILE := "3/1/1  unknown" +:+ newline]}.
Proof.
  destruct (download_tile_negative_retries small_tile no_fault 3 1 1 (-1) w0)
    as (Hst & Htr & Hf); [lia|reflexivity|].
  cbv zeta. split; [exact Hst|]. split; [exact Htr|]. rewrite Hf. vm_compute. reflexivity.
Defined.

Section FirstAttemptFacts.

Variable session : Session.
Variable disk : Disk.
Variables z x y : Z.
Variable html_retries : Z.

Local Abbreviation url := (tile_url z x y).
Local Abbreviation out := (tile_path z x y).
Local Abbreviation tmp := (tile_path z x y +:+ ".part").

(** With no reason recorded yet, only a poisoned response asks for a
    retry. *)
Lemma fresh_retry_needs_poison a err w l e :
  poisoned (session url a) = false ->
  (attempt_once session disk z x y a None err w).1 = Fell l e ->
  retry_wanted html_retries l a = false.
Proof.
  intros Hp. destruct (session url a) as [e0|r] eqn:H.
  { rewrite (attempt_once_raises _ _ _ _ _ _ _ _ _ e0) by done. by intros [= <- _]. }
  destruct (decide (status_code r = 200)) as [Hs|Hs].
  2: { rewrite (attempt_once_status _ _ _ _ _ _ _ _ _ r) by done. by intros [= <- _]. }
  rewrite (attempt_once_ok _ _ _ _ _ _ _ _ _ r) by done.
  cbn [poisoned] in Hp. rewrite Hs in Hp. cbn [Z.eqb Pos.eqb andb] in Hp.
  destruct (body r) as [|[b|e0] it] eqn:Hbody.
  - rewrite stream_to_file_empty; [done|]. cbn. rewrite Hbody.
    by apply Z.eqb_eq in Hs as ->.
  - destruct (Str.is_empty b) eqn:Hb.
    { rewrite stream_to_file_empty; [done|]. cbn. rewrite Hbody, Hb.
      by apply Z.eqb_eq in Hs as ->. }
    cbn [negb andb] in Hp.
    match goal with |- context [stream_to_file ?f ?r ?c ?o ?t ?l ?v] =>
      pose proof (stream_to_file_clean f r c o t l b it v Hbody Hb Hp) as Hc;
      destruct (stream_to_file f r c o t l v) as [[e0|fl] w2]
    end.
    + by intros [= <- _].
    + by destruct Hc as [-> _].
  - rewrite (stream_to_file_raises _ _ _ _ _ _ e0 it) by done. by intros [= <- _].
Qed.

End FirstAttemptFacts.

(** X3. Unless the first response is poisoned, a call on a missing tile
    sends exactly one request, whatever [html_retries] allows. *)
Theorem one_request_unless_poisoned (session : Session) (disk : Disk)
    (z x y html_retries : Z) (w : World) :
  0 <= html_retries ->
  tile_exists_ok (tile_path z x y) w = false ->
  poisoned (session (tile_url z x y) 0) = false ->
  requests (download_tile session disk z x y html_retries w).2 = S (requests w).
Proof.
  intros Hnn Hmissing Hp. unfold download_tile. rewrite Hmissing.
  set (w1 := ensure_dir _ w).
  replace (Z.to_nat (html_retries + 1)) with (S (Z.to_nat html_retries)) by lia.
  cbn [attempts].
  pose proof (attempt_once_trace session disk z x y 0 None None w1) as Ht. cbv zeta in Ht.
  pose proof (fresh_retry_needs_poison session disk z x y html_retries 0 None w1) as Hr.
  destruct (attempt_once session disk z x y 0 None None w1) as [[s|l e] w2];
    cbn [fst snd] in Ht, Hr |- *; destruct Ht as [_ Ht].
  - unfold requests. rewrite Ht. change (trace w1) with (trace w).
    rewrite filter_app, length_app.
    change (filter is_get (Get ?u :: ?l)) with (Get u :: filter is_get l).
    rewrite requests_jitter. cbn [length]. lia.
  - rewrite (Hr l e Hp eq_refl). unfold finish_failed. cbn [snd].
    rewrite requests_log_failure. unfold requests. rewrite Ht.
    change (trace w1) with (trace w). rewrite filter_app, length_app.
    change (filter is_get [Get ?u]) with [Get u]. cbn [length]. lia.
Qed.

Lemma one_request_unless_poisoned_witness :
  requests (download_tile always_404 no_fault 3 1 1 3 w0).2 = 1%nat.
Proof.
  apply (one_request_unless_poisoned always_404 no_fault 3 1 1 3 w0);
    [lia|reflexivity|reflexivity].
Defined.

(** ** The failure log of one call *)

(** X4. A call appends exactly one line for its coordinate to the failure
    log when it returns [failed], and leaves the log as it was otherwise.
    The logged reason starts with [request_error:], [status:],
    [io_or_stream:] or [html_or_json:]; it is [unknown] only when
    [html_retries] is negative (the fallback [request_failed] never
    appears). *)
Theorem download_tile_log (session : Session) (disk : Disk)
    (z x y html_retries : Z) (w : World) :
  let res := download_tile session disk z x y html_retries w in
  (res.1 = failed ->
     exists reason,
       files res.2 !! FAILED_FILE
       = Some (content FAILED_FILE w +:+ failure_line z x y reason) /\
       (known_reason reason = true \/ (reason = "unknown" /\ html_retries < 0))) /\
  (res.1 <> failed -> files res.2 !! FAILED_FILE = files w !! FAILED_FILE).
Proof.
  cbv zeta. unfold download_tile. destruct (tile_exists_ok _ w); [done|].
  set (w1 := ensure_dir _ w).
  destruct (attempts_log session disk z x y html_retries
              (Z.to_nat (html_retries + 1)) 0 None None w1) as [Hfail Hkeep]; [by left|].
  split; [|exact Hkeep].
  intros (reason & Hlog & Hk)%Hfail. exists reason. split; [exact Hlog|].
  destruct Hk as [?|(-> & _ & Hn)]; [by left|right]. split; [done|lia].
Qed.

Lemma download_tile_log_witness :
  files (download_tile refuses no_fault 3 1 1 3 w0).2 !! FAILED_FILE
  = Some ("3/1/1  request_error:connection refused" +:+ newline)
  /\ files (download_tile small_tile no_fault 3 1 1 3 w0).2 !! FAILED_FILE = None.
Proof.
  destruct (download_tile_log refuses no_fault 3 1 1 3 w0) as [Hfail _].
  destruct (download_tile_log small_tile no_fault 3 1 1 3 w0) as [_ Hkeep].
  split.
  - destruct (Hfail eq_refl) as (reason & Hlog & _). vm_compute. reflexivity.
  - apply Hkeep. discriminate.
Defined.

(** ** The directories of a tile *)

Section DirFacts.

Local Arguments String.append !_ _ : simpl nomatch.

Lemma dir_chain_segment s : forall seen rest,
  Str.all (fun c => negb (Ascii.eqb c "/")) s = true ->
  dir_chain seen (s +:+ rest) = dir_chain (seen +:+ s) rest.
Proof.
  induction s as [|c s IH]; intros seen rest Hs; simpl in *.
  - by rewrite append_empty_r.
  - apply andb_true_iff in Hs as [Hc Hs]. apply negb_true_iff in Hc. rewrite Hc.
    rewrite IH by done. by rewrite append_assoc.
Qed.

Lemma dir_chain_sep seen rest :
  seen <> EmptyString -> Str.endswith_char seen "/" = false ->
  dir_chain seen (String "/" rest) = seen :: dir_chain (seen +:+ "/") rest.
Proof.
  intros Hne%is_empty_false Hend. cbn [dir_chain]. by rewrite Ascii.eqb_refl, Hne, Hend.
Qed.

Lemma dir_chain_out_dir z x :
  dir_chain EmptyString (SAVE_DIR +:+ "/" +:+ Str.of_Z z +:+ "/" +:+ Str.of_Z x)
  = [SAVE_DIR; SAVE_DIR +:+ "/" +:+ Str.of_Z z;
     SAVE_DIR +:+ "/" +:+ Str.of_Z z +:+ "/" +:+ Str.of_Z x].
Proof.
  rewrite dir_chain_segment by done.
  change (EmptyString +:+ SAVE_DIR) with SAVE_DIR.
  change ("/" +:+ ?r) with (String "/" r).
  rewrite (dir_chain_sep SAVE_DIR); [|discriminate|reflexivity]. f_equal.
  rewrite dir_chain_segment by apply no_slash.
  change ("/" +:+ Str.of_Z x) with (String "/" (Str.of_Z x)).
  rewrite dir_chain_sep;
    [|apply append_nonempty_r, of_Z_nonempty|apply endswith_of_Z].
  rewrite !append_assoc. f_equal.
  rewrite <- (append_empty_r (Str.of_Z x)) at 1.
  rewrite dir_chain_segment by apply no_slash.
  cbn [dir_chain].
  replace (Str.is_empty _ || Str.endswith_char _ "/") with false; [by rewrite !append_assoc|].
  symmetry. apply orb_false_iff. split.
  - apply is_empty_false. apply append_nonempty_r, of_Z_nonempty.
  - rewrite <- !append_assoc. apply endswith_of_Z.
Qed.

Lemma dirs_ensure_out_dir z x w :
  dirs (ensure_dir (os_path_join SAVE_DIR [Str.of_Z z; Str.of_Z x]) w)
  = tile_dirs z x ∪ dirs w.
Proof.
  rewrite out_dir_eq. unfold ensure_dir. cbn [dirs].
  rewrite bool_decide_eq_false_2 by discriminate.
  rewrite dir_chain_out_dir. unfold tile_dirs. cbn [list_to_set foldr].
  by rewrite (right_id_L ∅ (∪)), !(assoc_L (∪)).
Qed.

End DirFacts.

(** ** What a call leaves alone *)

(** X5. A call changes no file other than the tile, its [.part] sibling
    and the failure log; in particular the file and the [.part] file of
    every other coordinate stay as they are.  For a missing tile the
    directories it makes, whatever the outcome, are the root, the zoom
    directory and the column directory of the tile; logging a failure
    makes none. *)
Theorem download_tile_frame (session : Session) (disk : Disk)
    (z x y html_retries : Z) (w : World) :
  let res := download_tile session disk z x y html_retries w in
  (forall q,
     q <> tile_path z x y -> q <> tile_path z x y +:+ ".part" -> q <> FAILED_FILE ->
     files res.2 !! q = files w !! q) /\
  (forall z' x' y',
     (z', x', y') <> (z, x, y) ->
     files res.2 !! tile_path z' x' y' = files w !! tile_path z' x' y' /\
     files res.2 !! (tile_path z' x' y' +:+ ".part")
     = files w !! (tile_path z' x' y' +:+ ".part")) /\
  (tile_exists_ok (tile_path z x y) w = false ->
   dirs res.2 = tile_dirs z x ∪ dirs w).
Proof.
  cbv zeta.
  assert (Hframe : forall q,
    q <> tile_path z x y -> q <> tile_path z x y +:+ ".part" -> q <> FAILED_FILE ->
    files (download_tile session disk z x y html_retries w).2 !! q = files w !! q).
  { intros q Hq Hq' Hq''. unfold download_tile. destruct (tile_exists_ok _ w); [done|].
    match goal with |- context [attempts _ _ _ _ _ _ ?n ?a ?l ?e ?v] =>
      destruct (attempts_world session disk z x y html_retries n a l e v) as (Hf & _)
    end.
    by rewrite Hf. }
  split; [exact Hframe|]. split.
  - intros z' x' y' Hne. split; apply Hframe.
    + intros E. by apply Hne, tile_path_inj.
    + intros E. symmetry in E. by apply part_not_tile in E.
    + intros E. symmetry in E. by apply log_not_tile in E.
    + by apply part_not_tile.
    + rewrite !tile_path_eq, !append_assoc. intros [E _]%layout_inj. by apply Hne.
    + intros E. symmetry in E. by apply log_not_part in E.
  - intros Hmissing. unfold download_tile. rewrite Hmissing.
    by rewrite attempts_dirs, dirs_ensure_out_dir.
Qed.

Lemma download_tile_frame_witness :
  let res := download_tile small_tile no_fault 5 10 20 3 w_stored in
  files res.2 !! tile_path 3 1 1 = Some "abcd" /\
  files res.2 !! (tile_path 3 1 1 +:+ ".part") = None /\
  dirs res.2 = {["zip-tiles"; "zip-tiles/5"; "zip-tiles/5/10"]}.
Proof.
  destruct (download_tile_frame small_tile no_fault 5 10 20 3 w_stored) as (_ & Hother & Hdirs).
  destruct (Hother 3 1 1 ltac:(discriminate)) as [Htile Hpart].
  cbv zeta. split; [by rewrite Htile|]. split; [by rewrite Hpart|].
  rewrite Hdirs by reflexivity. vm_compute. reflexivity.
Defined.

(** X6. A call never leaves a [.part] file that was not there before, and
    after [saved] or [empty] there is none at all. *)
Theorem no_part_file_left (session : Session) (disk : Disk)
    (z x y html_retries : Z) (w : World) :
  let res := download_tile session disk z x y html_retries w in
  (files w !! (tile_path z x y +:+ ".part") = None ->
   files res.2 !! (tile_path z x y +:+ ".part") = None) /\
  (res.1 = saved \/ res.1 = empty ->
   files res.2 !! (tile_path z x y +:+ ".part") = None).
Proof.
  cbv zeta. unfold download_tile. destruct (tile_exists_ok _ w); [by split; [|intros [|]]|].
  match goal with |- context [attempts _ _ _ _ _ _ ?n ?a ?l ?e ?v] =>
    apply (attempts_part session disk z x y html_retries n a l e v)
  end.
Qed.

Lemma no_part_file_left_witness :
  let stale := mkWorld {["zip-tiles/3/1/1.pbf.part" := "half"]} ∅ [] in
  files (download_tile drops no_fault 3 1 1 3 w0).2 !! "zip-tiles/3/1/1.pbf.part" = None
  /\ files (download_tile small_tile no_fault 3 1 1 3 stale).2 !! "zip-tiles/3/1/1.pbf.part"
     = None.
Proof.
  cbv zeta.
  destruct (no_part_file_left drops no_fault 3 1 1 3 w0) as [Hnone _].
  destruct (no_part_file_left small_tile no_fault 3 1 1 3
              (mkWorld {["zip-tiles/3/1/1.pbf.part" := "half"]} ∅ [])) as [_ Hdone].
  split.
  - apply Hnone. reflexivity.
  - apply Hdone. left. reflexivity.
Defined.

(** ** Skipping *)





(** ** Failures that end the call *)

Section TerminalFacts.

Variable session : Session.
Variable disk : Disk.
Variables z x y : Z.

Local Abbreviation url := (tile_url z x y).
Local Abbreviation out := (tile_path z x y).
Local Abbreviation tmp := (tile_path z x y +:+ ".part").

(** A 200 response whose stream breaks before its end, on a body that is
    neither empty nor poisoned: the attempt records [io_or_stream]. *)
Lemma attempt_once_truncated a lr err w r :
  session url a = GetReturns r -> status_code r = 200 ->
  poisoned (session url a) = false -> empty_reply (session url a) = false ->
  chunks (body r) = None ->
  exists e,
    attempt_once session disk z x y a lr err w
    = (Fell (Some ("io_or_stream:" +:+ e)) None, set_files (delete tmp) (emit (Get url) w)).
Proof.
  intros H Hs Hp He Hnone. rewrite H in Hp, He. cbn [poisoned empty_reply] in Hp, He.
  rewrite Hs in Hp, He. cbn [Z.eqb Pos.eqb andb] in Hp, He.
  rewrite (attempt_once_ok _ _ _ _ _ _ _ _ _ r) by done.
  destruct (body r) as [|[b|e0] it] eqn:Hbody; [done| |].
  - rewrite He in Hp. cbn [negb andb] in Hp.
    assert (Hit : chunks it = None).
    { cbn [chunks] in Hnone. by destruct (chunks it). }
    match goal with |- context [stream_to_file ?f ?r ?c ?o ?t ?l ?v] =>
      pose proof (stream_to_file_clean f r c o t l b it v Hbody He Hp) as Hc;
      destruct (stream_to_file f r c o t l v) as [[e0|fl] w2]
    end.
    + destruct Hc as [-> _]. by exists e0.
    + destruct Hc as (_ & tail & Htail & _). congruence.
  - rewrite (stream_to_file_raises _ _ _ _ _ _ e0 it) by done. by exists e0.
Qed.

End TerminalFacts.

(** X9. A request that raises ends the call at once, also after [k]
    poisoned attempts: the outcome is [failed] after [k + 1] requests and
    the logged reason is [request_error:<detail>]. *)
Theorem request_error_is_terminal (session : Session) (disk : Disk)
    (z x y html_retries k : Z) (w : World) (e : string) :
  0 <= k <= html_retries ->
  tile_exists_ok (tile_path z x y) w = false ->
  (forall a, 0 <= a < k -> poisoned (session (tile_url z x y) a) = true) ->
  session (tile_url z x y) k = GetRaises e ->
  let res := download_tile session disk z x y html_retries w in
  res.1 = failed /\
  Z.of_nat (requests res.2) = Z.of_nat (requests w) + k + 1 /\
  files res.2 !! FAILED_FILE
  = Some (content FAILED_FILE w +:+ failure_line z x y ("request_error:" +:+ e)).
Proof.
  intros Hk Hmissing Hp Hraise. cbv zeta. unfold download_tile. rewrite Hmissing.
  set (w1 := ensure_dir _ w).
  replace (Z.to_nat (html_retries + 1))
    with (Z.to_nat k + S (Z.to_nat (html_retries - k)))%nat by lia.
  destruct (attempts_poisoned_prefix session disk z x y html_retries
              (Z.to_nat k) (S (Z.to_nat (html_retries - k))) 0 None None w1)
    as (lr' & err' & w2 & -> & Hreq & Hfiles); [intros; apply Hp; lia|lia|].
  replace (0 + Z.of_nat (Z.to_nat k)) with k by lia.
  rewrite (request_error_ends_loop _ _ _ _ _ _ _ _ _ _ _ e) by done.
  unfold finish_failed. cbn [fst snd default].
  change (py_or (Some ("request_error:" +:+ e)) (Some "unknown"))
    with (Some ("request_error:" +:+ e)).
  cbn [default]. split; [done|]. split.
  - rewrite requests_log_failure, requests_emit_get, Hreq.
    change (requests w1) with (requests w). lia.
  - rewrite files_log_failure. unfold append_line. rewrite lookup_insert_eq.
    cbn [files emit]. unfold content.
    assert (Hlog : files w2 !! FAILED_FILE = files w !! FAILED_FILE).
    { rewrite <- (lookup_delete_ne (files w2) (tile_path z x y +:+ ".part"))
        by (intros E; symmetry in E; by apply log_not_part in E).
      rewrite Hfiles. rewrite lookup_delete_ne
        by (intros E; symmetry in E; by apply log_not_part in E).
      done. }
    by rewrite Hlog.
Qed.

Lemma request_error_is_terminal_witness :
  let res := download_tile poison_then_refuse no_fault 3 1 1 3 w0 in
  res.1 = failed /\ requests res.2 = 3%nat /\
  files res.2 !! FAILED_FILE
  = Some ("3/1/1  request_error:connection refused" +:+ newline).
Proof.
  destruct (request_error_is_terminal poison_then_refuse no_fault 3 1 1 3 2 w0
              "connection refused") as (Hst & Hreq & Hlog);
    [lia|reflexivity| |reflexivity|].
  { intros a Ha. assert (a = 0 \/ a = 1) as [-> | ->] by lia; reflexivity. }
  cbv zeta. split; [exact Hst|]. split; [|exact Hlog].
  change (requests w0) with 0%nat in Hreq. lia.
Defined.

(** X10. A body that breaks off before its end is never published: when
    the stream of a 200 response raises, on a body that is neither empty
    nor poisoned, the call fails with an [io_or_stream] reason after that
    request, the destination keeps its content and no [.part] file is
    left, whatever the disk does. *)
Theorem truncated_body_not_published (session : Session) (disk : Disk)
    (z x y html_retries k : Z) (w : World) (r : Response) :
  0 <= k <= html_retries ->
  tile_exists_ok (tile_path z x y) w = false ->
  (forall a, 0 <= a < k -> poisoned (session (tile_url z x y) a) = true) ->
  session (tile_url z x y) k = GetReturns r -> status_code r = 200 ->
  poisoned (session (tile_url z x y) k) = false ->
  empty_reply (session (tile_url z x y) k) = false ->
  chunks (body r) = None ->
  let res := download_tile session disk z x y html_retries w in
  res.1 = failed /\
  Z.of_nat (requests res.2) = Z.of_nat (requests w) + k + 1 /\
  files res.2 !! tile_path z x y = files w !! tile_path z x y /\
  files res.2 !! (tile_path z x y +:+ ".part") = None /\
  exists e,
    files res.2 !! FAILED_FILE
    = Some (content FAILED_FILE w +:+ failure_line z x y ("io_or_stream:" +:+ e)).
Proof.
  intros Hk Hmissing Hp Hr Hs Hnp Hne Hnone. cbv zeta. unfold download_tile.
  rewrite Hmissing. set (w1 := ensure_dir _ w).
  replace (Z.to_nat (html_retries + 1))
    with (Z.to_nat k + S (Z.to_nat (html_retries - k)))%nat by lia.
  destruct (attempts_poisoned_prefix session disk z x y html_retries
              (Z.to_nat k) (S (Z.to_nat (html_retries - k))) 0 None None w1)
    as (lr' & err' & w2 & -> & Hreq & Hfiles); [intros; apply Hp; lia|lia|].
  replace (0 + Z.of_nat (Z.to_nat k)) with k by lia.
  cbn [attempts].
  destruct (attempt_once_truncated session disk z x y k lr' err' w2 r) as (e & ->); try done.
  change (retry_wanted html_retries (Some ("io_or_stream:" +:+ e)) k) with false.
  unfold finish_failed. cbn [fst snd].
  change (py_or (Some ("io_or_stream:" +:+ e)) (Some "unknown"))
    with (Some ("io_or_stream:" +:+ e)).
  cbn [default].
  pose proof (out_not_tmp z x y) as Hot. pose proof (log_not_tile z x y) as Hlt.
  pose proof (log_not_part z x y) as Hlp.
  split; [done|]. split; [|split; [|split]].
  - rewrite requests_log_failure.
    change (requests (set_files _ ?v)) with (requests v).
    rewrite requests_emit_get, Hreq. change (requests w1) with (requests w). lia.
  - rewrite files_log_failure. unfold append_line. rewrite lookup_insert_ne by done.
    cbn [files set_files emit]. rewrite Hfiles. by rewrite lookup_delete_ne.
  - rewrite files_log_failure. unfold append_line. rewrite lookup_insert_ne by done.
    cbn [files set_files emit]. apply lookup_delete_eq.
  - exists e. rewrite files_log_failure. unfold append_line. rewrite lookup_insert_eq.
    cbn [files set_files emit]. rewrite Hfiles.
    rewrite lookup_delete_ne by done. done.
Qed.

Lemma truncated_body_not_published_witness :
  let res := download_tile drops no_fault 3 1 1 3 w0 in
  res.1 = failed /\ requests res.2 = 1%nat /\
  files res.2 !! tile_path 3 1 1 = None /\
  files res.2 !! (tile_path 3 1 1 +:+ ".part") = None.
Proof.
  destruct (truncated_body_not_published drops no_fault 3 1 1 3 0 w0
              (mkResponse 200 None [Chunk "abc"; StreamRaises "connection reset"]))
    as (Hst & Hreq & Hout & Hpart & _);
    [lia|reflexivity|intros a Ha; lia|reflexivity..|].
  cbv zeta. split; [exact Hst|]. split; [|split; [exact Hout|exact Hpart]].
  change (requests w0) with 0%nat in Hreq. lia.
Defined.

(** ** The coordinates of a run *)

Section RangeFacts.

Lemma elem_of_py_range a b i : i ∈ py_range a b <-> a <= i < b.
Proof.
  unfold py_range. rewrite list_elem_of_In, in_map_iff. split.
  - intros (k & <- & Hk%in_seq). lia.
  - intros Hi. exists (Z.to_nat (i - a)). split; [lia|]. apply in_seq. lia.
Qed.

Lemma length_py_range a b : length (py_range a b) = Z.to_nat (b - a).
Proof. unfold py_range. by rewrite length_map, length_seq. Qed.

Lemma sorted_map {A B} (R : relation A) (S : relation B) (g : A -> B) l :
  (forall u v, R u v -> S (g u) (g v)) ->
  StronglySorted R l -> StronglySorted S (List.map g l).
Proof.
  intros Hg. induction 1 as [|u l _ IH Hall]; cbn [List.map]; constructor; [done|].
  apply Forall_forall. intros v (v0 & <- & Hv)%list_elem_of_In%in_map_iff.
  apply Hg. rewrite Forall_forall in Hall. by apply Hall, list_elem_of_In.
Qed.

Lemma sorted_seq start len : StronglySorted lt (seq start len).
Proof.
  revert start. induction len as [|len IH]; intros start; cbn [seq]; constructor; [done|].
  apply Forall_forall. intros k Hk%list_elem_of_In%in_seq. lia.
Qed.

Lemma sorted_py_range a b : StronglySorted Z.lt (py_range a b).
Proof.
  unfold py_range. apply (sorted_map lt); [|apply sorted_seq]. intros u v Huv. lia.
Qed.

Lemma sorted_flat_map {A B} (R : relation A) (S : relation B) (f : A -> list B) l :
  (forall u, StronglySorted S (f u)) ->
  (forall u v p q, R u v -> p ∈ f u -> q ∈ f v -> S p q) ->
  StronglySorted R l -> StronglySorted S (flat_map f l).
Proof.
  intros Hf Hcross. induction 1 as [|u l _ IH Hall]; cbn [flat_map]; [constructor|].
  apply StronglySorted_app_2; [|done..].
  intros p q Hp (v & Hv & Hq)%list_elem_of_In%in_flat_map.
  apply (Hcross u v); [|done|by apply list_elem_of_In].
  rewrite Forall_forall in Hall. by apply Hall, list_elem_of_In.
Qed.

Lemma elem_of_generate_tiles zr xr yr z x y :
  (z, x, y) ∈ generate_tiles zr xr yr <-> z ∈ zr /\ x ∈ xr /\ y ∈ yr.
Proof.
  unfold generate_tiles. rewrite !list_elem_of_In, in_flat_map. split.
  - intros (z0 & Hz & (x0 & Hx & (y0 & [= -> -> ->] & Hy)%in_map_iff)%in_flat_map). done.
  - intros (Hz & Hx & Hy). exists z. split; [done|]. apply in_flat_map.
    exists x. split; [done|]. apply in_map_iff. by exists y.
Qed.

Lemma length_flat_map_const {A B} (f : A -> list B) l c :
  (forall u, length (f u) = c) -> length (flat_map f l) = (length l * c)%nat.
Proof.
  intros Hf. induction l as [|u l IH]; cbn [flat_map length]; [done|].
  rewrite length_app, Hf, IH. lia.
Qed.

Lemma length_generate_tiles zr xr yr :
  length (generate_tiles zr xr yr) = (length zr * (length xr * length yr))%nat.
Proof.
  unfold generate_tiles. apply length_flat_map_const. intros z.
  apply length_flat_map_const. intros x. apply length_map.
Qed.

Lemma sorted_generate_tiles zr xr yr :
  StronglySorted Z.lt zr -> StronglySorted Z.lt xr -> StronglySorted Z.lt yr ->
  StronglySorted lex_lt (generate_tiles zr xr yr).
Proof.
  intros Hz Hx Hy. unfold generate_tiles.
  apply (sorted_flat_map Z.lt); [| |done].
  - intros z. apply (sorted_flat_map Z.lt); [| |done].
    + intros x. apply (sorted_map Z.lt); [|done]. intros u v Huv. cbn. lia.
    + intros u v p q Huv (y1 & <- & _)%list_elem_of_In%in_map_iff
        (y2 & <- & _)%list_elem_of_In%in_map_iff. cbn. lia.
  - intros u v p q Huv
      (x1 & _ & (y1 & <- & _)%in_map_iff)%list_elem_of_In%in_flat_map
      (x2 & _ & (y2 & <- & _)%in_map_iff)%list_elem_of_In%in_flat_map.
    cbn. lia.
Qed.

Lemma lex_lt_irrefl c : ~ lex_lt c c.
Proof. destruct c as [[z x] y]. cbn. lia. Qed.

Lemma sorted_NoDup (l : list (Z * Z * Z)) : StronglySorted lex_lt l -> NoDup l.
Proof.
  induction 1 as [|c l _ IH Hall]; constructor; [|done].
  intros Hc. rewrite Forall_forall in Hall.
  by apply (lex_lt_irrefl c), Hall.
Qed.

End RangeFacts.

(** X11. The coordinates that [main] submits are exactly the triples of
    the three inclusive ranges, each once, in the order of the nested
    loops (by zoom, then x, then y); their number is the product of the
    range sizes, an inverted range counting as empty. *)
Theorem generate_tiles_box (args : Args) :
  (forall z x y,
     (z, x, y) ∈ tiles_of args <->
     z_start args <= z <= z_end args /\ x_start args <= x <= x_end args /\
     y_start args <= y <= y_end args) /\
  StronglySorted lex_lt (tiles_of args) /\ NoDup (tiles_of args) /\
  length (tiles_of args)
  = (Z.to_nat (z_end args + 1 - z_start args)
     * (Z.to_nat (x_end args + 1 - x_start args)
        * Z.to_nat (y_end args + 1 - y_start args)))%nat.
Proof.
  assert (Hsorted : StronglySorted lex_lt (tiles_of args))
    by (apply sorted_generate_tiles; apply sorted_py_range).
  split; [|split; [done|split; [by apply sorted_NoDup|]]].
  - intros z x y. unfold tiles_of.
    rewrite elem_of_generate_tiles, !elem_of_py_range. lia.
  - unfold tiles_of. by rewrite length_generate_tiles, !length_py_range.
Qed.

(** ** Counters and the failure log of a run *)

Section RunFacts.

Variable session : Session.
Variable disk : Disk.

Local Abbreviation run := (run_tasks session disk).

Lemma run_tasks_length tiles : forall w, length (run tiles w).1 = length tiles.
Proof.
  induction tiles as [|[[z x] y] rest IH]; intros w; [done|].
  rewrite run_tasks_cons. cbn [fst length]. by rewrite IH.
Qed.

Lemma fold_count_sum sts : forall c,
  let c' := fold_left count sts c in
  total c' = total c + Z.of_nat (length sts) /\
  n_saved c' + n_skipped c' + n_empty c' + n_failed c'
  = n_saved c + n_skipped c + n_empty c + n_failed c + Z.of_nat (length sts) /\
  n_saved c <= n_saved c' /\ n_skipped c <= n_skipped c' /\
  n_empty c <= n_empty c' /\ n_failed c <= n_failed c'.
Proof.
  induction sts as [|s sts IH]; intros c; cbv zeta; cbn [fold_left length]; [lia|].
  specialize (IH (count c s)). cbv zeta in IH.
  assert (Hs : total (count c s) = total c + 1 /\
    n_saved (count c s) + n_skipped (count c s) + n_empty (count c s) + n_failed (count c s)
    = n_saved c + n_skipped c + n_empty c + n_failed c + 1 /\
    n_saved c <= n_saved (count c s) /\ n_skipped c <= n_skipped (count c s) /\
    n_empty c <= n_empty (count c s) /\ n_failed c <= n_failed (count c s))
    by (destruct s; cbn; lia).
  lia.
Qed.

Lemma fold_count_failed sts : forall c,
  n_failed (fold_left count sts c) = n_failed c + Z.of_nat (length (filter is_failed sts)).
Proof.
  induction sts as [|s sts IH]; intros c; cbn [fold_left]; [cbn; lia|].
  rewrite IH. destruct s;
    [change (filter is_failed (?s :: sts)) with (filter is_failed sts);
     change (n_failed (count c ?s)) with (n_failed c); lia..|].
  change (filter is_failed (failed :: sts)) with (failed :: filter is_failed sts).
  change (n_failed (count c failed)) with (n_failed c + 1). cbn [length]. lia.
Qed.

Lemma length_failed_tiles tiles : forall sts,
  length sts = length tiles ->
  length (failed_tiles tiles sts) = length (filter is_failed sts).
Proof.
  induction tiles as [|c tiles IH]; intros [|s sts] Hlen; try done.
  cbn [failed_tiles]. injection Hlen as Hlen. destruct s;
    [change (filter is_failed (?s :: sts)) with (filter is_failed sts); cbn [is_failed];
     by apply IH..|].
  change (filter is_failed (failed :: sts)) with (failed :: filter is_failed sts).
  cbn [is_failed length]. by rewrite IH.
Qed.

(** The log after one call with a non-negative [html_retries]. *)
Lemma download_tile_logged z x y html_retries w :
  0 <= html_retries ->
  let res := download_tile session disk z x y html_retries w in
  exists reason,
    known_reason reason = true /\
    content FAILED_FILE res.2
    = content FAILED_FILE w
      +:+ (if is_failed res.1 then failure_line z x y reason else EmptyString).
Proof.
  intros Hnn. cbv zeta. unfold download_tile.
  destruct (tile_exists_ok _ w).
  { exists "status:0". split; [done|]. cbn [fst snd is_failed]. by rewrite append_empty_r. }
  set (w1 := ensure_dir _ w).
  destruct (attempts_log session disk z x y html_retries
              (Z.to_nat (html_retries + 1)) 0 None None w1) as [Hfail Hkeep]; [by left|].
  destruct (attempts _ _ _ _ _ _ _ _ _ _ _) as [s w2]. cbn [fst snd] in Hfail, Hkeep |- *.
  destruct s; try (exists "status:0"; split; [done|]; cbn [is_failed];
                   rewrite append_empty_r; unfold content; by rewrite Hkeep).
  destruct (Hfail eq_refl) as (reason & Hlog & [Hk|(_ & _ & Hn)]); [|lia].
  exists reason. split; [done|]. cbn [is_failed]. unfold content at 1. by rewrite Hlog.
Qed.

Lemma run_tasks_log tiles : forall w,
  exists lines,
    Forall2 line_of (failed_tiles tiles (run tiles w).1) lines /\
    content FAILED_FILE (run tiles w).2 = content FAILED_FILE w +:+ join_lines lines.
Proof.
  induction tiles as [|[[z x] y] rest IH]; intros w.
  { exists []. split; [constructor|]. cbn. by rewrite append_empty_r. }
  rewrite run_tasks_cons. cbn [fst snd failed_tiles].
  destruct (download_tile_logged z x y 3 w) as (reason & Hk & Hlog); [lia|].
  destruct (IH (download_tile session disk z x y 3 w).2) as (lines & Hlines & Hcontent).
  rewrite Hcontent, Hlog. destruct (is_failed _).
  - exists (failure_line z x y reason :: lines). split.
    + constructor; [|done]. cbn. eauto.
    + cbn [join_lines fold_right]. by rewrite append_assoc.
  - exists lines. split; [done|]. by rewrite append_empty_r.
Qed.

End RunFacts.

(** X12. The counters that [main] returns add up: [total] is the number
    of submitted coordinates and the sum of the four outcome counters,
    none of which is negative. *)
Theorem main_counters (session : Session) (disk : Disk) (args : Args) (w : World) :
  let c := (main session disk args w).1 in
  total c = Z.of_nat (length (tiles_of args)) /\
  total c = n_saved c + n_skipped c + n_empty c + n_failed c /\
  0 <= n_saved c /\ 0 <= n_skipped c /\ 0 <= n_empty c /\ 0 <= n_failed c.
Proof.
  cbv zeta. rewrite main_eq. cbv zeta. cbn [fst]. fold (tiles_of args).
  pose proof (fold_count_sum (run_tasks session disk (tiles_of args) w).1
                (mkCounters 0 0 0 0 0)) as H.
  cbv zeta in H. rewrite run_tasks_length in H. cbn [total n_saved n_skipped n_empty n_failed] in H.
  lia.
Qed.

(** X13. When one of the three ranges is inverted, [main] submits
    nothing: all counters are zero and the world is untouched. *)
Theorem main_empty_range (session : Session) (disk : Disk) (args : Args) (w : World) :
  z_end args < z_start args \/ x_end args < x_start args \/ y_end args < y_start args ->
  main session disk args w = (mkCounters 0 0 0 0 0, w).
Proof.
  intros Hempty. rewrite main_eq. cbv zeta. fold (tiles_of args).
  assert (Hnil : tiles_of args = []).
  { apply length_zero_iff_nil. unfold tiles_of.
    rewrite length_generate_tiles, !length_py_range.
    destruct Hempty as [H|[H|H]].
    - replace (Z.to_nat (z_end args + 1 - z_start args)) with 0%nat by lia. lia.
    - replace (Z.to_nat (x_end args + 1 - x_start args)) with 0%nat by lia. lia.
    - replace (Z.to_nat (y_end args + 1 - y_start args)) with 0%nat by lia. lia. }
  by rewrite Hnil.
Qed.

Lemma main_empty_range_witness :
  main small_tile no_fault (mkArgs 5 5 10 9 20 20) w0 = (mkCounters 0 0 0 0 0, w0).
Proof. apply main_empty_range. right. left. cbn. lia. Defined.

(** X14. After a run the failure log is its earlier content followed by
    exactly one line per failed coordinate, in task order; each line names
    its coordinate and a reason of a known kind, and the [failed] counter
    is the number of lines added. *)
Theorem main_failure_log (session : Session) (disk : Disk) (args : Args) (w : World) :
  let res := main session disk args w in
  let statuses := (run_tasks session disk (tiles_of args) w).1 in
  exists lines,
    Forall2 line_of (failed_tiles (tiles_of args) statuses) lines /\
    content FAILED_FILE res.2 = content FAILED_FILE w +:+ join_lines lines /\
    n_failed res.1 = Z.of_nat (length lines).
Proof.
  cbv zeta. rewrite main_eq. cbv zeta. cbn [fst snd]. fold (tiles_of args).
  destruct (run_tasks_log session disk (tiles_of args) w) as (lines & Hlines & Hcontent).
  exists lines. split; [done|]. split; [done|].
  rewrite fold_count_failed. cbn [n_failed].
  rewrite <- (Forall2_length _ _ _ Hlines).
  rewrite length_failed_tiles by apply run_tasks_length. lia.
Qed.

(** ** The payload checks on their own *)

Section CheckFacts.

Local Arguments String.append !_ _ : simpl nomatch.

Lemma str_lower_char_facts c :
  Str.str_space (Str.str_lower_char c) = Str.str_space c /\
  Ascii.eqb (Str.str_lower_char c) ";" = Ascii.eqb c ";" /\
  Str.str_lower_char (Str.str_lower_char c) = Str.str_lower_char c.
Proof. destruct c as [[] [] [] [] [] [] [] []]; vm_compute; done. Qed.

Lemma bytes_lower_char_facts c :
  Str.bytes_space (Str.bytes_lower_char c) = Str.bytes_space c /\
  Str.bytes_lower_char (Str.bytes_lower_char c) = Str.bytes_lower_char c /\
  (Ascii.eqb "<" (Str.bytes_lower_char c) = Ascii.eqb "<" c) /\
  (Ascii.eqb "{" (Str.bytes_lower_char c) = Ascii.eqb "{" c).
Proof. destruct c as [[] [] [] [] [] [] [] []]; vm_compute; done. Qed.

Lemma map_drop_while f P s :
  (forall c, P (f c) = P c) ->
  Str.drop_while P (Str.map f s) = Str.map f (Str.drop_while P s).
Proof.
  intros HP. induction s as [|c s IH]; simpl; [done|].
  rewrite HP. by destruct (P c).
Qed.

Lemma map_take_while f P s :
  (forall c, P (f c) = P c) ->
  Str.take_while P (Str.map f s) = Str.map f (Str.take_while P s).
Proof.
  intros HP. induction s as [|c s IH]; simpl; [done|].
  rewrite HP. destruct (P c); simpl; [by rewrite IH|done].
Qed.

Lemma map_rev_app f s t :
  Str.map f (String.rev_app s t) = String.rev_app (Str.map f s) (Str.map f t).
Proof. revert t. induction s as [|c s IH]; intros t; simpl; [done|]. by rewrite IH. Qed.

Lemma map_rev f s : Str.map f (String.rev s) = String.rev (Str.map f s).
Proof. unfold String.rev. by rewrite map_rev_app. Qed.

Lemma map_idem f s : (forall c, f (f c) = f c) -> Str.map f (Str.map f s) = Str.map f s.
Proof. intros Hf. induction s as [|c s IH]; simpl; [done|]. by rewrite Hf, IH. Qed.

Lemma is_empty_map f s : Str.is_empty (Str.map f s) = Str.is_empty s.
Proof. by destruct s. Qed.

Lemma take_while_all_id P s : Str.all P s = true -> Str.take_while P s = s.
Proof.
  induction s as [|c s IH]; simpl; [done|].
  intros [-> Hs]%andb_true_iff. by rewrite IH.
Qed.

Lemma take_while_append_stop P s sep t :
  Str.all P s = true -> P sep = false -> Str.take_while P (s +:+ String sep t) = s.
Proof.
  intros Hs Hsep. induction s as [|c s IH]; simpl in *; [by rewrite Hsep|].
  apply andb_true_iff in Hs as [-> Hs]. by rewrite IH.
Qed.

Lemma drop_while_all_append P ws s :
  Str.all P ws = true -> Str.drop_while P (ws +:+ s) = Str.drop_while P s.
Proof.
  induction ws as [|c ws IH]; simpl; [done|].
  intros [-> Hs]%andb_true_iff. by apply IH.
Qed.

Lemma is_bad_mime_lower ct : is_bad_mime (Str.str_lower ct) = is_bad_mime ct.
Proof.
  unfold is_bad_mime, Str.str_lower, Str.before_first, Str.str_strip, Str.str_rstrip,
    Str.str_lstrip.
  rewrite is_empty_map. destruct (Str.is_empty ct); [done|].
  rewrite map_take_while
    by (intros c; by destruct (str_lower_char_facts c) as (_ & -> & _)).
  rewrite map_drop_while by (intros c; by destruct (str_lower_char_facts c) as (-> & _)).
  rewrite <- map_rev.
  rewrite map_drop_while by (intros c; by destruct (str_lower_char_facts c) as (-> & _)).
  rewrite <- map_rev.
  by rewrite map_idem by (intros c; by destruct (str_lower_char_facts c) as (_ & _ & ->)).
Qed.

Lemma looks_like_lower b :
  looks_like_html_or_json (Str.bytes_lower b) = looks_like_html_or_json b.
Proof.
  unfold looks_like_html_or_json, Str.bytes_lower, Str.bytes_lstrip. cbv zeta.
  rewrite map_drop_while by (intros c; by destruct (bytes_lower_char_facts c) as (-> & _)).
  rewrite <- map_take.
  by rewrite map_idem by (intros c; by destruct (bytes_lower_char_facts c) as (_ & -> & _)).
Qed.

Lemma append_length s t : String.length (s +:+ t) = (String.length s + String.length t)%nat.
Proof. induction s as [|c s IH]; simpl; [done|]. by rewrite IH. Qed.

Lemma append_cancel_r s s' t : s +:+ t = s' +:+ t -> s = s'.
Proof.
  revert s'. induction s as [|c s IH]; intros [|c' s'] E; simpl in E; [done| | |].
  - apply (f_equal String.length) in E. simpl in E. rewrite append_length in E. lia.
  - apply (f_equal String.length) in E. simpl in E. rewrite append_length in E. lia.
  - injection E as -> E. f_equal. by apply IH.
Qed.

End CheckFacts.

(** X15. [is_bad_mime] looks only at what precedes the first semicolon:
    parameters such as a charset do not change the verdict. *)
Theorem is_bad_mime_ignores_parameters (t params : string) :
  Str.all (fun c => negb (Ascii.eqb c ";")) t = true ->
  is_bad_mime (t +:+ ";" +:+ params) = is_bad_mime t.
Proof.
  intros Ht. destruct t as [|c t]; [done|].
  unfold is_bad_mime, Str.before_first.
  change (Str.is_empty (String c t +:+ ";" +:+ params)) with false.
  cbn [Str.is_empty].
  change (String c t +:+ ";" +:+ params) with (String c t +:+ String ";" params).
  rewrite take_while_append_stop by done. by rewrite take_while_all_id.
Qed.

Lemma is_bad_mime_ignores_parameters_witness :
  is_bad_mime "application/x-protobuf; charset=binary" = is_bad_mime "application/x-protobuf".
Proof.
  apply (is_bad_mime_ignores_parameters "application/x-protobuf" " charset=binary").
  reflexivity.
Defined.

(** X16. [is_bad_mime] does not depend on the case of letters: two
    content types with the same lower-case form get the same verdict. *)
Theorem is_bad_mime_case_insensitive (ct ct' : string) :
  Str.str_lower ct = Str.str_lower ct' -> is_bad_mime ct = is_bad_mime ct'.
Proof. intros E. by rewrite <- (is_bad_mime_lower ct), E, is_bad_mime_lower. Qed.

Lemma is_bad_mime_case_insensitive_witness :
  is_bad_mime "Application/Octet-Stream" = is_bad_mime "application/octet-stream".
Proof. apply is_bad_mime_case_insensitive. reflexivity. Defined.

(** X17. Leading ASCII whitespace does not change the verdict of
    [looks_like_html_or_json], however long it is. *)
Theorem looks_like_ignores_leading_space (ws b : string) :
  Str.all Str.bytes_space ws = true ->
  looks_like_html_or_json (ws +:+ b) = looks_like_html_or_json b.
Proof.
  intros Hws. unfold looks_like_html_or_json, Str.bytes_lstrip.
  by rewrite drop_while_all_append.
Qed.

Lemma looks_like_ignores_leading_space_witness :
  looks_like_html_or_json ("   " +:+ "{}") = looks_like_html_or_json "{}".
Proof. apply looks_like_ignores_leading_space. reflexivity. Defined.

(** X18. The verdict of [looks_like_html_or_json] does not depend on the
    case of ASCII letters. *)
Theorem looks_like_case_insensitive (b b' : string) :
  Str.bytes_lower b = Str.bytes_lower b' ->
  looks_like_html_or_json b = looks_like_html_or_json b'.
Proof. intros E. by rewrite <- (looks_like_lower b), E, looks_like_lower. Qed.

Lemma looks_like_case_insensitive_witness :
  looks_like_html_or_json "<HTML>" = looks_like_html_or_json "<html>".
Proof. apply looks_like_case_insensitive. reflexivity. Defined.

(** X19. A chunk is flagged only if its first byte is ASCII whitespace,
    [<] or the opening brace: a payload that starts with any other byte is
    never taken for HTML or JSON, and neither is the empty chunk. *)
Theorem looks_like_needs_opening_byte (c : ascii) (rest : string) :
  Str.bytes_space c = false -> c <> "<"%char -> c <> "{"%char ->
  looks_like_html_or_json (String c rest) = false
  /\ looks_like_html_or_json EmptyString = false.
Proof.
  intros Hsp Hlt Hbr. split; [|done].
  unfold looks_like_html_or_json, Str.bytes_lstrip. cbn [Str.drop_while]. rewrite Hsp.
  cbn [Str.take Str.bytes_lower Str.map Str.startswith].
  destruct (bytes_lower_char_facts c) as (_ & _ & -> & ->).
  destruct (Ascii.eqb_spec "<" c) as [<-|_]; [done|].
  destruct (Ascii.eqb_spec "{" c) as [<-|_]; [done|]. done.
Qed.

Lemma looks_like_needs_opening_byte_witness :
  looks_like_html_or_json (String (ascii_of_N 26) "xlayer") = false.
Proof.
  apply (looks_like_needs_opening_byte (ascii_of_N 26) "xlayer"); [reflexivity|done|done].
Defined.

(** X20. A line of the failure log determines its coordinate and its
    reason: two lines are equal only for the same coordinate and reason. *)
Theorem failure_line_inj (z x y z' x' y' : Z) (reason reason' : string) :
  failure_line z x y reason = failure_line z' x' y' reason' ->
  (z, x, y) = (z', x', y') /\ reason = reason'.
Proof.
  unfold failure_line. intros E.
  apply append_sep_inj in E as [Ez E]; [|apply no_slash..].
  apply append_sep_inj in E as [Ex E]; [|apply no_slash..].
  change ("  " +:+ ?r) with (String " " (String " " r)) in E.
  apply append_sep_inj in E as [Ey E];
    [|apply of_Z_no, digit_not_sep; done..].
  injection E as E. apply append_cancel_r in E.
  apply of_Z_inj in Ez, Ex, Ey. by subst.
Qed.

Lemma failure_line_inj_witness :
  (3, 1, 1) = (3, 1, 1) /\ "status:404" = "status:404".
Proof.
  apply (failure_line_inj 3 1 1 3 1 1 "status:404" "status:404"). reflexivity.
Defined.

(** ** More on one call and on a run *)

(** X21. The status of a call depends on the world only through whether
    the tile is stored: stale [.part] files, the log and other tiles have
    no influence on it. *)
Theorem status_depends_only_on_presence (session : Session) (disk : Disk)
    (z x y html_retries : Z) (w w' : World) :
  tile_exists_ok (tile_path z x y) w = tile_exists_ok (tile_path z x y) w' ->
  (download_tile session disk z x y html_retries w).1
  = (download_tile session disk z x y html_retries w').1.
Proof. intros E. by rewrite !download_tile_status, E. Qed.

Lemma status_depends_only_on_presence_witness :
  (download_tile small_tile no_fault 5 10 20 3 w0).1
  = (download_tile small_tile no_fault 5 10 20 3 w_stored).1.
Proof. apply status_depends_only_on_presence. reflexivity. Defined.

(** X22. Distinct coordinates are requested at distinct URLs, for all
    integers, negative ones included. *)
Theorem tile_url_inj (z x y z' x' y' : Z) :
  tile_url z x y = tile_url z' x' y' -> (z, x, y) = (z', x', y').
Proof.
  unfold tile_url. intros E. apply (inj (String.append BASE_URL)) in E.
  change ("/" +:+ ?r) with (String "/" r) in E. injection E as E.
  apply append_sep_inj in E as [Ez E]; [|apply no_slash..].
  apply append_sep_inj in E as [Ex E]; [|apply no_slash..].
  change (?s +:+ ".pbf") with (s +:+ String "." "pbf") in E.
  apply append_sep_inj in E as [Ey _]; [|apply no_dot..].
  apply of_Z_inj in Ez, Ex, Ey. by subst.
Qed.

Lemma tile_url_inj_witness : (-1, 2, 3) = (-1, 2, 3).
Proof. apply (tile_url_inj (-1) 2 3 (-1) 2 3). reflexivity. Defined.

(** X23. A run that counts no [empty] and no [failed] outcome leaves the
    tile of every coordinate of the ranges stored with at least one
    byte. *)
Theorem main_complete (session : Session) (disk : Disk) (args : Args) (w : World) :
  let res := main session disk args w in
  n_empty res.1 = 0 -> n_failed res.1 = 0 ->
  forall z x y,
    z_start args <= z <= z_end args -> x_start args <= x <= x_end args ->
    y_start args <= y <= y_end args ->
    tile_exists_ok (tile_path z x y) res.2 = true.
Proof.
  cbv zeta. rewrite main_eq. cbv zeta. cbn [fst snd]. fold (tiles_of args).
  intros He Hf z x y Hz Hx Hy.
  assert (Hclean : Forall (fun s => s = saved \/ s = skipped)
                     (run_tasks session disk (tiles_of args) w).1)
    by by apply (fold_count_clean _ (mkCounters 0 0 0 0 0)).
  pose proof (run_first session disk (tiles_of args) w) as Hfirst.
  assert (Hall : Forall (fun c => present c (run_tasks session disk (tiles_of args) w).2 = true)
                   (tiles_of args)).
  { eapply Forall2_Forall_l; [exact Hfirst|].
    eapply Forall_impl; [exact Hclean|]. intros s Hs c [Hp _]. by apply Hp. }
  rewrite Forall_forall in Hall. apply (Hall (z, x, y)).
  unfold tiles_of. rewrite elem_of_generate_tiles, !elem_of_py_range. lia.
Qed.

Lemma main_complete_witness :
  tile_exists_ok (tile_path 5 11 20)
    (main small_tile no_fault (mkArgs 5 5 10 11 20 20) w0).2 = true.
Proof.
  apply (main_complete small_tile no_fault (mkArgs 5 5 10 11 20 20) w0);
    try reflexivity; cbn; lia.
Defined.

(** ** A run with one bad tile *)

Example one_bad_tile_ex :
  let res := main one_bad_tile no_fault (mkArgs 5 5 10 11 20 20) w0 in
  res.1 = mkCounters 2 1 0 0 1 /\
  files res.2 !! FAILED_FILE = Some ("5/10/20  status:500" +:+ newline) /\
  files res.2 !! "zip-tiles/5/11/20.pbf" = Some "abcd" /\
  files res.2 !! "zip-tiles/5/10/20.pbf" = None.
Proof. vm_compute. done. Qed.
